(** * Calendar note tools: frontmatter parser, daily aggregator, event generators

    A shallow embedding of three scripts of the repository,
    [tools/fullnote-to-dailynote-converter.py],
    [tools/generate_full_note_calendar.py] and
    [tools/generate_daily_note_calendar.py], together with the handful of
    Python runtime operations they call.

    - [Py] : Python values and built-ins used by the scripts ([str] methods,
      insertion-ordered [dict], exceptions, a state-and-exception monad).
    - [Converter] : [extract_frontmatter], [process_markdown_file],
      [write_aggregated_files], [main].
    - [Generator] : [gen_single_event], [gen_recurring_event],
      [write_single], [write_recurring].
    - [DailyGenerator] : [gen_events_for_day], [write_day_file].
    - [Pipeline] : the notes of [Generator] as the input of [Converter].
    - [PyFacts], [ConverterFacts], [GeneratorFacts], [DailyGeneratorFacts],
      [PipelineFacts] : what is proved of them.

    A Python [str] is a list of characters; a character is a code point in
    the range 0..255, carried by [ascii]. *)

From Stdlib Require Import List Ascii String ZArith NArith QArith Lia Bool.
From Stdlib Require Import DecimalString Permutation Sorted.
Import ListNotations.

Set Implicit Arguments.

(* ================================================================== *)
(** * Python runtime *)
(* ================================================================== *)

Module Py.

Definition str := list ascii.

(** A string literal of the source. *)
Definition py (s : string) : str := list_ascii_of_string s.

Definition LF : ascii := ascii_of_nat 10.
Definition CR : ascii := ascii_of_nat 13.

Definition chr_eqb (a b : ascii) : bool := Ascii.eqb a b.

Fixpoint str_eqb (a b : str) : bool :=
  match a, b with
  | [], [] => true
  | x :: a', y :: b' => chr_eqb x y && str_eqb a' b'
  | _, _ => false
  end.

(** [bool(s)] for a string: the empty string is the only falsy one. *)
Definition truthy (s : str) : bool :=
  match s with [] => false | _ :: _ => true end.

(** [c in s] for a one-character needle. *)
Definition contains (c : ascii) (s : str) : bool := existsb (chr_eqb c) s.

(** [s.startswith(p)], returning what follows the prefix. *)
Fixpoint strip_prefix (p s : str) : option str :=
  match p with
  | [] => Some s
  | x :: p' =>
      match s with
      | y :: s' => if chr_eqb x y then strip_prefix p' s' else None
      | [] => None
      end
  end.

Definition startswith (s p : str) : bool :=
  match strip_prefix p s with Some _ => true | None => false end.

Fixpoint endswith_chr (s : str) (c : ascii) : bool :=
  match s with
  | [] => false
  | [x] => chr_eqb x c
  | _ :: s' => endswith_chr s' c
  end.

(** Whitespace, as [str.strip], [str.isspace] and the pattern class [\s] see
    it on code points below 256: TAB..CR, FS..US, space, NEL and NBSP. *)
Definition is_space (c : ascii) : bool :=
  let n := N_of_ascii c in
  ((9 <=? n) && (n <=? 13) || (28 <=? n) && (n <=? 32)
   || (n =? 133) || (n =? 160))%N.

(** Line boundaries of [str.splitlines] on code points below 256:
    LF, VT, FF, CR, FS, GS, RS and NEL. *)
Definition is_linebreak (c : ascii) : bool :=
  let n := N_of_ascii c in
  ((10 <=? n) && (n <=? 13) || (28 <=? n) && (n <=? 30) || (n =? 133))%N.

Fixpoint lstrip (s : str) : str :=
  match s with
  | [] => []
  | c :: s' => if is_space c then lstrip s' else s
  end.

Fixpoint rstrip (s : str) : str :=
  match s with
  | [] => []
  | c :: s' =>
      match rstrip s' with
      | [] => if is_space c then [] else [c]
      | r => c :: r
      end
  end.

(** [s.strip()] *)
Definition strip (s : str) : str := rstrip (lstrip s).

(** [s.splitlines()]: the lines without their terminators; CR LF is one
    terminator; no empty line is reported after a final terminator. *)
Fixpoint splitlines (s : str) : list str :=
  match s with
  | [] => []
  | c :: rest =>
      if is_linebreak c then
        match rest with
        | c2 :: rest' =>
            if chr_eqb c CR && chr_eqb c2 LF
            then [] :: splitlines rest'
            else [] :: splitlines rest
        | [] => [[]]
        end
      else
        match splitlines rest with
        | [] => [[c]]
        | l :: ls => (c :: l) :: ls
        end
  end.

(** [s.split(sep, 1)] for a one-character separator: one piece when the
    separator does not occur, otherwise the text before its first
    occurrence and the text after it. *)
Fixpoint split1 (sep : ascii) (s : str) : list str :=
  match s with
  | [] => [[]]
  | c :: s' =>
      if chr_eqb c sep then [[]; s']
      else
        match split1 sep s' with
        | h :: t => (c :: h) :: t
        | [] => [[c]]
        end
  end.

(** [sep.join(parts)] *)
Fixpoint join (sep : str) (parts : list str) : str :=
  match parts with
  | [] => []
  | [p] => p
  | p :: ps => p ++ sep ++ join sep ps
  end.

(** [str(n)] and [f"{n}"] for an integer. *)
Definition str_of_int (z : Z) : str :=
  py (NilZero.string_of_int (Z.to_int z)).

(** [f"{n:02d}"] for an integer: padded with a zero to two characters; a
    negative number already fills the width with its sign. *)
Definition fmt_02d (z : Z) : str :=
  if (0 <=? z)%Z && (z <? 10)%Z then py "0" ++ str_of_int z
  else str_of_int z.

(** ** Insertion-ordered dictionaries

    A [dict] keeps its keys in the order of first insertion; assigning an
    existing key replaces the value in place. *)
Section Dict.
Variable V : Type.

Definition dict := list (str * V).

Fixpoint dict_get (d : dict) (k : str) : option V :=
  match d with
  | [] => None
  | (k', v) :: d' => if str_eqb k k' then Some v else dict_get d' k
  end.

(** [d.get(k, default)] *)
Definition dict_get_default (d : dict) (k : str) (default : V) : V :=
  match dict_get d k with Some v => v | None => default end.

(** [d[k] = v] *)
Fixpoint dict_set (d : dict) (k : str) (v : V) : dict :=
  match d with
  | [] => [(k, v)]
  | (k', v') :: d' =>
      if str_eqb k k' then (k', v) :: d' else (k', v') :: dict_set d' k v
  end.

Definition dict_keys (d : dict) : list str := map fst d.
End Dict.

(** ** Exceptions and effects *)

Inductive exn : Type :=
| ValueError
| IndexError
| KeyError
| OSError (path : str)
| FileNotFoundError (path : str)
| UnicodeDecodeError (path : str).

Inductive outcome (A : Type) : Type :=
| Return (a : A)
| Raise (e : exn).
Arguments Return {A} a.
Arguments Raise {A} e.

(** [str(e)], up to the wording of the message. *)
Definition str_of_exn (e : exn) : str :=
  match e with
  | ValueError => py "ValueError"
  | IndexError => py "IndexError"
  | KeyError => py "KeyError"
  | OSError path => py "OSError: " ++ path
  | FileNotFoundError path => py "No such file or directory: " ++ path
  | UnicodeDecodeError path => py "'utf-8' codec can't decode: " ++ path
  end.

(** A computation over a state [S] that returns or raises. *)
Definition M (S A : Type) : Type := S -> outcome A * S.

Definition ret {S A} (a : A) : M S A := fun s => (Return a, s).
Definition raise {S A} (e : exn) : M S A := fun s => (Raise e, s).
Definition bind {S A B} (m : M S A) (f : A -> M S B) : M S B :=
  fun s =>
    match m s with
    | (Return a, s') => f a s'
    | (Raise e, s') => (Raise e, s')
    end.
Definition get {S} : M S S := fun s => (Return s, s).
Definition modify {S} (f : S -> S) : M S unit := fun s => (Return tt, f s).

(** [for x in xs: body(x)] *)
Fixpoint for_each {S A} (xs : list A) (body : A -> M S unit) : M S unit :=
  match xs with
  | [] => ret tt
  | x :: xs' => bind (body x) (fun _ => for_each xs' body)
  end.

(** A string that does not begin with whitespace; a string that holds no
    line boundary. *)
Definition no_leading_space (s : str) : Prop :=
  match s with [] => True | c :: _ => is_space c = false end.

Definition no_linebreak (s : str) : Prop :=
  Forall (fun c => is_linebreak c = false) s.

(** A plain value: not empty, no whitespace at either end, no line
    boundary; and the same as a test. *)
Definition plain (s : str) : Prop :=
  s <> [] /\ strip s = s /\ no_linebreak s.

Definition plainb (s : str) : bool :=
  truthy s && str_eqb (strip s) s
  && forallb (fun c => negb (is_linebreak c)) s.

(** [m] returns, whatever the state, with a value that satisfies [P]. *)
Definition returns {S A} (m : M S A) (P : A -> Prop) : Prop :=
  forall s, exists a s', m s = (Return a, s') /\ P a.

End Py.

Declare Scope py_scope.
Delimit Scope py_scope with py.
Notation "x <- m ;; k" := (Py.bind m (fun x => k))
  (at level 61, m at next level, right associativity) : py_scope.
Notation "m ;;; k" := (Py.bind m (fun _ => k))
  (at level 61, right associativity) : py_scope.

(* ================================================================== *)
(** * tools/fullnote-to-dailynote-converter.py *)
(* ================================================================== *)

Module Converter.
Import Py.
Local Open Scope py_scope.

(** ** State of a run *)

(** One value of [events_by_date]: [{"events": [], "diary": []}]. *)
Record day : Type := Day { events : list str; diary : list str }.

(** What can go wrong on a path: the file is there but [open(path, "r")]
    raises; it opens but reading it raises (its bytes are not UTF-8
    text); [open(path, "w")] raises; or the file opens for writing and a
    write raises once the text would go beyond the room there is. *)
Inductive fault : Type :=
| NoRead
| NotText
| NoOpen
| Full (room : nat).

(** What the script reads and writes: the files that read as text (path
    to the text [read()] returns, decoded and with its line ends
    translated), the faults of the file system (those of reading, for
    paths that are not among the files), the module-level
    [events_by_date], and the lines printed. *)
Record world : Type := World {
  files : dict str;
  faults : dict fault;
  events_by_date : dict day;
  stdout : list str
}.

Definition set_files (f : dict str -> dict str) (w : world) : world :=
  World (f (files w)) (faults w) (events_by_date w) (stdout w).
Definition set_events_by_date (f : dict day -> dict day) (w : world) : world :=
  World (files w) (faults w) (f (events_by_date w)) (stdout w).

Definition print (line : str) : M world unit :=
  modify (fun w => World (files w) (faults w) (events_by_date w)
                         (stdout w ++ [line])).

(** [open(path, "r", encoding="utf-8").read()]: the text of a file that
    reads as text; for a file that is there and does not, the error of
    [open] or the [UnicodeDecodeError] of [read]; for no file,
    [FileNotFoundError]. *)
Definition read_text (path : str) : M world str :=
  fun w => match dict_get (files w) path with
           | Some text => (Return text, w)
           | None =>
               match dict_get (faults w) path with
               | Some NoRead => (Raise (OSError path), w)
               | Some NotText => (Raise (UnicodeDecodeError path), w)
               | _ => (Raise (FileNotFoundError path), w)
               end
           end.

(** [open(path, "w")]: raises on a path that cannot be opened, otherwise
    the file exists and is empty. *)
Definition open_w (path : str) : M world unit :=
  fun w => match dict_get (faults w) path with
           | Some NoOpen => (Raise (OSError path), w)
           | _ => (Return tt, set_files (fun fs => dict_set fs path []) w)
           end.

(** [f.write(data)] on a file opened for writing: raises, and writes
    nothing, when the file has no room for [data]. *)
Definition write (path : str) (data : str) : M world unit :=
  fun w =>
    let text := dict_get_default (files w) path [] ++ data in
    let w' := set_files (fun fs => dict_set fs path text) w in
    match dict_get (faults w) path with
    | Some (Full room) =>
        if (room <? List.length text)%nat then (Raise (OSError path), w)
        else (Return tt, w')
    | _ => (Return tt, w')
    end.

(** [try: body except Exception as e: handler(e)]; what [body] did to the
    state before it raised stays done. *)
Definition try_except {A} (body : M world A) (handler : exn -> M world A)
  : M world A :=
  fun w => match body w with
           | (Return a, w') => (Return a, w')
           | (Raise e, w') => handler e w'
           end.

Definition EXPORT_DIR : str := py "exported".

(** [dir / name] of pathlib, for a name of one segment: an absolute name
    replaces the directory. *)
Definition path_div (dir name : str) : str :=
  if startswith name (py "/") then name else dir ++ py "/" ++ name.

(** ** The pattern of [extract_frontmatter]

    [re.match(r"^---\s*\n(.*?)\n---\s*", text, re.DOTALL)], as the
    backtracking matcher runs it: each piece of the pattern takes the
    matcher of what follows it. *)
Section Pattern.
Variable R : Type.

(** [\s*] (greedy): the longest run of whitespace first, then shorter. *)
Fixpoint star_space (k : str -> option R) (s : str) : option R :=
  match s with
  | c :: s' =>
      if is_space c then
        match star_space k s' with
        | Some r => Some r
        | None => k s
        end
      else k s
  | [] => k s
  end.

(** [(.*?)] (lazy, DOTALL): the shortest capture first, any character. *)
Fixpoint lazy_any (k : str -> option R) (s : str) : option (str * R) :=
  match k s with
  | Some r => Some ([], r)
  | None =>
      match s with
      | c :: s' =>
          match lazy_any k s' with
          | Some (g, r) => Some (c :: g, r)
          | None => None
          end
      | [] => None
      end
  end.
End Pattern.

(** [\n---\s*], the end of the pattern: what is left of the text. *)
Definition closing (s4 : str) : option str :=
  match strip_prefix (LF :: py "---") s4 with
  | Some s5 => star_space (fun s6 => Some s6) s5
  | None => None
  end.

(** [\n(.*?)\n---\s*]: the captured block and what is left. *)
Definition block (s2 : str) : option (str * str) :=
  match s2 with
  | c :: s3 => if chr_eqb c LF then lazy_any closing s3 else None
  | [] => None
  end.

(** The match: [group(1)] and [text[match.end():]]. *)
Definition re_match_frontmatter (text : str) : option (str * str) :=
  match strip_prefix (py "---") text with
  | None => None
  | Some s1 => star_space block s1
  end.

(** The loop over [frontmatter_text.splitlines()]; unpacking
    [line.split(":", 1)] into two names raises [ValueError] unless there
    are two pieces. *)
Fixpoint parse_lines (lines : list str) (frontmatter : dict str)
  : outcome (dict str) :=
  match lines with
  | [] => Return frontmatter
  | line :: rest =>
      if contains ":"%char line then
        match split1 ":"%char line with
        | [key; value] =>
            parse_lines rest (dict_set frontmatter (strip key) (strip value))
        | _ => Raise ValueError
        end
      else parse_lines rest frontmatter
  end.

Definition extract_frontmatter (text : str) : outcome (dict str * str) :=
  match re_match_frontmatter text with
  | None => Return ([], text)
  | Some (frontmatter_text, after) =>
      let body := strip after in
      match parse_lines (splitlines frontmatter_text) [] with
      | Return frontmatter => Return (frontmatter, body)
      | Raise e => Raise e
      end
  end.

(** ** [process_markdown_file] *)

(** Lines 100-103: [completed] is always a string here (the default of
    [get] is the empty string), so [completed is not None] holds. *)
Definition checkbox_of (completed : str) : str :=
  if negb (str_eqb completed []) then
    (if truthy completed then py "[x]" else py "[ ]")
  else [].

(** Lines 88-114: the event line of a note with these fields. *)
Definition event_line (frontmatter : dict str) : str :=
  let title := dict_get_default frontmatter (py "title") (py "Untitled") in
  let timezone := dict_get_default frontmatter (py "timezone") [] in
  let start := dict_get_default frontmatter (py "startTime") [] in
  let end_ := dict_get_default frontmatter (py "endTime") [] in
  let end_date := dict_get_default frontmatter (py "endDate") [] in
  let completed := dict_get_default frontmatter (py "completed") [] in
  let checkbox := checkbox_of completed in
  if negb (str_eqb end_date []) then
    py "- " ++ checkbox ++ py " " ++ title ++ py "  [startTime:: " ++ start
    ++ py "]  " ++ py "[endTime:: " ++ end_ ++ py "]  [endDate:: "
    ++ end_date ++ py "]  [timezone:: " ++ timezone ++ py "]"
  else
    py "- " ++ checkbox ++ py " " ++ title ++ py "  [startTime:: " ++ start
    ++ py "]  " ++ py "[endTime:: " ++ end_ ++ py "]  [timezone:: "
    ++ timezone ++ py "]".

(** [events_by_date[date]]: a missing key is created with empty lists. *)
Definition day_of (agg : dict day) (date : str) : day :=
  dict_get_default agg date (Day [] []).

(** [events_by_date[date]["events"].append(line)] *)
Definition append_event (date line : str) (agg : dict day) : dict day :=
  let d := day_of agg date in
  dict_set agg date (Day (events d ++ [line]) (diary d)).

(** [events_by_date[date]["diary"].append(body)] *)
Definition append_diary (date body : str) (agg : dict day) : dict day :=
  let d := day_of agg date in
  dict_set agg date (Day (events d) (diary d ++ [body])).

Definition process_markdown_file (file_path : str) : M world unit :=
  content <- read_text file_path ;;
  if negb (startswith content (py "---")) then ret tt
  else
    try_except
      (match extract_frontmatter content with
       | Raise e => raise e
       | Return (frontmatter, body) =>
           match dict_get frontmatter (py "date") with
           | None => ret tt
           | Some date =>
               if negb (truthy date) then ret tt
               else
                 modify (set_events_by_date
                           (append_event date (event_line frontmatter))) ;;;
                 if truthy body
                 then modify (set_events_by_date (append_diary date body))
                 else ret tt
           end
       end)
      (fun e => print (py "Failed to parse " ++ file_path ++ py ": "
                       ++ str_of_exn e)).

(** ** [write_aggregated_files] *)

Definition output_path (date : str) : str :=
  path_div EXPORT_DIR (date ++ py ".md").

(** The body of the loop: one date, one file. *)
Definition write_day (entry : str * day) : M world unit :=
  let (date, data) := entry in
  let path := output_path date in
  open_w path ;;;
  write path (py "## Events" ++ [LF]) ;;;
  for_each (events data) (fun event => write path (event ++ [LF])) ;;;
  write path (py "## Diary" ++ [LF]) ;;;
  for_each (diary data) (fun d => write path (d ++ [LF])).

Definition write_aggregated_files : M world unit :=
  w <- get ;;
  for_each (events_by_date w) write_day.

(** [main], given the markdown files the directory walk yields, in its
    order. *)
Definition main (walk : list str) : M world unit :=
  for_each walk process_markdown_file ;;;
  write_aggregated_files ;;;
  print (py "Conversion complete. Files written to 'exported/'.").

(** ** Vocabulary of the statements *)

(** The text has a pair of delimiters as the pattern takes them: it
    begins with [---], only whitespace follows up to a line feed, and
    behind that line feed comes a further line feed followed by [---],
    whatever stands behind these dashes. *)
Definition delimited (text : str) : Prop :=
  exists ws inner rest,
    Forall (fun c => is_space c = true) ws
    /\ text = py "---" ++ ws ++ [LF] ++ inner ++ LF :: py "---" ++ rest.

(** The delimiters as the specification words them. A [---] line holds
    three dashes and at most whitespace behind them; a text has a
    well-formed pair of [---] lines when its first line is one and a
    later line is one. *)
Fixpoint lines_of (text : str) : list str :=
  match text with
  | [] => [[]]
  | c :: rest =>
      if chr_eqb c LF then [] :: lines_of rest
      else match lines_of rest with
           | line :: lines => (c :: line) :: lines
           | [] => [[c]]
           end
  end.

Definition dash_line (line : str) : bool :=
  match strip_prefix (py "---") line with
  | Some behind => forallb is_space behind
  | None => false
  end.

Definition delimiter_lines (text : str) : bool :=
  match lines_of text with
  | first :: later => dash_line first && existsb dash_line later
  | [] => false
  end.

(** A mapping written back as a frontmatter block, in the layout the note
    generator uses: a [---] line, one [key: value] line per entry, a
    [---] line. *)
Definition entry_line (entry : str * str) : str :=
  fst entry ++ py ": " ++ snd entry.

Definition serialize (frontmatter : dict str) : str :=
  py "---" ++ [LF]
  ++ List.concat (map (fun entry => entry_line entry ++ [LF]) frontmatter)
  ++ py "---" ++ [LF].

(** What every entry of a parsed mapping satisfies: key and value are
    stripped and hold no line boundary, the key holds no colon. *)
Definition entry_ok (entry : str * str) : Prop :=
  let (k, v) := entry in
  strip k = k /\ strip v = v /\ contains ":"%char k = false
  /\ Forall (fun c => is_linebreak c = false) k
  /\ Forall (fun c => is_linebreak c = false) v.

(** The text [write_aggregated_files] gives the file of one date. *)
Definition render (data : day) : str :=
  py "## Events" ++ [LF]
  ++ List.concat (map (fun event => event ++ [LF]) (events data))
  ++ py "## Diary" ++ [LF]
  ++ List.concat (map (fun d => d ++ [LF]) (diary data)).

(** The pieces of that text, one for each call of [f.write]. *)
Definition chunks_of (data : day) : list str :=
  [py "## Events" ++ [LF]]
  ++ map (fun event => event ++ [LF]) (events data)
  ++ [py "## Diary" ++ [LF]]
  ++ map (fun d => d ++ [LF]) (diary data).

(** Nothing stands in the way of writing [path]. *)
Definition writable (w : world) (path : str) : bool :=
  match dict_get (faults w) path with
  | Some NoOpen | Some (Full _) => false
  | _ => true
  end.

(** Writing [text] to [path] fails: the file cannot be opened, or it has
    less room than the text needs. *)
Definition write_fails (w : world) (path text : str) : bool :=
  match dict_get (faults w) path with
  | Some NoOpen => true
  | Some (Full room) => (room <? List.length text)%nat
  | _ => false
  end.

(** The title and the annotations of an event line. *)
Definition title_of (frontmatter : dict str) : str :=
  dict_get_default frontmatter (py "title") (py "Untitled").

Definition annotations_of (frontmatter : dict str) : str :=
  let timezone := dict_get_default frontmatter (py "timezone") [] in
  let start := dict_get_default frontmatter (py "startTime") [] in
  let end_ := dict_get_default frontmatter (py "endTime") [] in
  let end_date := dict_get_default frontmatter (py "endDate") [] in
  py "  [startTime:: " ++ start ++ py "]  [endTime:: " ++ end_
  ++ (if negb (str_eqb end_date [])
      then py "]  [endDate:: " ++ end_date else [])
  ++ py "]  [timezone:: " ++ timezone ++ py "]".

(** The event lines gathered so far for a date. *)
Definition events_on (w : world) (date : str) : list str :=
  events (day_of (events_by_date w) date).

(** The world after [path] has been given the text [content]. *)
Definition put (path content : str) (w : world) : world :=
  World (dict_set (files w) path content) (faults w)
        (events_by_date w) (stdout w).

(** The world after every date of [agg] has been written, in order. *)
Definition flushed (agg : dict day) (w : world) : world :=
  fold_left (fun w' entry => put (output_path (fst entry))
                                 (render (snd entry)) w') agg w.

(** ** Examples *)

(** The note of the specification's example, and a directory holding it. *)
Definition call_note : str :=
  py "--- " ++ [LF] ++ py "date: 2025-07-21" ++ [LF]
  ++ py "title: Call" ++ [LF] ++ py "startTime: 09:00" ++ [LF]
  ++ py "endTime: 10:00" ++ [LF] ++ py "timezone: Europe/Budapest" ++ [LF]
  ++ py "completed: true" ++ [LF] ++ py "---" ++ [LF] ++ py "Followed up.".

Definition call_line : str :=
  py "- [x] Call  [startTime:: 09:00]  [endTime:: 10:00]  [timezone:: Europe/Budapest]".

Definition call_daily : str :=
  py "## Events" ++ [LF] ++ call_line ++ [LF]
  ++ py "## Diary" ++ [LF] ++ py "Followed up." ++ [LF].

Definition call_world : world :=
  World [(py "Call.md", call_note)] [] [] [].

(** A note whose [completed] field says false. *)
Definition walk_note : str :=
  py "---" ++ [LF] ++ py "date: 2025-07-22" ++ [LF]
  ++ py "title: Walk" ++ [LF] ++ py "completed: false" ++ [LF]
  ++ py "---" ++ [LF].

Definition walk_world : world :=
  World [(py "Walk.md", walk_note)] [] [] [].

(** An aggregate of two dates whose first output file cannot be opened. *)
Definition two_days : dict day :=
  [(py "2025-07-21", Day [call_line] [py "Followed up."]);
   (py "2025-07-22", Day [py "-  Walk  [startTime:: ]  [endTime:: ]  [timezone:: ]"] [])].

Definition blocked_world : world :=
  World [] [(output_path (py "2025-07-21"), NoOpen)] two_days [].

(** The same aggregate when it is the second file that cannot be opened. *)
Definition blocked_second_world : world :=
  World [] [(output_path (py "2025-07-22"), NoOpen)] two_days [].

(** The same aggregate when the first file opens and has room for twenty
    characters, and when the second has. *)
Definition full_world : world :=
  World [] [(output_path (py "2025-07-21"), Full 20)] two_days [].

Definition full_second_world : world :=
  World [(py "exported/2025-07-22.md", py "old")]
        [(output_path (py "2025-07-22"), Full 20)] two_days [].

(** A note whose last line carries text behind the dashes. *)
Definition trailing_note : str :=
  py "---" ++ [LF] ++ py "k: v" ++ [LF] ++ py "---x".

(** A block whose second key begins with three dashes. *)
Definition dashed_note : str :=
  py "---" ++ [LF] ++ py "a: b" ++ [LF] ++ py " ---c: d" ++ [LF]
  ++ py "---" ++ [LF].

Definition dashed_mapping : dict str :=
  [(py "a", py "b"); (py "---c", py "d")].

(** ** Further vocabulary *)

(** The diary bodies gathered so far for a date. *)
Definition diary_on (w : world) (date : str) : list str :=
  diary (day_of (events_by_date w) date).

(** A note: the block of a mapping, one [key: value] line per entry
    between two [---] lines, and the text that follows the closing
    dashes. *)
Definition frontmatter_note (frontmatter : dict str) (rest : str) : str :=
  py "---" ++ [LF]
  ++ List.concat (map (fun entry => entry_line entry ++ [LF]) frontmatter)
  ++ py "---" ++ rest.

(** A date that gives a file name of one path segment, as [path_div]
    supposes. *)
Definition one_segment (date : str) : Prop := contains "/"%char date = false.


(** Two notes of one day, and the directory that holds them. *)
Definition morning_note : str :=
  frontmatter_note [(py "date", py "2025-07-21"); (py "title", py "Run")]
                   ([LF] ++ py "Five km.").

Definition evening_note : str :=
  frontmatter_note [(py "date", py "2025-07-21"); (py "title", py "Call");
                    (py "endDate", py "2025-07-22")]
                   ([LF] ++ py "Followed up.").

Definition day_world : world :=
  World [(py "a.md", morning_note); (py "b.md", evening_note);
         (py "README.md", py "# Vault")]
        [] [] [].

(** The same directory with a file that is not UTF-8 text. *)
Definition binary_world : world :=
  World (files day_world) [(py "photo.md", NotText)] [] [].


(** The dictionary a sequence of assignments builds: [d[k] = v] for each
    pair in turn, from the empty dictionary. *)
Definition dict_of (entries : list (str * str)) : dict str :=
  fold_left (fun d entry => dict_set d (fst entry) (snd entry)) entries [].

(** No key begins with three dashes. *)
Definition undashed (entries : list (str * str)) : Prop :=
  Forall (fun entry => startswith (fst entry) (py "---") = false) entries.

End Converter.

(* ================================================================== *)
(** * tools/generate_full_note_calendar.py *)
(* ================================================================== *)

Module Generator.
Import Py.
Local Open Scope py_scope.
Local Open Scope Z_scope.

(** ** The [random] module

    The generator's state is the sequence of raw draws still to come; a
    draw below [n] is the next raw value reduced modulo [n], so every
    value of the range is an outcome of some sequence. An exhausted
    sequence keeps yielding 0. *)
Definition rng := list N.

Definition randbelow (n : N) : M rng N :=
  fun t => match t with
           | [] => (Return 0%N, [])
           | x :: t' => (Return (x mod n)%N, t')
           end.

(** [random.random()]: a multiple of 2^-53 in [0, 1). *)
Definition random : M rng Q :=
  k <- randbelow (2 ^ 53) ;;
  ret (Z.of_N k # 2 ^ 53).

(** [random.randint(a, b)] *)
Definition randint (a b : Z) : M rng Z :=
  if b <? a then raise ValueError
  else k <- randbelow (Z.to_N (b - a + 1)) ;; ret (a + Z.of_N k).

(** [random.choice(seq)] *)
Definition choice {A} (seq : list A) : M rng A :=
  match seq with
  | [] => raise IndexError
  | _ :: _ =>
      j <- randbelow (N.of_nat (List.length seq)) ;;
      match nth_error seq (N.to_nat j) with
      | Some x => ret x
      | None => raise IndexError
      end
  end.

(** [pool[j] = x] *)
Fixpoint list_set {A} (pool : list A) (j : nat) (x : A) : list A :=
  match pool, j with
  | [], _ => []
  | _ :: p, O => x :: p
  | y :: p, S j' => y :: list_set p j' x
  end.

(** The selection loop of [random.sample] over a pool of [n] candidates:
    [j = randbelow(n - i); result[i] = pool[j]; pool[j] = pool[n - i - 1]]. *)
Fixpoint sample_loop {A} (pool : list A) (n k : nat) : M rng (list A) :=
  match k with
  | O => ret []
  | S k' =>
      j <- randbelow (N.of_nat n) ;;
      match nth_error pool (N.to_nat j), nth_error pool (n - 1) with
      | Some x, Some last =>
          rest <- sample_loop (list_set pool (N.to_nat j) last) (n - 1) k' ;;
          ret (x :: rest)
      | _, _ => raise IndexError
      end
  end.

(** [random.sample(population, k)], for the small populations of this
    script (the pool branch of the library). *)
Definition sample {A} (population : list A) (k : Z) : M rng (list A) :=
  let n := List.length population in
  if negb ((0 <=? k) && (k <=? Z.of_nat n)) then raise ValueError
  else sample_loop population n (Z.to_nat k).

(** The floating-point literals of the script, as the exact rationals
    they denote. *)
Definition float_0_2 : Q := 3602879701896397 # 2 ^ 54.
Definition float_0_6 : Q := 5404319552844595 # 2 ^ 53.
Definition float_0_85 : Q := 7656119366529843 # 2 ^ 53.

Definition Qltb (x y : Q) : bool := negb (Qle_bool y x).

(** ** Constants *)

Definition TZ_CHOICES : list str :=
  [py "Europe/Budapest"; py "America/New_York"; py "Europe/London";
   py "Asia/Tokyo"; py "Australia/Sydney"].

Definition CATEGORIES : dict (list str) :=
  [(py "Work", [py "Project Alpha"; py "Project Beta"; py "Team"; py "Clients"]);
   (py "Personal", [py "Health"; py "Family"; py "Finance"; py "Hobby"]);
   (py "Fitness", [py "Running"; py "Gym"; py "Yoga"]);
   (py "Learning", [py "Course"; py "Reading"; py "Practice"]);
   (py "Errands", [py "Shopping"; py "Home"; py "Car"])].

Definition TITLE_TAILS : list str :=
  [py "Sprint Planning"; py "Daily Standup"; py "1:1"; py "Client Call";
   py "Design Session"; py "Code Review"; py "Deep Work"; py "Workshop";
   py "Brainstorm"; py "Morning Run"; py "Gym Session"; py "Yoga Flow";
   py "Study Block"; py "Reading"; py "Grocery Run"].

Definition DOW : list str :=
  [py "U"; py "M"; py "T"; py "W"; py "R"; py "F"; py "S"].

(** [l[a:b]] for indices within the list. *)
Definition slice {A} (l : list A) (a b : nat) : list A :=
  firstn (b - a) (skipn a l).

(** ** Helpers *)

Definition fmt_hhmm (total_minutes : Z) : str :=
  let h := Z.max 0 total_minutes / 60 in
  let m := Z.max 0 total_minutes mod 60 in
  fmt_02d h ++ py ":" ++ fmt_02d m.

(** [if category and sub], [if category]: [None] and the empty string are
    falsy. *)
Definition truthy_opt (s : option str) : bool :=
  match s with Some (_ :: _) => true | _ => false end.

Definition opt_str (s : option str) : str :=
  match s with Some x => x | None => py "None" end.

Definition build_constructed_title (category sub : option str) (title : str)
  : str :=
  if truthy_opt category && truthy_opt sub then
    opt_str category ++ py " - " ++ opt_str sub ++ py " - " ++ title
  else if truthy_opt category then
    opt_str category ++ py " - " ++ title
  else title.

Definition pick_category : M rng (str * str) :=
  cat <- choice (dict_keys CATEGORIES) ;;
  match dict_get CATEGORIES cat with
  | None => raise KeyError
  | Some subs => sub <- choice subs ;; ret (cat, sub)
  end.

(** ** Events *)

(** [datetime.date], with [isoformat()] *)
Record date : Type := Date { year : Z; month_of : Z; day_of : Z }.

Definition fmt_04d (z : Z) : str :=
  if (0 <=? z) && (z <? 10) then py "000" ++ str_of_int z
  else if (0 <=? z) && (z <? 100) then py "00" ++ str_of_int z
  else if (0 <=? z) && (z <? 1000) then py "0" ++ str_of_int z
  else str_of_int z.

Definition isoformat (d : date) : str :=
  fmt_04d (year d) ++ py "-" ++ fmt_02d (month_of d) ++ py "-"
  ++ fmt_02d (day_of d).

Record SingleEvent : Type := mkSingleEvent {
  date_ : date;
  all_day : bool;
  start : option Z;
  end_ : option Z;
  tz : str;
  category : option str;
  subcategory : option str;
  title : str
}.

Record RecurringEvent : Type := mkRecurringEvent {
  days_of_week : option (list str);
  month : option Z;
  day_of_month : option Z;
  start_time : option Z;
  end_time : option Z;
  r_tz : str;
  r_category : option str;
  r_subcategory : option str;
  r_title : str
}.

Definition gen_single_event (d : date) : M rng SingleEvent :=
  tz <- choice TZ_CHOICES ;;
  cs <- pick_category ;;
  let (category, sub) := cs in
  tail <- choice TITLE_TAILS ;;
  let title := tail in
  r <- random ;;
  if Qltb r float_0_2 then
    ret (mkSingleEvent d true None None tz (Some category) (Some sub) title)
  else
    start_of_day <- randint (7 * 60) (10 * 60) ;;
    off <- choice [0; 15; 30; 45; 60; 90; 120] ;;
    let start := start_of_day + off in
    dur <- choice [30; 45; 60; 75; 90; 120; 150] ;;
    let end_ := Z.min (start + dur) (22 * 60) in
    ret (mkSingleEvent d false (Some start) (Some end_) tz
           (Some category) (Some sub) title).

Definition gen_recurring_event : M rng RecurringEvent :=
  tz <- choice TZ_CHOICES ;;
  cs <- pick_category ;;
  let (category, sub) := cs in
  tail <- choice TITLE_TAILS ;;
  let title := tail in
  r <- random ;;
  if Qltb r float_0_6 then
    k <- randint 1 3 ;;
    days <- sample (slice DOW 1 6) k ;;
    start <- randint (8 * 60) (11 * 60) ;;
    dur <- choice [30; 45; 60; 90] ;;
    let end_ := start + dur in
    ret (mkRecurringEvent (Some days) None None (Some start) (Some end_) tz
           (Some category) (Some sub) title)
  else if Qltb r float_0_85 then
    dom <- randint 1 28 ;;
    start <- randint (18 * 60) (20 * 60) ;;
    dur <- choice [60; 90; 120] ;;
    let end_ := start + dur in
    ret (mkRecurringEvent None None (Some dom) (Some start) (Some end_) tz
           (Some category) (Some sub) title)
  else
    month <- randint 1 12 ;;
    dom <- randint 1 28 ;;
    start <- randint (9 * 60) (17 * 60) ;;
    dur <- choice [60; 90; 120] ;;
    let end_ := start + dur in
    ret (mkRecurringEvent None (Some month) (Some dom) (Some start)
           (Some end_) tz (Some category) (Some sub) title).

(** ** Writing the notes *)

(** [os.path.join(a, p)] on POSIX. *)
Definition os_path_join (a p : str) : str :=
  if startswith p (py "/") then p
  else if negb (truthy a) || endswith_chr a "/"%char then a ++ p
  else a ++ py "/" ++ p.

(** [x or y] on optional integers: [None] and 0 are falsy. *)
Definition or_int (x : option Z) (y : Z) : Z :=
  match x with
  | Some v => if v =? 0 then y else v
  | None => y
  end.

Definition truthy_int (x : option Z) : bool :=
  match x with Some v => negb (v =? 0) | None => false end.

Definition truthy_list {A} (x : option (list A)) : bool :=
  match x with Some (_ :: _) => true | _ => false end.

Definition list_of {A} (x : option (list A)) : list A :=
  match x with Some l => l | None => [] end.

Definition int_of (x : option Z) : Z :=
  match x with Some v => v | None => 0 end.

(** [calendar.month_abbr], in the C locale: thirteen entries, the first
    one empty. *)
Definition MONTH_ABBR : list str :=
  [py ""; py "Jan"; py "Feb"; py "Mar"; py "Apr"; py "May"; py "Jun";
   py "Jul"; py "Aug"; py "Sep"; py "Oct"; py "Nov"; py "Dec"].

(** [calendar.month_abbr[i]]: a negative index counts from the end, an
    index outside the table raises. *)
Definition month_abbr (i : Z) : outcome str :=
  let n := Z.of_nat (List.length MONTH_ABBR) in
  let j := if i <? 0 then i + n else i in
  if (j <? 0) || (n <=? j) then Raise IndexError
  else match nth_error MONTH_ABBR (Z.to_nat j) with
       | Some s => Return s
       | None => Raise IndexError
       end.

(** A file system: path to text. *)
Definition fs := dict str.

(** [with open(path, "w") as f: f.writelines(lines); ...] *)
Definition write_file (path : str) (chunks : list str) : M fs unit :=
  modify (fun files => dict_set files path (List.concat chunks)).

Definition write_single (out_dir : str) (ev : SingleEvent) : M fs unit :=
  let constructed_title :=
    build_constructed_title (category ev) (subcategory ev) (title ev) in
  let filename := isoformat (date_ ev) ++ py " " ++ constructed_title
                  ++ py ".md" in
  let path := os_path_join out_dir filename in
  let fm := [py "---" ++ [LF]] in
  let fm := fm ++ [py "title: " ++ constructed_title ++ [LF]] in
  let fm := fm ++ [py "type: single" ++ [LF]] in
  let fm := fm ++ [py "date: " ++ isoformat (date_ ev) ++ [LF]] in
  let fm :=
    if all_day ev then fm ++ [py "allDay: true" ++ [LF]]
    else
      fm ++ [py "allDay: false" ++ [LF]]
         ++ [py "startTime: " ++ fmt_hhmm (or_int (start ev) 0) ++ [LF]]
         ++ [py "endTime: "
             ++ fmt_hhmm (or_int (end_ ev) (or_int (start ev) 0 + 60))
             ++ [LF]] in
  let fm := fm ++ [py "timezone: " ++ tz ev ++ [LF]] in
  let fm := fm ++ [py "---" ++ [LF; LF]] in
  write_file path
    (fm ++ [py "# " ++ constructed_title ++ [LF; LF]; py "Notes..." ++ [LF]]).

(** Lines 190-204: the base of the file name. *)
Definition recurring_base (ev : RecurringEvent) (constructed_title : str)
  : outcome str :=
  if truthy_list (days_of_week ev) then
    Return (py "(Every " ++ join (py ",") (list_of (days_of_week ev))
            ++ py ") " ++ constructed_title)
  else if truthy_int (month ev) && truthy_int (day_of_month ev) then
    match month_abbr (int_of (month ev)) with
    | Raise e => Raise e
    | Return mon_name =>
        Return (py "(Every year on " ++ mon_name ++ py " "
                ++ str_of_int (int_of (day_of_month ev)) ++ py ") "
                ++ constructed_title)
    end
  else if truthy_int (day_of_month ev) then
    Return (py "(Every month on the "
            ++ str_of_int (int_of (day_of_month ev)) ++ py ") "
            ++ constructed_title)
  else Return (py "(Recurring) " ++ constructed_title).

Definition write_recurring (out_dir : str) (ev : RecurringEvent) : M fs unit :=
  let constructed_title :=
    build_constructed_title (r_category ev) (r_subcategory ev) (r_title ev) in
  match recurring_base ev constructed_title with
  | Raise e => raise e
  | Return base =>
      let filename := base ++ py ".md" in
      let path := os_path_join out_dir filename in
      let fm := [py "---" ++ [LF]] in
      let fm := fm ++ [py "title: " ++ constructed_title ++ [LF]] in
      let fm := fm ++ [py "type: recurring" ++ [LF]] in
      let fm :=
        if truthy_list (days_of_week ev) then
          fm ++ [py "daysOfWeek: ["
                 ++ join (py ",") (list_of (days_of_week ev))
                 ++ py "]" ++ [LF]]
        else fm in
      let fm :=
        match month ev with
        | Some m => fm ++ [py "month: " ++ str_of_int m ++ [LF]]
        | None => fm
        end in
      let fm :=
        match day_of_month ev with
        | Some d => fm ++ [py "dayOfMonth: " ++ str_of_int d ++ [LF]]
        | None => fm
        end in
      let fm :=
        match start_time ev with
        | None => fm ++ [py "allDay: true" ++ [LF]]
        | Some st =>
            fm ++ [py "allDay: false" ++ [LF]]
               ++ [py "startTime: " ++ fmt_hhmm st ++ [LF]]
               ++ [py "endTime: " ++ fmt_hhmm (or_int (end_time ev) (st + 60))
                   ++ [LF]]
        end in
      let fm := fm ++ [py "timezone: " ++ r_tz ev ++ [LF]] in
      let fm := fm ++ [py "---" ++ [LF; LF]] in
      write_file path
        (fm ++ [py "# " ++ constructed_title ++ [LF; LF];
                py "Recurring event note..." ++ [LF]])
  end.

(** The file name [write_recurring] builds. *)
Definition recurring_filename (ev : RecurringEvent) : outcome str :=
  match recurring_base ev (build_constructed_title (r_category ev)
                             (r_subcategory ev) (r_title ev)) with
  | Raise e => Raise e
  | Return base => Return (base ++ py ".md")
  end.

Definition constructed_title_of (ev : RecurringEvent) : str :=
  build_constructed_title (r_category ev) (r_subcategory ev) (r_title ev).

(** The twelve abbreviations, for the months 1 to 12. *)
Definition MONTHS_1_12 : list str := tl MONTH_ABBR.

(** Events used as examples: the weekly one of the specification, a
    monthly and a yearly one. *)
Definition standup_weekly : RecurringEvent :=
  mkRecurringEvent (Some [py "M"; py "W"; py "F"]) None None
    (Some 540) (Some 555) (py "Europe/Budapest")
    (Some (py "Work")) (Some (py "Team")) (py "Standup").
Definition standup_monthly : RecurringEvent :=
  mkRecurringEvent None None (Some 5) (Some 1080) (Some 1140)
    (py "Europe/Budapest") (Some (py "Work")) (Some (py "Team"))
    (py "Standup").
Definition standup_yearly : RecurringEvent :=
  mkRecurringEvent None (Some 5) (Some 7) (Some 600) (Some 690)
    (py "Europe/Budapest") (Some (py "Work")) (Some (py "Team"))
    (py "Standup").

(** ** Recurrence dimensions *)

Definition is_set {A} (x : option A) : bool :=
  match x with Some _ => true | None => false end.

(** Weekly: a non-empty list of days. Monthly: a day of the month and no
    month. Yearly: a month and a day of the month. *)
Definition weekly_dim (ev : RecurringEvent) : bool :=
  truthy_list (days_of_week ev).
Definition monthly_dim (ev : RecurringEvent) : bool :=
  is_set (day_of_month ev) && negb (is_set (month ev)).
Definition yearly_dim (ev : RecurringEvent) : bool :=
  is_set (month ev) && is_set (day_of_month ev).

Definition dimensions (ev : RecurringEvent) : nat :=
  (Nat.b2n (weekly_dim ev) + Nat.b2n (monthly_dim ev)
   + Nat.b2n (yearly_dim ev))%nat.

(** The three shapes a recurring event may have, and no other. *)
Definition one_dimension (ev : RecurringEvent) : Prop :=
  match days_of_week ev, month ev, day_of_month ev with
  | Some (_ :: _), None, None => True
  | None, None, Some _ => True
  | None, Some _, Some _ => True
  | _, _, _ => False
  end.

(** Start and end of a single event: absent for an all-day event, else
    minutes of one day with the end after the start. *)
Definition single_times_ok (ev : SingleEvent) : Prop :=
  if all_day ev then start ev = None /\ end_ ev = None
  else exists s e, start ev = Some s /\ end_ ev = Some e /\ s < e
                   /\ 0 <= s < 1440 /\ 0 <= e < 1440.

(** ** Further vocabulary *)

(** Reading [HH:MM] back: the minutes since midnight. *)
Definition digit_of (c : ascii) : option Z :=
  let n := Z.of_N (N_of_ascii c) in
  if (48 <=? n) && (n <=? 57) then Some (n - 48) else None.

Definition minutes_of_hhmm (s : str) : option Z :=
  match s with
  | [h1; h2; colon; m1; m2] =>
      match digit_of h1, digit_of h2, digit_of m1, digit_of m2 with
      | Some a, Some b, Some c, Some d =>
          if chr_eqb colon ":" && (10 * c + d <? 60)
          then Some ((10 * a + b) * 60 + (10 * c + d))
          else None
      | _, _, _, _ => None
      end
  | _ => None
  end.

(** A category with one of its own subcategories. *)
Definition category_pair (cat sub : str) : Prop :=
  exists subs, dict_get CATEGORIES cat = Some subs /\ In sub subs.

(** What the random choices of [gen_single_event] allow. *)
Definition single_event_drawn (ev : SingleEvent) : Prop :=
  In (tz ev) TZ_CHOICES
  /\ In (title ev) TITLE_TAILS
  /\ (exists cat sub, category ev = Some cat /\ subcategory ev = Some sub
                      /\ category_pair cat sub)
  /\ (if all_day ev then start ev = None /\ end_ ev = None
      else exists s dur, start ev = Some s /\ end_ ev = Some (s + dur)
                         /\ 420 <= s <= 720 /\ 30 <= dur <= 150).

(** What the random choices of [gen_recurring_event] allow. *)
Definition recurring_event_drawn (ev : RecurringEvent) : Prop :=
  In (r_tz ev) TZ_CHOICES
  /\ In (r_title ev) TITLE_TAILS
  /\ (exists cat sub, r_category ev = Some cat /\ r_subcategory ev = Some sub
                      /\ category_pair cat sub)
  /\ (exists s e, start_time ev = Some s /\ end_time ev = Some e
                  /\ 0 <= s /\ s < e /\ e < 1440)
  /\ match days_of_week ev, month ev, day_of_month ev with
     | Some days, None, None =>
         (1 <= List.length days <= 3)%nat /\ NoDup days
         /\ incl days [py "M"; py "T"; py "W"; py "R"; py "F"]
     | None, None, Some dom => 1 <= dom <= 28
     | None, Some m, Some dom => 1 <= m <= 12 /\ 1 <= dom <= 28
     | _, _, _ => False
     end.

(** Events with no usable recurrence, and with a month out of range. *)
Definition bare_recurring : RecurringEvent :=
  mkRecurringEvent (Some []) None (Some 0) None None (py "Asia/Tokyo")
    None None (py "Review").
Definition month_13 : RecurringEvent :=
  mkRecurringEvent None (Some 13) (Some 7) None None (py "Asia/Tokyo")
    None None (py "Review").

End Generator.

(* ================================================================== *)
(** * The generator of daily notes *)
(* ================================================================== *)

(** [tools/generate_daily_note_calendar.py]. Its lists [TZ_CHOICES],
    [CATEGORIES] and [TITLE_TAILS] and its helpers [fmt_hhmm] and
    [pick_category] are, character for character, those of
    [tools/generate_full_note_calendar.py]: the definitions of
    [Generator] stand for both. *)
Module DailyGenerator.
Import Py.
Import Generator.
Local Open Scope py_scope.
Local Open Scope Z_scope.

Definition build_title : M rng str :=
  cs <- pick_category ;;
  let (cat, sub) := cs in
  tail <- choice TITLE_TAILS ;;
  ret (cat ++ py " - " ++ sub ++ py " - " ++ tail).

Record GeneratedEvent := mkGeneratedEvent {
  title : str;
  start : Z;
  end_ : Z;
  tz : str;
  completed : bool
}.

(** The literal [0.25] is a power of two: the float is the rational. *)
Definition float_0_25 : Q := 1 # 4.

(** [events.sort(key=lambda e: e.start)]: the stable sort, here by
    insertion, an element going behind those of the same key. *)
Fixpoint insert_by_start (x : GeneratedEvent) (l : list GeneratedEvent)
  : list GeneratedEvent :=
  match l with
  | [] => [x]
  | y :: l' =>
      if start x <? start y then x :: l else y :: insert_by_start x l'
  end.

Definition sort_by_start (l : list GeneratedEvent) : list GeneratedEvent :=
  fold_left (fun sorted x => insert_by_start x sorted) l [].

(** The loop [for _ in range(count)] with [n] rounds still to run, the
    [break] leaving it. *)
Fixpoint day_loop (n : nat) (t : Z) (events : list GeneratedEvent)
  : M rng (list GeneratedEvent) :=
  match n with
  | O => ret events
  | S n' =>
      dur <- choice [30; 45; 60; 75; 90; 120] ;;
      let start := t in
      let end_ := start + dur in
      tz <- choice TZ_CHOICES ;;
      title <- build_title ;;
      r <- random ;;
      let completed := Qltb r float_0_25 in
      let events := events ++ [mkGeneratedEvent title start end_ tz completed] in
      gap <- randint (-15) 60 ;;
      let t := end_ + gap in
      if 22 * 60 <? t then ret events
      else day_loop n' t events
  end.

Definition gen_events_for_day (min_events max_events : Z)
  : M rng (list GeneratedEvent) :=
  count <- randint min_events max_events ;;
  t <- randint (6 * 60) (9 * 60) ;;
  events <- day_loop (Z.to_nat count) t [] ;;
  ret (sort_by_start events).

(** One list item of the file, with its line end. *)
Definition day_line (ev : GeneratedEvent) : str :=
  let box := if completed ev then py "[x]" else py "[ ]" in
  py "- " ++ box ++ py " " ++ title ev
  ++ py "  [startTime:: " ++ fmt_hhmm (start ev) ++ py "]  "
  ++ py "[endTime:: " ++ fmt_hhmm (end_ ev) ++ py "]  [timezone:: "
  ++ tz ev ++ py "]" ++ [LF].

Definition write_day_file (path heading : str) (evs : list GeneratedEvent)
  : M fs unit :=
  let lines := [py "## " ++ heading ++ [LF; LF]]
               ++ map day_line evs
               ++ [[LF; LF] ++ py "## Diary" ++ [LF; LF]] in
  write_file path lines.

(** ** Vocabulary of the statements *)

(** What the draws of one round allow: a duration of the list, a time
    zone of the list, a title [Category - Subcategory - Tail]. *)
Definition event_drawn (ev : GeneratedEvent) : Prop :=
  In (end_ ev - start ev) [30; 45; 60; 75; 90; 120]
  /\ In (tz ev) TZ_CHOICES
  /\ exists cat sub tail,
       category_pair cat sub /\ In tail TITLE_TAILS
       /\ title ev = cat ++ py " - " ++ sub ++ py " - " ++ tail.

(** Each event begins from 15 minutes before to 60 minutes after the end
    of the one before it, and no later than 22:00. *)
Fixpoint chained (evs : list GeneratedEvent) : Prop :=
  match evs with
  | [] => True
  | ev :: rest =>
      match rest with
      | [] => True
      | next :: _ =>
          end_ ev - 15 <= start next <= end_ ev + 60
          /\ start next <= 22 * 60
      end
      /\ chained rest
  end.

(** A day as the loop builds it: the first event begins between 06:00
    and 09:00. *)
Definition day_drawn (evs : list GeneratedEvent) : Prop :=
  match evs with
  | [] => True
  | ev :: _ => 6 * 60 <= start ev <= 9 * 60
  end
  /\ Forall event_drawn evs
  /\ chained evs.

(** The same, from the time [t] at which the loop is entered. *)
Fixpoint day_from (evs : list GeneratedEvent) (t : Z) : Prop :=
  match evs with
  | [] => True
  | ev :: rest =>
      start ev = t /\ event_drawn ev
      /\ exists t', end_ ev - 15 <= t' <= end_ ev + 60
                    /\ match rest with
                       | [] => True
                       | _ :: _ => t' <= 22 * 60 /\ day_from rest t'
                       end
  end.

(** The end of the last event, 0 for no event. *)
Definition last_end (evs : list GeneratedEvent) : Z :=
  List.last (map end_ evs) 0.

(** Draws for which a day runs up to midnight. *)
Definition late_draws : rng :=
  [4; 180;
   5; 0; 0; 0; 0; 0; 75;
   5; 0; 0; 0; 0; 0; 75;
   5; 0; 0; 0; 0; 0; 75;
   5; 0; 0; 0; 0; 0; 15;
   5; 0; 0; 0; 0; 0; 15;
   5; 0; 0; 0; 0; 0; 15]%N.

End DailyGenerator.

(* ================================================================== *)
(** * From the generator to the converter *)
(* ================================================================== *)

Module Pipeline.
Import Py Converter Generator.
Local Open Scope Z_scope.

(** A date [datetime.date] accepts, as far as [isoformat] is concerned. *)
Definition valid_date (d : date) : Prop :=
  1 <= year d <= 9999 /\ 1 <= month_of d <= 12 /\ 1 <= day_of d <= 31.

Definition single_title (ev : SingleEvent) : str :=
  build_constructed_title (category ev) (subcategory ev) (title ev).

(** The file [write_single] writes to. *)
Definition single_path (out_dir : str) (ev : SingleEvent) : str :=
  os_path_join out_dir
    (isoformat (date_ ev) ++ py " " ++ single_title ev ++ py ".md").

(** The entries of the block [write_single] writes, and the text it
    writes after the closing dashes. *)
Definition single_frontmatter (ev : SingleEvent) : dict str :=
  [(py "title", single_title ev); (py "type", py "single");
   (py "date", isoformat (date_ ev))]
  ++ (if all_day ev then [(py "allDay", py "true")]
      else [(py "allDay", py "false");
            (py "startTime", fmt_hhmm (or_int (start ev) 0));
            (py "endTime",
             fmt_hhmm (or_int (end_ ev) (or_int (start ev) 0 + 60)))])
  ++ [(py "timezone", tz ev)].

Definition single_tail (ev : SingleEvent) : str :=
  [LF; LF] ++ py "# " ++ single_title ev ++ [LF; LF] ++ py "Notes..."
  ++ [LF].

(** What the converter makes of such a note: its body and its event
    line. *)
Definition single_body (ev : SingleEvent) : str :=
  py "# " ++ single_title ev ++ [LF; LF] ++ py "Notes...".

Definition single_line (ev : SingleEvent) : str :=
  py "-  " ++ single_title ev ++ py "  [startTime:: "
  ++ (if all_day ev then [] else fmt_hhmm (or_int (start ev) 0))
  ++ py "]  [endTime:: "
  ++ (if all_day ev then []
      else fmt_hhmm (or_int (end_ ev) (or_int (start ev) 0 + 60)))
  ++ py "]  [timezone:: " ++ tz ev ++ py "]".

(** The entries of the block [write_recurring] writes. *)
Definition recurring_frontmatter (ev : RecurringEvent) : dict str :=
  [(py "title", constructed_title_of ev); (py "type", py "recurring")]
  ++ (if truthy_list (days_of_week ev)
      then [(py "daysOfWeek",
             py "[" ++ join (py ",") (list_of (days_of_week ev)) ++ py "]")]
      else [])
  ++ match month ev with
     | Some m => [(py "month", str_of_int m)]
     | None => []
     end
  ++ match day_of_month ev with
     | Some d => [(py "dayOfMonth", str_of_int d)]
     | None => []
     end
  ++ match start_time ev with
     | None => [(py "allDay", py "true")]
     | Some st => [(py "allDay", py "false");
                   (py "startTime", fmt_hhmm st);
                   (py "endTime", fmt_hhmm (or_int (end_time ev) (st + 60)))]
     end
  ++ [(py "timezone", r_tz ev)].

Definition recurring_tail (ev : RecurringEvent) : str :=
  [LF; LF] ++ py "# " ++ constructed_title_of ev ++ [LF; LF]
  ++ py "Recurring event note..." ++ [LF].

(** A directory of notes as the converter finds it: nothing blocked,
    nothing gathered, nothing printed. *)
Definition vault (files : fs) : world := World files [] [] [].

(** A weekly event as the generator draws them. *)
Definition daily_standup : RecurringEvent :=
  mkRecurringEvent (Some [py "M"; py "W"; py "F"]) None None
    (Some 540) (Some 555) (py "Europe/Budapest")
    (Some (py "Work")) (Some (py "Team")) (py "Daily Standup").

(** A timed single event as the generator draws them. *)
Definition review_event : SingleEvent :=
  mkSingleEvent (Date 2025 7 21) false (Some 545) (Some 575)
    (py "Europe/London") (Some (py "Work")) (Some (py "Team"))
    (py "Code Review").

End Pipeline.

(* ================================================================== *)
(** * Properties of the generator *)
(* ================================================================== *)

Unset Implicit Arguments.

Import Py.
Local Open Scope py_scope.

(** Push appends to the right and literals into the list. *)
Ltac str_norm := repeat (progress (simpl; rewrite <- ?app_assoc)).

Section Returns.
Context {S : Type}.

Lemma returns_ret {A} (a : A) (P : A -> Prop) :
  P a -> returns (ret (S := S) a) P.
Proof. intros H s. exists a, s. split; [reflexivity | exact H]. Qed.

Lemma returns_bind {A B} (m : M S A) (f : A -> M S B)
      (P : A -> Prop) (Q : B -> Prop) :
  returns m P -> (forall a, P a -> returns (f a) Q) -> returns (bind m f) Q.
Proof.
  intros Hm Hf s. destruct (Hm s) as (a & s1 & E & Ha).
  destruct (Hf a Ha s1) as (b & s2 & E2 & Hb).
  exists b, s2. unfold bind. rewrite E. split; assumption.
Qed.

Lemma returns_weaken {A} (m : M S A) (P Q : A -> Prop) :
  returns m P -> (forall a, P a -> Q a) -> returns m Q.
Proof.
  intros Hm HPQ s. destruct (Hm s) as (a & s1 & E & Ha).
  exists a, s1. split; [exact E | apply HPQ, Ha].
Qed.
End Returns.

(* ================================================================== *)
(** * Facts about the Python runtime *)
(* ================================================================== *)

Module PyFacts.

Lemma chr_eqb_eq (a b : ascii) : chr_eqb a b = true <-> a = b.
Proof. apply Ascii.eqb_eq. Qed.

Lemma chr_eqb_refl (a : ascii) : chr_eqb a a = true.
Proof. apply Ascii.eqb_refl. Qed.

Lemma chr_eqb_sym (a b : ascii) : chr_eqb a b = chr_eqb b a.
Proof. apply Ascii.eqb_sym. Qed.

Lemma chr_eqb_neq (a b : ascii) : chr_eqb a b = false <-> a <> b.
Proof. apply Ascii.eqb_neq. Qed.

Lemma str_eqb_eq (a b : str) : str_eqb a b = true <-> a = b.
Proof.
  revert b. induction a as [| x a IH]; intros [| y b]; simpl;
    try (split; [discriminate | congruence]); [tauto |].
  rewrite andb_true_iff, chr_eqb_eq, IH. split.
  - intros [-> ->]. reflexivity.
  - intros H. inversion H. auto.
Qed.

Lemma str_eqb_refl (a : str) : str_eqb a a = true.
Proof. now apply str_eqb_eq. Qed.

Lemma str_eqb_neq (a b : str) : str_eqb a b = false <-> a <> b.
Proof.
  rewrite <- str_eqb_eq. destruct (str_eqb a b); split; congruence.
Qed.

Lemma strip_prefix_app (p s r : str) :
  strip_prefix p s = Some r <-> s = p ++ r.
Proof.
  revert s. induction p as [| x p IH]; intros s; simpl.
  - split; congruence.
  - destruct s as [| y s]; [split; discriminate |].
    destruct (chr_eqb x y) eqn:E.
    + apply chr_eqb_eq in E. subst y. rewrite IH. split; congruence.
    + apply chr_eqb_neq in E. split; [discriminate | congruence].
Qed.

Lemma NoDup_app_disjoint {A} (l1 l2 : list A) (a : A) :
  NoDup (l1 ++ l2) -> In a l1 -> In a l2 -> False.
Proof.
  induction l1 as [| x l1 IH]; simpl; intros Hnd H1 H2; [contradiction |].
  inversion Hnd as [| ? ? Hx Hnd']; subst. destruct H1 as [-> | H1].
  - apply Hx. apply in_or_app. now right.
  - now apply IH.
Qed.

(** ** Dictionaries *)
Section DictFacts.
Context {V : Type}.
Implicit Types (d : dict V) (k : str) (v : V).

Lemma dict_get_set_same d k v : dict_get (dict_set d k v) k = Some v.
Proof.
  induction d as [| [k' v'] d IH]; simpl.
  - now rewrite str_eqb_refl.
  - destruct (str_eqb k k') eqn:E; simpl; rewrite E; auto.
Qed.

Lemma dict_get_set_other d k k' v :
  k <> k' -> dict_get (dict_set d k v) k' = dict_get d k'.
Proof.
  intros Hne. induction d as [| [k0 v0] d IH]; simpl.
  - replace (str_eqb k' k) with false; [reflexivity |].
    symmetry. apply str_eqb_neq. congruence.
  - destruct (str_eqb k k0) eqn:E; simpl.
    + apply str_eqb_eq in E. subst k0.
      replace (str_eqb k' k) with false; [reflexivity |].
      symmetry. apply str_eqb_neq. congruence.
    + now rewrite IH.
Qed.

Lemma dict_set_set_same d k v v' :
  dict_set (dict_set d k v) k v' = dict_set d k v'.
Proof.
  induction d as [| [k0 v0] d IH]; simpl.
  - now rewrite str_eqb_refl.
  - destruct (str_eqb k k0) eqn:E; simpl; rewrite E; congruence.
Qed.

Lemma dict_set_fresh d k v :
  ~ In k (dict_keys d) -> dict_set d k v = d ++ [(k, v)].
Proof.
  induction d as [| [k0 v0] d IH]; simpl; intros Hnin; [reflexivity |].
  destruct (str_eqb k k0) eqn:E.
  - apply str_eqb_eq in E. subst. tauto.
  - rewrite IH; tauto.
Qed.

Lemma dict_get_none d k : ~ In k (dict_keys d) -> dict_get d k = None.
Proof.
  induction d as [| [k0 v0] d IH]; simpl; intros Hnin; [reflexivity |].
  destruct (str_eqb k k0) eqn:E.
  - apply str_eqb_eq in E. subst. tauto.
  - apply IH. tauto.
Qed.

Lemma dict_get_in d k v :
  NoDup (dict_keys d) -> In (k, v) d -> dict_get d k = Some v.
Proof.
  induction d as [| [k0 v0] d IH]; simpl; intros Hnd Hin; [contradiction |].
  inversion Hnd as [| ? ? Hk0 Hnd']; subst.
  destruct Hin as [E | Hin].
  - inversion E; subst. now rewrite str_eqb_refl.
  - destruct (str_eqb k k0) eqn:E.
    + apply str_eqb_eq in E. subst k0. exfalso. apply Hk0.
      change k with (fst (k, v)). now apply in_map.
    + auto.
Qed.

Lemma dict_keys_set d k v :
  dict_keys (dict_set d k v) = dict_keys d
  \/ (~ In k (dict_keys d) /\ dict_keys (dict_set d k v) = dict_keys d ++ [k]).
Proof.
  induction d as [| [k0 v0] d IH]; simpl.
  - right. split; [tauto | reflexivity].
  - destruct (str_eqb k k0) eqn:E; simpl; [now left |].
    apply str_eqb_neq in E.
    destruct IH as [-> | [Hnin ->]]; [now left | right].
    split; [| reflexivity]. intros [H | H]; [congruence | tauto].
Qed.

Lemma dict_set_NoDup d k v :
  NoDup (dict_keys d) -> NoDup (dict_keys (dict_set d k v)).
Proof.
  intros Hnd. destruct (dict_keys_set d k v) as [-> | [Hnin ->]]; [exact Hnd |].
  apply NoDup_app; [exact Hnd | constructor; [simpl; tauto | constructor] |].
  intros x Hx [<- | []]. tauto.
Qed.

Lemma dict_set_Forall (P : str * V -> Prop) d k v :
  Forall P d -> P (k, v) ->
  (forall k0 v0, P (k0, v0) -> k = k0 -> P (k0, v)) ->
  Forall P (dict_set d k v).
Proof.
  intros Hd Hkv Hrep. induction Hd as [| [k0 v0] d H0 Hd IH]; simpl.
  - constructor; [exact Hkv | constructor].
  - destruct (str_eqb k k0) eqn:E.
    + apply str_eqb_eq in E. constructor; [eauto | exact Hd].
    + constructor; assumption.
Qed.
End DictFacts.

(** ** Characters *)

Lemma linebreak_is_space (c : ascii) :
  is_linebreak c = true -> is_space c = true.
Proof.
  destruct c as [b0 b1 b2 b3 b4 b5 b6 b7].
  destruct b0, b1, b2, b3, b4, b5, b6, b7; cbv; intros H;
    first [reflexivity | discriminate H].
Qed.

Lemma not_space_not_linebreak (c : ascii) :
  is_space c = false -> is_linebreak c = false.
Proof.
  intros H. destruct (is_linebreak c) eqn:E; [| reflexivity].
  apply linebreak_is_space in E. congruence.
Qed.

(** ** [strip] *)

Lemma lstrip_no_leading_space (s : str) : no_leading_space (lstrip s).
Proof.
  induction s as [| c s IH]; simpl; [exact I |].
  destruct (is_space c) eqn:E; [exact IH | exact E].
Qed.

Lemma lstrip_id (s : str) : no_leading_space s -> lstrip s = s.
Proof. destruct s as [| c s]; simpl; [reflexivity | now intros ->]. Qed.

Lemma rstrip_no_leading_space (s : str) :
  no_leading_space s -> no_leading_space (rstrip s).
Proof.
  destruct s as [| c s]; simpl; [auto |]. intros Hc.
  destruct (rstrip s); [rewrite Hc |]; exact Hc.
Qed.

Lemma rstrip_idem (s : str) : rstrip (rstrip s) = rstrip s.
Proof.
  induction s as [| c s IH]; simpl; [reflexivity |].
  destruct (rstrip s) as [| x r] eqn:E.
  - destruct (is_space c) eqn:Ec; simpl; [reflexivity | now rewrite Ec].
  - change (rstrip (c :: x :: r)) with
      (match rstrip (x :: r) with
       | [] => if is_space c then [] else [c]
       | r' => c :: r'
       end).
    now rewrite IH.
Qed.

Lemma strip_no_leading_space (s : str) : no_leading_space (strip s).
Proof. apply rstrip_no_leading_space, lstrip_no_leading_space. Qed.

Lemma strip_idem (s : str) : strip (strip s) = strip s.
Proof.
  unfold strip at 1. rewrite lstrip_id by apply strip_no_leading_space.
  unfold strip. apply rstrip_idem.
Qed.

Lemma lstrip_Forall (P : ascii -> Prop) (s : str) :
  Forall P s -> Forall P (lstrip s).
Proof.
  induction 1 as [| c s Hc Hs IH]; simpl; [constructor |].
  destruct (is_space c); [exact IH | now constructor].
Qed.

Lemma rstrip_Forall (P : ascii -> Prop) (s : str) :
  Forall P s -> Forall P (rstrip s).
Proof.
  induction 1 as [| c s Hc Hs IH]; simpl; [constructor |].
  destruct (rstrip s); [destruct (is_space c) |];
    first [now constructor | constructor; assumption].
Qed.

Lemma strip_Forall (P : ascii -> Prop) (s : str) :
  Forall P s -> Forall P (strip s).
Proof. intros H. apply rstrip_Forall, lstrip_Forall, H. Qed.

Lemma contains_false (c : ascii) (s : str) :
  contains c s = false <-> Forall (fun x => chr_eqb c x = false) s.
Proof.
  unfold contains. induction s as [| x s IH]; simpl.
  - split; [constructor | reflexivity].
  - rewrite orb_false_iff, IH. split.
    + intros [H1 H2]. now constructor.
    + intros H. inversion H. auto.
Qed.

(** ** [split] *)

Lemma split1_app (c : ascii) (k v : str) :
  contains c k = false -> split1 c (k ++ c :: v) = [k; v].
Proof.
  induction k as [| x k IH]; simpl.
  - now rewrite chr_eqb_refl.
  - unfold contains. simpl. rewrite orb_false_iff. intros [Hx Hk].
    rewrite chr_eqb_sym, Hx. now rewrite (IH Hk).
Qed.

(** ** [splitlines] *)

Lemma splitlines_no_linebreak_bounded (n : nat) :
  forall s, (List.length s <= n)%nat -> Forall no_linebreak (splitlines s).
Proof.
  induction n as [| n IH]; intros [| c s] Hlen; simpl in *;
    try constructor; try lia.
  destruct (is_linebreak c) eqn:Ec.
  - destruct s as [| c2 s']; [repeat constructor |].
    destruct (chr_eqb c CR && chr_eqb c2 LF);
      (constructor; [constructor | apply IH; simpl in *; lia]).
  - assert (Hs : Forall no_linebreak (splitlines s)) by (apply IH; lia).
    destruct (splitlines s) as [| l ls].
    + repeat constructor. exact Ec.
    + inversion Hs; subst. constructor; [| assumption].
      constructor; assumption.
Qed.

Lemma splitlines_no_linebreak (s : str) :
  Forall no_linebreak (splitlines s).
Proof. now apply (splitlines_no_linebreak_bounded (List.length s)). Qed.

Lemma splitlines_cons_text (c : ascii) (s : str) :
  is_linebreak c = false ->
  splitlines (c :: s) = match splitlines s with
                        | [] => [[c]]
                        | l :: ls => (c :: l) :: ls
                        end.
Proof. intros H. simpl. now rewrite H. Qed.

Lemma splitlines_LF (s : str) :
  s <> [] -> splitlines (LF :: s) = [] :: splitlines s.
Proof. destruct s as [| c s]; [congruence | reflexivity]. Qed.

Lemma splitlines_line_then (tail : str) (rest : list str) :
  (tail = [] /\ rest = []) \/ splitlines tail = [] :: rest ->
  forall line c, no_linebreak (c :: line) ->
    splitlines (c :: line ++ tail) = (c :: line) :: rest.
Proof.
  intros Htail. induction line as [| c' line IH]; intros c Hlb;
    inversion Hlb as [| ? ? Hc Hlb']; subst;
    rewrite (splitlines_cons_text _ _ Hc).
  - destruct Htail as [[-> ->] | Ht]; [reflexivity |].
    cbn [app]. now rewrite Ht.
  - rewrite <- app_comm_cons. now rewrite (IH c' Hlb').
Qed.

(** Lines joined by line feeds split back into themselves, when none is
    empty and none holds a line boundary. *)
Lemma splitlines_lines (rest : list str) :
  Forall (fun l => l <> [] /\ no_linebreak l) rest ->
  forall line, line <> [] -> no_linebreak line ->
    splitlines (line ++ List.concat (map (cons LF) rest)) = line :: rest.
Proof.
  induction 1 as [| r rest [Hr Hrlb] Hrest IH]; intros line Hne Hlb;
    (destruct line as [| c line]; [congruence |]);
    apply splitlines_line_then; auto.
  right. specialize (IH r Hr Hrlb).
  change (List.concat (map (cons LF) (r :: rest)))
    with (LF :: (r ++ List.concat (map (cons LF) rest))).
  rewrite splitlines_LF; [now rewrite IH |].
  destruct r; [congruence | discriminate].
Qed.

(** ** Plain values *)

Lemma rstrip_app (a b : str) :
  rstrip b <> [] -> rstrip (a ++ b) = a ++ rstrip b.
Proof.
  intros Hb. induction a as [| c a IH]; [reflexivity |].
  cbn [app rstrip]. rewrite IH.
  destruct (a ++ rstrip b) eqn:E; [| reflexivity].
  apply app_eq_nil in E. tauto.
Qed.

Lemma stripped_rstrip (s : str) : strip s = s -> rstrip s = s.
Proof.
  intros H. pose proof (strip_no_leading_space s) as Hl. rewrite H in Hl.
  unfold strip in H. now rewrite (lstrip_id s Hl) in H.
Qed.

Lemma no_linebreak_app (a b : str) :
  no_linebreak a -> no_linebreak b -> no_linebreak (a ++ b).
Proof. intros Ha Hb. apply Forall_app. auto. Qed.

Lemma plainb_plain (s : str) : plainb s = true -> plain s.
Proof.
  unfold plainb, plain. rewrite !andb_true_iff. intros [[Ht He] Hf].
  split; [now destruct s |]. split; [now apply str_eqb_eq |].
  apply Forall_forall. intros c Hc.
  rewrite forallb_forall in Hf. now apply negb_true_iff, Hf.
Qed.

(** Two plain values stay plain with anything on one line between. *)
Lemma plain_between (a mid b : str) :
  plain a -> no_linebreak mid -> plain b -> plain (a ++ mid ++ b).
Proof.
  intros (Ha & Hsa & Hla) Hmid (Hb & Hsb & Hlb). split; [| split].
  - destruct a; [congruence | discriminate].
  - unfold strip. rewrite lstrip_id.
    + rewrite app_assoc, rstrip_app; rewrite (stripped_rstrip b Hsb);
        [reflexivity | exact Hb].
    + pose proof (strip_no_leading_space a) as Hl. rewrite Hsa in Hl.
      destruct a; [congruence | exact Hl].
  - repeat apply no_linebreak_app; assumption.
Qed.

Lemma dict_get_In {V} (d : dict V) (k : str) (v : V) :
  dict_get d k = Some v -> In (k, v) d.
Proof.
  induction d as [| [k0 v0] d IH]; simpl; [discriminate |].
  destruct (str_eqb k k0) eqn:E.
  - apply str_eqb_eq in E. subst k0. intros H. inversion H. now left.
  - intros H. right. now apply IH.
Qed.

End PyFacts.

(* ================================================================== *)
(** * Properties of the converter *)
(* ================================================================== *)

Module ConverterFacts.
Import PyFacts Converter.

(** ** The example of the specification *)

(** C2. Processing the one note of the example and flushing leaves the
    note in place and adds one file, [exported/2025-07-21.md], whose
    whole text is the two headings with the event line and the body,
    each line ended by a line feed. *)
Theorem call_note_daily_file :
  main [py "Call.md"] call_world
  = (Return tt,
     World [(py "Call.md", call_note);
            (py "exported/2025-07-21.md", call_daily)]
           []
           [(py "2025-07-21", Day [call_line] [py "Followed up."])]
           [py "Conversion complete. Files written to 'exported/'."]).
Proof. vm_compute. reflexivity. Qed.

(** ** Event lines *)

Lemma event_line_parts (fm : dict str) :
  event_line fm
  = py "- " ++ checkbox_of (dict_get_default fm (py "completed") [])
    ++ py " " ++ title_of fm ++ annotations_of fm.
Proof.
  unfold event_line, title_of, annotations_of.
  destruct (negb (str_eqb (dict_get_default fm (py "endDate") []) []));
    str_norm; reflexivity.
Qed.

Lemma checkbox_of_nonempty (completed : str) :
  completed <> [] -> checkbox_of completed = py "[x]".
Proof. destruct completed; [congruence | reflexivity]. Qed.

Lemma checkbox_of_cases (completed : str) :
  (checkbox_of completed = py "[x]" \/ checkbox_of completed = [])
  /\ checkbox_of completed <> py "[ ]".
Proof. destruct completed; simpl; split; auto; discriminate. Qed.

Lemma events_on_append_event (w : world) (date line : str) :
  events_on (set_events_by_date (append_event date line) w) date
  = events_on w date ++ [line].
Proof.
  unfold events_on, append_event, day_of, dict_get_default; simpl.
  now rewrite dict_get_set_same.
Qed.

Lemma events_on_append_diary (w : world) (date body : str) :
  events_on (set_events_by_date (append_diary date body) w) date
  = events_on w date.
Proof.
  unfold events_on, append_diary, day_of, dict_get_default; simpl.
  now rewrite dict_get_set_same.
Qed.

(** A note with a date adds its event line to that date. *)
Lemma process_note_events (w : world) (file_path content : str)
      (fm : dict str) (body date : str) :
  dict_get (files w) file_path = Some content ->
  startswith content (py "---") = true ->
  extract_frontmatter content = Return (fm, body) ->
  dict_get fm (py "date") = Some date ->
  date <> [] ->
  fst (process_markdown_file file_path w) = Return tt
  /\ events_on (snd (process_markdown_file file_path w)) date
     = events_on w date ++ [event_line fm].
Proof.
  intros Hfile Hstart Hfm Hdate Hne.
  unfold process_markdown_file, bind, read_text, try_except.
  rewrite Hfile, Hstart, Hfm, Hdate. simpl.
  destruct date as [| c date]; [congruence |]. simpl.
  unfold modify. destruct body as [| b body]; simpl; split; try reflexivity.
  - apply events_on_append_event.
  - rewrite events_on_append_diary. apply events_on_append_event.
Qed.

(** C3. For a note with a date: when [completed] is [true] the event
    line added begins [- [x] title]; when [completed] is absent or empty
    the checkbox is the empty string and the line begins [-  title]. *)
Theorem completed_checkbox (w : world) (file_path content : str)
        (fm : dict str) (body date : str) :
  dict_get (files w) file_path = Some content ->
  startswith content (py "---") = true ->
  extract_frontmatter content = Return (fm, body) ->
  dict_get fm (py "date") = Some date ->
  date <> [] ->
  let w' := snd (process_markdown_file file_path w) in
  (dict_get fm (py "completed") = Some (py "true") ->
   events_on w' date
   = events_on w date ++ [py "- [x] " ++ title_of fm ++ annotations_of fm])
  /\ (dict_get fm (py "completed") = None
      \/ dict_get fm (py "completed") = Some [] ->
      events_on w' date
      = events_on w date ++ [py "-  " ++ title_of fm ++ annotations_of fm]).
Proof.
  intros Hfile Hstart Hfm Hdate Hne w'.
  destruct (process_note_events w file_path content fm body date
              Hfile Hstart Hfm Hdate Hne) as [_ Hev].
  unfold w'. rewrite Hev, event_line_parts. unfold dict_get_default.
  split.
  - intros ->. reflexivity.
  - intros [-> | ->]; reflexivity.
Qed.

Lemma completed_checkbox_witness :
  events_on (snd (process_markdown_file (py "Call.md") call_world))
            (py "2025-07-21")
  = [call_line].
Proof.
  refine (proj1 (completed_checkbox call_world (py "Call.md") call_note
                   [(py "date", py "2025-07-21"); (py "title", py "Call");
                    (py "startTime", py "09:00"); (py "endTime", py "10:00");
                    (py "timezone", py "Europe/Budapest");
                    (py "completed", py "true")]
                   (py "Followed up.") (py "2025-07-21")
                   _ _ _ _ _) _);
    try reflexivity. discriminate.
Defined.

(** C4. For a note with a date the checkbox of the event line added is
    [[x]] or the empty string, never [[ ]]; it is [[x]] for every
    non-empty value of [completed], [false] and [0] included. *)
Theorem checkbox_never_unchecked (w : world) (file_path content : str)
        (fm : dict str) (body date : str) :
  dict_get (files w) file_path = Some content ->
  startswith content (py "---") = true ->
  extract_frontmatter content = Return (fm, body) ->
  dict_get fm (py "date") = Some date ->
  date <> [] ->
  exists checkbox,
    events_on (snd (process_markdown_file file_path w)) date
    = events_on w date
      ++ [py "- " ++ checkbox ++ py " " ++ title_of fm ++ annotations_of fm]
    /\ (checkbox = py "[x]" \/ checkbox = [])
    /\ checkbox <> py "[ ]"
    /\ (forall v, dict_get fm (py "completed") = Some v -> v <> [] ->
                  checkbox = py "[x]")
    /\ checkbox_of (py "false") = py "[x]"
    /\ checkbox_of (py "0") = py "[x]".
Proof.
  intros Hfile Hstart Hfm Hdate Hne.
  destruct (process_note_events w file_path content fm body date
              Hfile Hstart Hfm Hdate Hne) as [_ Hev].
  exists (checkbox_of (dict_get_default fm (py "completed") [])).
  rewrite Hev, event_line_parts.
  destruct (checkbox_of_cases (dict_get_default fm (py "completed") []))
    as [Hcases Hnot].
  repeat split; auto.
  intros v Hv Hvne. unfold dict_get_default. rewrite Hv.
  now apply checkbox_of_nonempty.
Qed.

Lemma checkbox_never_unchecked_witness :
  exists checkbox,
    events_on (snd (process_markdown_file (py "Walk.md") walk_world))
              (py "2025-07-22")
    = [py "- " ++ checkbox ++ py " Walk  [startTime:: ]  [endTime:: ]  [timezone:: ]"]
    /\ checkbox = py "[x]".
Proof.
  destruct (checkbox_never_unchecked walk_world (py "Walk.md") walk_note
              [(py "date", py "2025-07-22"); (py "title", py "Walk");
               (py "completed", py "false")]
              [] (py "2025-07-22"))
    as (checkbox & Hev & _ & _ & Hx & _);
    try reflexivity; [discriminate |].
  exists checkbox. split.
  - exact Hev.
  - apply (Hx (py "false")); [reflexivity | discriminate].
Defined.

(** ** Flushing the aggregate *)

Lemma writable_put (path c p : str) (w : world) :
  writable (put path c w) p = writable w p.
Proof. reflexivity. Qed.

Lemma write_fails_put (path c p text : str) (w : world) :
  write_fails (put path c w) p text = write_fails w p text.
Proof. reflexivity. Qed.

Lemma write_put (path c data : str) (w : world) :
  writable w path = true ->
  write path data (put path c w) = (Return tt, put path (c ++ data) w).
Proof.
  unfold writable, write, put, set_files, dict_get_default; simpl.
  rewrite dict_get_set_same, dict_set_set_same.
  destruct (dict_get (faults w) path) as [[| | | room] |];
    intros H; try discriminate H; reflexivity.
Qed.

Lemma write_lines_put (path : str) (lines : list str) :
  forall (c : str) (w : world),
    writable w path = true ->
    for_each lines (fun line => write path (line ++ [LF])) (put path c w)
    = (Return tt,
       put path (c ++ List.concat (map (fun line => line ++ [LF]) lines)) w).
Proof.
  induction lines as [| l lines IH]; intros c w Hw; simpl.
  - now rewrite app_nil_r.
  - unfold bind. rewrite write_put, IH by exact Hw. now rewrite <- app_assoc.
Qed.

Lemma open_w_put (path : str) (w : world) :
  dict_get (faults w) path <> Some NoOpen ->
  open_w path w = (Return tt, put path [] w).
Proof.
  unfold open_w. intros H.
  destruct (dict_get (faults w) path) as [[| | | room] |];
    try reflexivity. congruence.
Qed.

(** One date whose file can be written: the file holds the rendering. *)
Lemma write_day_ok (date : str) (data : day) (w : world) :
  writable w (output_path date) = true ->
  write_day (date, data) w
  = (Return tt, put (output_path date) (render data) w).
Proof.
  intros Hw. unfold write_day, bind at 1.
  rewrite open_w_put
    by (unfold writable in Hw; intros E; rewrite E in Hw; discriminate).
  unfold bind at 1. rewrite write_put by exact Hw.
  unfold bind at 1. rewrite write_lines_put by exact Hw.
  unfold bind at 1. rewrite write_put by exact Hw.
  rewrite write_lines_put by exact Hw. unfold render.
  now rewrite <- !app_assoc.
Qed.

(** The loops of [write_day] as one sequence of writes. *)
Lemma for_each_app {S A} (xs ys : list A) (body : A -> Py.M S unit) :
  forall s, for_each (xs ++ ys) body s
            = bind (for_each xs body) (fun _ => for_each ys body) s.
Proof.
  induction xs as [| x xs IH]; intros s; cbn [app for_each].
  - unfold bind, ret. reflexivity.
  - unfold bind in *. destruct (body x s) as [[[] | e] s']; [| reflexivity].
    apply IH.
Qed.

Lemma for_each_map {S A B} (g : A -> B) (xs : list A)
      (body : B -> Py.M S unit) :
  forall s, for_each (map g xs) body s = for_each xs (fun x => body (g x)) s.
Proof.
  induction xs as [| x xs IH]; intros s; simpl; [reflexivity |].
  unfold bind. destruct (body (g x) s) as [[[] | e] s']; [| reflexivity].
  apply IH.
Qed.

Lemma render_chunks (data : day) :
  render data = List.concat (chunks_of data).
Proof.
  unfold render, chunks_of. rewrite !concat_app.
  cbn [List.concat]. rewrite !app_nil_r. now rewrite <- ?app_assoc.
Qed.

Lemma write_day_chunks (date : str) (data : day) (w : world) :
  write_day (date, data) w
  = bind (open_w (output_path date))
         (fun _ => for_each (chunks_of data) (write (output_path date))) w.
Proof.
  unfold write_day, chunks_of, bind.
  destruct (open_w (output_path date) w) as [[[] | e] w1]; [| reflexivity].
  cbn [app for_each]. unfold bind.
  destruct (write (output_path date) (py "## Events" ++ [LF]) w1)
    as [[[] | e] w2]; [| reflexivity].
  rewrite for_each_app. unfold bind. rewrite for_each_map. cbv beta.
  match goal with
  | |- (let (_, _) := ?l in _) = (let (_, _) := ?r in _) =>
      change r with l; destruct l as [[[] | e] w3]; [| reflexivity]
  end.
  cbn [app for_each]. unfold bind.
  destruct (write (output_path date) (py "## Diary" ++ [LF]) w3)
    as [[[] | e] w4]; [| reflexivity].
  now rewrite for_each_map.
Qed.

(** A file with room for [room] characters takes the pieces that fit and
    raises at the first that does not. *)
Lemma write_room (path c data : str) (w : world) (room : nat) :
  dict_get (faults w) path = Some (Full room) ->
  write path data (put path c w)
  = if (room <? List.length (c ++ data))%nat
    then (Raise (OSError path), put path c w)
    else (Return tt, put path (c ++ data) w).
Proof.
  intros Hf. unfold write, put, set_files, dict_get_default; simpl.
  rewrite Hf, dict_get_set_same, dict_set_set_same. reflexivity.
Qed.

Lemma write_chunks_room (path : str) (w : world) (room : nat) :
  dict_get (faults w) path = Some (Full room) ->
  forall (chunks : list str) (c : str),
    (List.length c <= room)%nat ->
    (room < List.length (c ++ List.concat chunks))%nat ->
    exists part more,
      more <> [] /\ c ++ List.concat chunks = part ++ more
      /\ (List.length part <= room)%nat
      /\ for_each chunks (write path) (put path c w)
         = (Raise (OSError path), put path part w).
Proof.
  intros Hf. induction chunks as [| chunk chunks IH]; intros c Hc Hlong.
  - simpl in Hlong. rewrite app_nil_r in Hlong. lia.
  - cbn [for_each]. unfold bind. rewrite (write_room _ _ _ _ _ Hf).
    destruct (room <? List.length (c ++ chunk))%nat eqn:E.
    + apply Nat.ltb_lt in E. exists c, (List.concat (chunk :: chunks)).
      split; [| split; [reflexivity | split; [exact Hc | reflexivity]]].
      intros Hnil. simpl in Hnil. apply app_eq_nil in Hnil.
      destruct Hnil as [-> _]. rewrite app_nil_r in E. lia.
    + apply Nat.ltb_ge in E.
      destruct (IH (c ++ chunk) E) as (part & more & Hmore & Hsplit & Hlen & Hrun).
      { simpl in Hlong. now rewrite <- app_assoc. }
      exists part, more. split; [exact Hmore |].
      split; [simpl; now rewrite app_assoc | split; [exact Hlen | exact Hrun]].
Qed.

Lemma write_chunks_fit (path : str) (w : world) (room : nat) :
  dict_get (faults w) path = Some (Full room) ->
  forall (chunks : list str) (c : str),
    (List.length (c ++ List.concat chunks) <= room)%nat ->
    for_each chunks (write path) (put path c w)
    = (Return tt, put path (c ++ List.concat chunks) w).
Proof.
  intros Hf. induction chunks as [| chunk chunks IH]; intros c Hfit.
  - simpl. now rewrite app_nil_r.
  - cbn [for_each]. unfold bind. rewrite (write_room _ _ _ _ _ Hf).
    simpl in Hfit. rewrite app_assoc in Hfit.
    replace (room <? List.length (c ++ chunk))%nat with false.
    + rewrite IH by exact Hfit. simpl. now rewrite <- app_assoc.
    + symmetry. apply Nat.ltb_ge. rewrite length_app in Hfit. lia.
Qed.

(** One date whose file takes its text: the file holds the rendering. *)
Lemma write_day_fits (date : str) (data : day) (w : world) :
  write_fails w (output_path date) (render data) = false ->
  write_day (date, data) w
  = (Return tt, put (output_path date) (render data) w).
Proof.
  intros Hw.
  destruct (dict_get (faults w) (output_path date)) as [[| | | room] |] eqn:Hf;
    try (apply write_day_ok; unfold writable; now rewrite Hf).
  - unfold write_fails in Hw. rewrite Hf in Hw. discriminate.
  - unfold write_fails in Hw. rewrite Hf in Hw. apply Nat.ltb_ge in Hw.
    rewrite write_day_chunks. unfold bind.
    rewrite open_w_put by (rewrite Hf; discriminate).
    rewrite render_chunks in *.
    now rewrite (write_chunks_fit _ w room Hf (chunks_of data) []).
Qed.

(** One date whose file cannot be written: the error, and the file as it
    was or with a beginning of its text only. *)
Lemma write_day_fails (date : str) (data : day) (w : world) :
  write_fails w (output_path date) (render data) = true ->
  exists w',
    write_day (date, data) w = (Raise (OSError (output_path date)), w')
    /\ (w' = w
        \/ exists part more,
             more <> [] /\ render data = part ++ more
             /\ w' = put (output_path date) part w).
Proof.
  unfold write_fails. intros Hw. rewrite write_day_chunks.
  destruct (dict_get (faults w) (output_path date)) as [[| | | room] |] eqn:Hf;
    try discriminate Hw.
  - exists w. split; [| now left].
    unfold bind, open_w. now rewrite Hf.
  - apply Nat.ltb_lt in Hw. rewrite render_chunks in Hw.
    destruct (write_chunks_room _ w room Hf (chunks_of data) [])
      as (part & more & Hmore & Hsplit & _ & Hrun);
      [simpl; lia | exact Hw |].
    exists (put (output_path date) part w). split.
    + unfold bind. rewrite open_w_put by (rewrite Hf; discriminate).
      exact Hrun.
    + right. exists part, more. rewrite render_chunks.
      split; [exact Hmore | split; [exact Hsplit | reflexivity]].
Qed.

Lemma writable_flushed (agg : dict day) :
  forall (w : world) (p : str), writable (flushed agg w) p = writable w p.
Proof.
  induction agg as [| [d x] agg IH]; intros w p; simpl; [reflexivity |].
  unfold flushed in *. simpl. now rewrite IH.
Qed.

(** The loop stops at the first date whose file cannot be written. *)
Lemma flush_stops (pre : dict day) (date : str) (data : day)
      (post : dict day) :
  forall w : world,
    (forall d x, In (d, x) pre ->
                 write_fails w (output_path d) (render x) = false) ->
    write_fails w (output_path date) (render data) = true ->
    exists w',
      for_each (pre ++ (date, data) :: post) write_day w
      = (Raise (OSError (output_path date)), w')
      /\ (w' = flushed pre w
          \/ exists part more,
               more <> [] /\ render data = part ++ more
               /\ w' = put (output_path date) part (flushed pre w)).
Proof.
  induction pre as [| [d x] pre IH]; intros w Hpre Hdate;
    cbn [app for_each].
  - destruct (write_day_fails date data w Hdate) as (w' & Hrun & Hw').
    exists w'. unfold bind. rewrite Hrun. split; [reflexivity | exact Hw'].
  - unfold bind. rewrite write_day_fits by (apply Hpre; simpl; auto).
    unfold flushed. simpl. apply IH.
    + intros d' x' Hd'. rewrite write_fails_put. apply Hpre. simpl. auto.
    + now rewrite write_fails_put.
Qed.

(** Without such a date every file is written. *)
Lemma flush_all (agg : dict day) :
  forall w : world,
    (forall d, In d (dict_keys agg) -> writable w (output_path d) = true) ->
    for_each agg write_day w = (Return tt, flushed agg w).
Proof.
  induction agg as [| [d x] agg IH]; intros w Hall; cbn [for_each];
    [reflexivity |].
  unfold bind. rewrite write_day_ok by (apply Hall; simpl; auto).
  unfold flushed. simpl. apply IH.
  intros d' Hd'. rewrite writable_put. apply Hall. simpl. auto.
Qed.

Lemma path_div_inj (name name' : str) :
  path_div EXPORT_DIR name = path_div EXPORT_DIR name' -> name = name'.
Proof.
  unfold path_div, startswith.
  destruct (strip_prefix (py "/") name) as [r |] eqn:E;
    destruct (strip_prefix (py "/") name') as [r' |] eqn:E'; intros H.
  - exact H.
  - apply strip_prefix_app in E. subst name. discriminate H.
  - apply strip_prefix_app in E'. subst name'. discriminate H.
  - now do 2 apply app_inv_head in H.
Qed.

Lemma output_path_inj (d d' : str) :
  output_path d = output_path d' -> d = d'.
Proof.
  unfold output_path. intros H. apply path_div_inj in H.
  now apply app_inv_tail in H.
Qed.

Lemma files_flushed_other (agg : dict day) (p : str) :
  forall w : world,
    (forall d, In d (dict_keys agg) -> output_path d <> p) ->
    dict_get (files (flushed agg w)) p = dict_get (files w) p.
Proof.
  induction agg as [| [d x] agg IH]; intros w Hp; [reflexivity |].
  unfold flushed in *. simpl. rewrite IH.
  - simpl. apply dict_get_set_other. apply Hp. simpl. auto.
  - intros d' Hd'. apply Hp. simpl. auto.
Qed.

Lemma files_flushed_in (agg : dict day) (d : str) (x : day) :
  forall w : world,
    NoDup (dict_keys agg) -> In (d, x) agg ->
    dict_get (files (flushed agg w)) (output_path d) = Some (render x).
Proof.
  induction agg as [| [d0 x0] agg IH]; intros w Hnd Hin; [contradiction |].
  inversion Hnd as [| ? ? Hd0 Hnd']; subst.
  unfold flushed in *. simpl. destruct Hin as [E | Hin].
  - inversion E; subst. rewrite files_flushed_other.
    + simpl. apply dict_get_set_same.
    + intros d' Hd' Heq. apply output_path_inj in Heq. now subst.
  - now apply IH.
Qed.

(** C1, as the code has it. When the file of one date cannot be
    written, because it does not open or because a write to it fails,
    and the files of the dates before it can, [write_aggregated_files]
    raises that error to its caller and the flush stops there: the files
    of the dates before it in the aggregate have been written in full,
    the file of that date is as it was or holds a beginning of its text
    only, and the files of the later dates are as they were. The dates
    are names of one path segment. *)
Theorem flush_stops_at_first_failure (w : world) (pre : dict day)
        (date : str) (data : day) (post : dict day) :
  events_by_date w = pre ++ (date, data) :: post ->
  NoDup (dict_keys (events_by_date w)) ->
  Forall one_segment (dict_keys (events_by_date w)) ->
  (forall d x, In (d, x) pre ->
               write_fails w (output_path d) (render x) = false) ->
  write_fails w (output_path date) (render data) = true ->
  exists w',
    write_aggregated_files w = (Raise (OSError (output_path date)), w')
    /\ (forall d x, In (d, x) pre ->
                    dict_get (files w') (output_path d) = Some (render x))
    /\ (dict_get (files w') (output_path date)
        = dict_get (files w) (output_path date)
        \/ exists part more,
             more <> [] /\ render data = part ++ more
             /\ dict_get (files w') (output_path date) = Some part)
    /\ (forall d, In d (dict_keys post) ->
                  dict_get (files w') (output_path d)
                  = dict_get (files w) (output_path d)).
Proof.
  intros Hagg Hnd _ Hpre Hdate.
  unfold dict_keys in Hnd. rewrite Hagg, map_app in Hnd. simpl in Hnd.
  assert (Hother : forall d, In d (date :: dict_keys post) ->
                     dict_get (files (flushed pre w)) (output_path d)
                     = dict_get (files w) (output_path d)).
  { intros d Hd. apply files_flushed_other.
    intros d' Hd' Heq. apply output_path_inj in Heq. subst d'.
    apply NoDup_remove_2 in Hnd as Hdate_fresh.
    destruct Hd as [<- | Hd].
    - apply Hdate_fresh. apply in_or_app. now left.
    - apply (NoDup_app_disjoint _ _ d Hnd Hd'). now right. }
  assert (Hbefore : forall d x, In (d, x) pre ->
                      dict_get (files (flushed pre w)) (output_path d)
                      = Some (render x)).
  { intros d x Hin. apply files_flushed_in; [| exact Hin].
    now apply NoDup_app_remove_r in Hnd. }
  assert (Hfresh : forall d, In d (dict_keys pre ++ dict_keys post) ->
                     output_path date <> output_path d).
  { intros d Hd Heq. apply output_path_inj in Heq. subst d.
    now apply NoDup_remove_2 in Hnd. }
  destruct (flush_stops pre date data post w Hpre Hdate)
    as (w' & Hrun & [-> | (part & more & Hmore & Hsplit & ->)]).
  - exists (flushed pre w). split; [| split; [exact Hbefore | split]].
    + unfold write_aggregated_files, bind, get. now rewrite Hagg.
    + left. apply Hother. simpl. auto.
    + intros d Hd. apply Hother. simpl. auto.
  - exists (put (output_path date) part (flushed pre w)).
    split; [| split; [| split]].
    + unfold write_aggregated_files, bind, get. now rewrite Hagg.
    + intros d x Hin. simpl. rewrite dict_get_set_other.
      * now apply Hbefore.
      * apply Hfresh. apply in_or_app. left.
        unfold dict_keys. now apply (in_map fst) in Hin.
    + right. exists part, more.
      split; [exact Hmore | split; [exact Hsplit |]].
      simpl. apply dict_get_set_same.
    + intros d Hd. simpl. rewrite dict_get_set_other.
      * apply Hother. simpl. auto.
      * apply Hfresh. apply in_or_app. now right.
Qed.

Lemma flush_stops_at_first_failure_witness :
  (exists w',
      write_aggregated_files blocked_second_world
      = (Raise (OSError (py "exported/2025-07-22.md")), w')
      /\ dict_get (files w') (py "exported/2025-07-21.md") = Some call_daily
      /\ dict_get (files w') (py "exported/2025-07-22.md") = None)
  /\ (exists w',
        write_aggregated_files full_second_world
        = (Raise (OSError (py "exported/2025-07-22.md")), w')
        /\ dict_get (files w') (py "exported/2025-07-21.md")
           = Some call_daily
        /\ (dict_get (files w') (py "exported/2025-07-22.md")
            = Some (py "old")
            \/ exists part more,
                 more <> []
                 /\ render (Day [py "-  Walk  [startTime:: ]  [endTime:: ]  [timezone:: ]"] [])
                    = part ++ more
                 /\ dict_get (files w') (py "exported/2025-07-22.md")
                    = Some part)).
Proof.
  split.
  - destruct (flush_stops_at_first_failure blocked_second_world
                [(py "2025-07-21", Day [call_line] [py "Followed up."])]
                (py "2025-07-22")
                (Day [py "-  Walk  [startTime:: ]  [endTime:: ]  [timezone:: ]"] [])
                [])
      as (w' & Hrun & Hpre & Hdate & _).
    + reflexivity.
    + repeat constructor; simpl; intuition discriminate.
    + repeat constructor.
    + intros d x [E | []]. injection E as <- <-. reflexivity.
    + reflexivity.
    + exists w'. split; [exact Hrun | split].
      * apply (Hpre (py "2025-07-21") (Day [call_line] [py "Followed up."])).
        simpl. auto.
      * assert (Hw' : w' = snd (write_aggregated_files blocked_second_world))
          by (now rewrite Hrun).
        rewrite Hw'. reflexivity.
  - destruct (flush_stops_at_first_failure full_second_world
                [(py "2025-07-21", Day [call_line] [py "Followed up."])]
                (py "2025-07-22")
                (Day [py "-  Walk  [startTime:: ]  [endTime:: ]  [timezone:: ]"] [])
                [])
      as (w' & Hrun & Hpre & Hdate & _).
    + reflexivity.
    + repeat constructor; simpl; intuition discriminate.
    + repeat constructor.
    + intros d x [E | []]. injection E as <- <-. reflexivity.
    + reflexivity.
    + exists w'. split; [exact Hrun | split].
      * apply (Hpre (py "2025-07-21") (Day [call_line] [py "Followed up."])).
        simpl. auto.
      * exact Hdate.
Defined.

(** C1, as the claim has it, fails: the first of two dates cannot be
    written (its file does not open, or opens and has no room for its
    text), the second could be, and after the flush the file of the
    second date does not exist. *)
Lemma other_dates_not_written :
  (writable blocked_world (output_path (py "2025-07-22")) = true
   /\ In (py "2025-07-22") (dict_keys (events_by_date blocked_world))
   /\ fst (write_aggregated_files blocked_world)
      = Raise (OSError (output_path (py "2025-07-21")))
   /\ dict_get (files (snd (write_aggregated_files blocked_world)))
               (output_path (py "2025-07-22")) = None)
  /\ (writable full_world (output_path (py "2025-07-22")) = true
      /\ In (py "2025-07-22") (dict_keys (events_by_date full_world))
      /\ fst (write_aggregated_files full_world)
         = Raise (OSError (output_path (py "2025-07-21")))
      /\ dict_get (files (snd (write_aggregated_files full_world)))
                  (output_path (py "2025-07-22")) = None).
Proof. vm_compute. intuition. Qed.

(** ** The frontmatter pattern *)

Lemma star_space_sound {R} (k : str -> option R) (s : str) (r : R) :
  star_space k s = Some r ->
  exists ws s', s = ws ++ s'
                /\ Forall (fun c => is_space c = true) ws /\ k s' = Some r.
Proof.
  induction s as [| c s IH]; simpl; intros H.
  - exists [], []. auto.
  - destruct (is_space c) eqn:Ec.
    + destruct (star_space k s) as [r' |] eqn:Es.
      * inversion H; subst r'.
        destruct (IH eq_refl) as (ws & s' & -> & Hws & Hk).
        exists (c :: ws), s'. auto.
      * exists [], (c :: s). auto.
    + exists [], (c :: s). auto.
Qed.

Lemma star_space_complete {R} (k : str -> option R) (ws s' : str) (r : R) :
  Forall (fun c => is_space c = true) ws -> k s' = Some r ->
  exists r', star_space k (ws ++ s') = Some r'.
Proof.
  intros Hws Hk. induction Hws as [| c ws Hc Hws IH]; simpl.
  - destruct s' as [| c s']; simpl; [eauto |].
    destruct (is_space c); [| eauto].
    destruct (star_space k s'); eauto.
  - rewrite Hc. destruct IH as [r' ->]. eauto.
Qed.

Lemma lazy_any_sound {R} (k : str -> option R) (s g : str) (r : R) :
  lazy_any k s = Some (g, r) -> exists s', s = g ++ s' /\ k s' = Some r.
Proof.
  revert g. induction s as [| c s IH]; simpl; intros g H.
  - destruct (k []) eqn:Ek; inversion H; subst. exists []. auto.
  - destruct (k (c :: s)) eqn:Ek.
    + inversion H; subst. exists (c :: s). auto.
    + destruct (lazy_any k s) as [[g' r'] |] eqn:El; inversion H; subst.
      destruct (IH g' eq_refl) as (s' & -> & Hk). exists s'. auto.
Qed.

Lemma lazy_any_complete {R} (k : str -> option R) (g s' : str) (r : R) :
  k s' = Some r -> exists g' r', lazy_any k (g ++ s') = Some (g', r').
Proof.
  intros Hk. induction g as [| c g IH]; simpl.
  - destruct s'; simpl; rewrite Hk; eauto.
  - destruct (k (c :: g ++ s')); [eauto |].
    destruct IH as (g' & r' & ->). eauto.
Qed.

(** The pattern matches exactly the texts that have a pair of
    delimiters. *)
Lemma strip_prefix_same (p r : str) : strip_prefix p (p ++ r) = Some r.
Proof. now apply strip_prefix_app. Qed.

Lemma re_match_delimited (text : str) :
  re_match_frontmatter text <> None <-> delimited text.
Proof.
  unfold re_match_frontmatter, delimited. split.
  - intros H.
    destruct (strip_prefix (py "---") text) as [s1 |] eqn:E1; [| congruence].
    apply strip_prefix_app in E1. subst text.
    destruct (star_space block s1) as [[g after] |] eqn:E2; [| congruence].
    apply star_space_sound in E2.
    destruct E2 as (ws & s2 & -> & Hws & Hk).
    unfold block in Hk. destruct s2 as [| c s3]; [discriminate |].
    destruct (chr_eqb c LF) eqn:Ec; [| discriminate].
    apply chr_eqb_eq in Ec. subst c.
    apply lazy_any_sound in Hk. destruct Hk as (s4 & -> & Hk).
    unfold closing in Hk.
    destruct (strip_prefix (LF :: py "---") s4) as [s5 |] eqn:E5;
      [| discriminate].
    apply strip_prefix_app in E5. subst s4.
    exists ws, g, s5. split; [exact Hws | reflexivity].
  - intros (ws & inner & rest & Hws & ->).
    rewrite strip_prefix_same.
    assert (Hc : exists r, closing (LF :: py "---" ++ rest) = Some r).
    { unfold closing.
      change (LF :: py "---" ++ rest) with ((LF :: py "---") ++ rest).
      rewrite strip_prefix_same.
      destruct (star_space_complete (fun s6 : str => Some s6) [] rest rest
                  (Forall_nil _) eq_refl) as [x Hx].
      exists x. exact Hx. }
    destruct Hc as [r Hc].
    destruct (lazy_any_complete closing inner _ r Hc) as (g' & r' & Hl).
    destruct (star_space_complete block ws
                ([LF] ++ inner ++ LF :: py "---" ++ rest) (g', r') Hws)
      as [r'' Hs]; [exact Hl |].
    rewrite Hs. discriminate.
Qed.

(** ** The parser returns *)

Lemma split1_contains (c : ascii) (s : str) :
  contains c s = true ->
  exists k v, split1 c s = [k; v] /\ s = k ++ c :: v /\ contains c k = false.
Proof.
  unfold contains. induction s as [| x s IH]; simpl; [discriminate |].
  rewrite (chr_eqb_sym c x).
  destruct (chr_eqb x c) eqn:E; simpl.
  - intros _. apply chr_eqb_eq in E. subst x. exists [], s. auto.
  - intros H. destruct (IH H) as (k & v & -> & -> & Hk).
    exists (x :: k), v. simpl.
    rewrite (chr_eqb_sym c x), E. auto.
Qed.

Lemma parse_lines_returns (lines : list str) :
  forall acc, exists fm, parse_lines lines acc = Return fm.
Proof.
  induction lines as [| line lines IH]; intros acc; simpl; [eauto |].
  destruct (contains ":" line) eqn:E; [| apply IH].
  destruct (split1_contains _ _ E) as (k & v & -> & _). apply IH.
Qed.

Lemma extract_frontmatter_returns (text : str) :
  exists fm body, extract_frontmatter text = Return (fm, body).
Proof.
  unfold extract_frontmatter.
  destruct (re_match_frontmatter text) as [[g after] |]; [| eauto].
  destruct (parse_lines_returns (splitlines g) []) as [fm ->]. eauto.
Qed.

Lemma length_lstrip (s : str) : (List.length (lstrip s) <= List.length s)%nat.
Proof.
  induction s as [| c s IH]; simpl; [lia |].
  destruct (is_space c); simpl; lia.
Qed.

Lemma length_rstrip (s : str) : (List.length (rstrip s) <= List.length s)%nat.
Proof.
  induction s as [| c s IH]; simpl; [lia |].
  destruct (rstrip s); [destruct (is_space c) |]; simpl in *; lia.
Qed.

Lemma length_strip (s : str) : (List.length (strip s) <= List.length s)%nat.
Proof.
  unfold strip. pose proof (length_rstrip (lstrip s)).
  pose proof (length_lstrip s). lia.
Qed.

(** What is left behind a match is shorter than the text. *)
Lemma re_match_shorter (text g after : str) :
  re_match_frontmatter text = Some (g, after) ->
  (List.length after < List.length text)%nat.
Proof.
  unfold re_match_frontmatter. intros H.
  destruct (strip_prefix (py "---") text) as [s1 |] eqn:E1; [| discriminate].
  apply strip_prefix_app in E1. subst text.
  apply star_space_sound in H. destruct H as (ws & s2 & -> & _ & Hk).
  unfold block in Hk. destruct s2 as [| c s3]; [discriminate |].
  destruct (chr_eqb c LF); [| discriminate].
  apply lazy_any_sound in Hk. destruct Hk as (s4 & -> & Hk).
  unfold closing in Hk.
  destruct (strip_prefix (LF :: py "---") s4) as [s5 |] eqn:E5;
    [| discriminate].
  apply strip_prefix_app in E5. subst s4.
  apply star_space_sound in Hk. destruct Hk as (ws' & s6 & -> & _ & Hk).
  injection Hk as ->.
  rewrite !length_app. simpl. rewrite !length_app. simpl.
  rewrite !length_app. lia.
Qed.

(** C5, as the code has it. [extract_frontmatter] returns for every text
    (it never raises). It returns the empty mapping and the text itself
    as the body exactly for the texts without a pair of delimiters as
    the pattern takes them (a leading [---] with only whitespace up to a
    line feed, and behind it a further line feed followed by [---]), and
    so for every text that does not begin with [---]. *)
Theorem extract_frontmatter_total (text : str) :
  (exists fm body, extract_frontmatter text = Return (fm, body))
  /\ (~ delimited text -> extract_frontmatter text = Return ([], text))
  /\ (startswith text (py "---") = false ->
      extract_frontmatter text = Return ([], text))
  /\ (delimited text -> extract_frontmatter text <> Return ([], text)).
Proof.
  assert (Hno : ~ delimited text ->
                extract_frontmatter text = Return ([], text)).
  { intros Hnd. unfold extract_frontmatter.
    destruct (re_match_frontmatter text) as [[g after] |] eqn:E;
      [| reflexivity].
    exfalso. apply Hnd. apply re_match_delimited. congruence. }
  split; [| split; [exact Hno | split]].
  - unfold extract_frontmatter.
    destruct (re_match_frontmatter text) as [[g after] |]; [| eauto].
    destruct (parse_lines_returns (splitlines g) []) as [fm ->]. eauto.
  - intros Hstart. apply Hno. intros (ws & inner & rest & _ & ->).
    unfold startswith in Hstart. rewrite strip_prefix_same in Hstart.
    discriminate.
  - intros Hd. apply re_match_delimited in Hd. unfold extract_frontmatter.
    destruct (re_match_frontmatter text) as [[g after] |] eqn:E;
      [| congruence].
    destruct (parse_lines (splitlines g) []) as [fm | e]; [| discriminate].
    intros Heq. injection Heq as _ Hbody.
    pose proof (re_match_shorter text g after E) as Hlt.
    pose proof (length_strip after) as Hle.
    rewrite Hbody in Hle. lia.
Qed.

Lemma extract_frontmatter_total_witness :
  extract_frontmatter (py "# Notes without a header")
  = Return ([], py "# Notes without a header")
  /\ extract_frontmatter (py "--- title: unfinished")
     = Return ([], py "--- title: unfinished").
Proof.
  split.
  - apply (proj1 (proj2 (proj2 (extract_frontmatter_total
                                  (py "# Notes without a header"))))).
    reflexivity.
  - apply (proj1 (proj2 (extract_frontmatter_total
                           (py "--- title: unfinished")))).
    intros (ws & inner & rest & Hws & E). simpl in E.
    injection E as E. clear - Hws E.
    assert (H : forall ws s, Forall (fun c => is_space c = true) ws ->
                s = ws ++ [LF] ++ inner ++ LF :: py "---" ++ rest ->
                In LF s).
    { intros ws0 s0 _ ->. apply in_or_app. right. simpl. auto. }
    specialize (H ws _ Hws E). simpl in H.
    repeat (destruct H as [H | H]; [discriminate H |]). exact H.
Defined.

(** C5, as the claim has it, fails: the last line of this note is no
    [---] line, so that the note has no well-formed pair of them; it is
    parsed all the same, to the mapping of its one entry and the text
    behind the dashes. *)
Lemma closing_line_with_text :
  lines_of trailing_note = [py "---"; py "k: v"; py "---x"]
  /\ delimiter_lines trailing_note = false
  /\ extract_frontmatter trailing_note
     = Return ([(py "k", py "v")], py "x")
  /\ extract_frontmatter trailing_note <> Return ([], trailing_note).
Proof. vm_compute. repeat split; discriminate. Qed.

(** ** What a parsed mapping looks like *)

Lemma parse_lines_entries (lines : list str) :
  Forall no_linebreak lines ->
  forall acc fm,
    Forall entry_ok acc -> NoDup (dict_keys acc) ->
    parse_lines lines acc = Return fm ->
    Forall entry_ok fm /\ NoDup (dict_keys fm).
Proof.
  induction 1 as [| line lines Hlb Hlines IH]; intros acc fm Hacc Hnd; simpl.
  - intros E. inversion E; subst. auto.
  - destruct (contains ":" line) eqn:Ec; [| now apply IH].
    destruct (split1_contains _ _ Ec) as (k & v & -> & -> & Hk).
    apply IH.
    + unfold no_linebreak in Hlb. apply Forall_app in Hlb.
      destruct Hlb as [Hklb Hvlb]. inversion Hvlb; subst.
      apply dict_set_Forall; [exact Hacc | |].
      * repeat split; try apply strip_idem; try now apply strip_Forall.
        apply contains_false, strip_Forall, contains_false, Hk.
      * intros k0 v0 (Hk0 & _ & Hc0 & Hk0lb & _) _.
        repeat split; try apply strip_idem; auto. now apply strip_Forall.
    + now apply dict_set_NoDup.
Qed.

(** Every entry of a parsed mapping is well formed, and no key occurs
    twice. *)
Lemma extract_frontmatter_entries (text : str) (fm : dict str) (body : str) :
  extract_frontmatter text = Return (fm, body) ->
  Forall entry_ok fm /\ NoDup (dict_keys fm).
Proof.
  unfold extract_frontmatter.
  destruct (re_match_frontmatter text) as [[g after] |].
  - destruct (parse_lines (splitlines g) []) as [fm' | e] eqn:E;
      intros H; inversion H; subst.
    eapply parse_lines_entries; eauto using splitlines_no_linebreak.
    constructor.
  - intros H. inversion H; subst. split; constructor.
Qed.

(** ** Reading back a written mapping *)

Lemma entry_line_no_linebreak (e : str * str) :
  entry_ok e -> no_linebreak (entry_line e).
Proof.
  destruct e as [k v]. intros (_ & _ & _ & Hk & Hv).
  unfold entry_line, no_linebreak. simpl.
  apply Forall_app. split; [exact Hk |].
  constructor; [reflexivity |]. constructor; [reflexivity | exact Hv].
Qed.

Lemma entry_line_nonempty (e : str * str) : entry_line e <> [].
Proof. destruct e as [[| c k] v]; discriminate. Qed.

Lemma entry_line_head (e : str * str) :
  entry_ok e ->
  exists c rest, entry_line e = c :: rest /\ is_space c = false.
Proof.
  destruct e as [k v]. intros (Hk & _). unfold entry_line. simpl.
  destruct k as [| c k].
  - eexists _, _. split; reflexivity.
  - exists c, (k ++ py ": " ++ v). split; [reflexivity |].
    pose proof (strip_no_leading_space (c :: k)) as H.
    rewrite Hk in H. exact H.
Qed.

(** A line whose key does not begin with three dashes does not either,
    whatever follows it. *)
Lemma entry_line_undashed (e : str * str) (tail : str) :
  startswith (fst e) (py "---") = false ->
  strip_prefix (py "---") (entry_line e ++ tail) = None.
Proof.
  destruct e as [k v]. unfold startswith, entry_line.
  destruct k as [| a [| b [| c k]]]; cbn -[chr_eqb];
    repeat match goal with
           | |- context [chr_eqb "-" ?y] =>
               let E := fresh "E" in destruct (chr_eqb "-" y) eqn:E
           end;
    intros H; first [reflexivity | discriminate].
Qed.

Lemma closing_not_LF (c : ascii) (s : str) :
  chr_eqb LF c = false -> closing (c :: s) = None.
Proof. intros H. unfold closing. cbn [strip_prefix]. now rewrite H. Qed.

Lemma lazy_any_cons_none (c : ascii) (s : str) :
  closing (c :: s) = None ->
  lazy_any closing (c :: s)
  = match lazy_any closing s with
    | Some (g, r) => Some (c :: g, r)
    | None => None
    end.
Proof. intros H. simpl. now rewrite H. Qed.

(** The lazy capture runs through a line that holds no line feed. *)
Lemma lazy_any_skip (line s : str) :
  no_linebreak line ->
  lazy_any closing (line ++ s)
  = match lazy_any closing s with
    | Some (g, r) => Some (line ++ g, r)
    | None => None
    end.
Proof.
  induction 1 as [| c line Hc Hline IH].
  - simpl. destruct (lazy_any closing s) as [[g r] |]; reflexivity.
  - rewrite <- app_comm_cons, lazy_any_cons_none, IH.
    + destruct (lazy_any closing s) as [[g r] |]; reflexivity.
    + apply closing_not_LF. apply chr_eqb_neq. intros <-. discriminate Hc.
Qed.

Lemma closing_undashed (s : str) :
  strip_prefix (py "---") s = None -> closing (LF :: s) = None.
Proof.
  intros H. unfold closing.
  change (strip_prefix (LF :: py "---") (LF :: s))
    with (strip_prefix (py "---") s).
  now rewrite H.
Qed.

(** The capture ends at the closing delimiter, past every line whose key
    does not begin with three dashes. *)
Lemma lazy_any_lines (rest : dict str) :
  Forall entry_ok rest ->
  Forall (fun e => startswith (fst e) (py "---") = false) rest ->
  lazy_any closing (List.concat (map (cons LF) (map entry_line rest))
                    ++ LF :: py "---" ++ [LF])
  = Some (List.concat (map (cons LF) (map entry_line rest)), []).
Proof.
  induction 1 as [| e rest He Hrest IH]; intros Hd.
  - reflexivity.
  - inversion Hd as [| ? ? Hde Hdrest]; subst.
    cbn [map List.concat].
    rewrite <- !app_assoc, <- app_comm_cons.
    rewrite lazy_any_cons_none
      by (apply closing_undashed, entry_line_undashed, Hde).
    rewrite lazy_any_skip by (apply entry_line_no_linebreak, He).
    now rewrite (IH Hdrest).
Qed.

Lemma lines_with_feeds (rest : list str) (s : str) :
  forall line,
    (line ++ [LF]) ++ List.concat (map (fun l => l ++ [LF]) rest) ++ s
    = line ++ List.concat (map (cons LF) rest) ++ LF :: s.
Proof.
  induction rest as [| r rest IH]; intros line; cbn [map List.concat].
  - now rewrite <- app_assoc.
  - rewrite <- (app_assoc (r ++ [LF])), IH.
    rewrite <- !app_assoc. reflexivity.
Qed.

Lemma serialize_cons (e : str * str) (rest : dict str) :
  serialize (e :: rest)
  = py "---" ++ LF :: entry_line e
    ++ List.concat (map (cons LF) (map entry_line rest))
    ++ LF :: py "---" ++ [LF].
Proof.
  unfold serialize. cbn [map List.concat].
  rewrite <- (lines_with_feeds (map entry_line rest) (py "---" ++ [LF])).
  rewrite map_map. now rewrite <- !app_assoc.
Qed.

(** The pattern on a written mapping captures its lines. *)
Lemma re_match_serialize (e : str * str) (rest : dict str) :
  Forall entry_ok (e :: rest) ->
  Forall (fun e => startswith (fst e) (py "---") = false) rest ->
  re_match_frontmatter (serialize (e :: rest))
  = Some (entry_line e ++ List.concat (map (cons LF) (map entry_line rest)),
          []).
Proof.
  intros Hok Hd. inversion Hok as [| ? ? He Hrest]; subst.
  rewrite serialize_cons. unfold re_match_frontmatter.
  rewrite strip_prefix_same.
  destruct (entry_line_head e He) as (c & tl & Hline & Hc).
  assert (Hblock : block (LF :: entry_line e
                          ++ List.concat (map (cons LF) (map entry_line rest))
                          ++ LF :: py "---" ++ [LF])
                   = Some (entry_line e
                           ++ List.concat (map (cons LF)
                                             (map entry_line rest)), [])).
  { unfold block. change (chr_eqb LF LF) with true. cbv iota.
    rewrite lazy_any_skip by (apply entry_line_no_linebreak, He).
    now rewrite (lazy_any_lines rest Hrest Hd). }
  cbn [star_space]. change (is_space LF) with true. cbv iota.
  rewrite Hline in *. rewrite <- app_comm_cons.
  cbn [star_space]. rewrite Hc.
  replace (block (c :: tl ++ _)) with (@None (str * str)).
  - rewrite <- app_comm_cons in Hblock. exact Hblock.
  - unfold block. destruct (chr_eqb c LF) eqn:E; [| reflexivity].
    apply chr_eqb_eq in E. subst c. discriminate Hc.
Qed.

Lemma parse_entry_line (e : str * str) (rest : list str) (acc : dict str) :
  entry_ok e -> ~ In (fst e) (dict_keys acc) ->
  parse_lines (entry_line e :: rest) acc = parse_lines rest (acc ++ [e]).
Proof.
  destruct e as [k v]. intros (Hk & Hv & Hc & _) Hfresh.
  unfold entry_line. cbn [parse_lines fst snd].
  assert (Hin : contains ":" (k ++ py ": " ++ v) = true).
  { unfold contains. rewrite existsb_app. simpl. apply orb_true_r. }
  rewrite Hin.
  change (k ++ py ": " ++ v) with (k ++ ":"%char :: (" "%char :: v)).
  rewrite (split1_app _ _ _ Hc), Hk.
  change (strip (" "%char :: v)) with (strip v). rewrite Hv.
  now rewrite dict_set_fresh.
Qed.

Lemma parse_entry_lines (m : dict str) :
  Forall entry_ok m ->
  forall acc, NoDup (dict_keys (acc ++ m)) ->
    parse_lines (map entry_line m) acc = Return (acc ++ m).
Proof.
  induction 1 as [| e m He Hm IH]; intros acc Hnd.
  - simpl. now rewrite app_nil_r.
  - cbn [map]. rewrite parse_entry_line; [| exact He |].
    + rewrite IH; rewrite <- app_assoc; [reflexivity | exact Hnd].
    + unfold dict_keys in Hnd. rewrite map_app in Hnd. simpl in Hnd.
      apply NoDup_remove_2 in Hnd. intros Hin. apply Hnd.
      apply in_or_app. now left.
Qed.

(** A well-formed mapping, written and read back, is itself, provided
    no key after the first begins with three dashes. *)
Lemma extract_serialize (m : dict str) :
  Forall entry_ok m -> NoDup (dict_keys m) ->
  Forall (fun e => startswith (fst e) (py "---") = false) (tl m) ->
  exists body, extract_frontmatter (serialize m) = Return (m, body).
Proof.
  intros Hok Hnd Hd. destruct m as [| e rest].
  - eexists. reflexivity.
  - exists []. unfold extract_frontmatter.
    rewrite (re_match_serialize e rest Hok Hd).
    inversion Hok as [| ? ? He Hrest]; subst.
    rewrite splitlines_lines.
    + change (entry_line e :: map entry_line rest)
        with (map entry_line (e :: rest)).
      now rewrite (parse_entry_lines (e :: rest) Hok []).
    + apply Forall_map. eapply Forall_impl; [| exact Hrest].
      intros e' He'. split;
        [apply entry_line_nonempty | now apply entry_line_no_linebreak].
    + apply entry_line_nonempty.
    + now apply entry_line_no_linebreak.
Qed.

(** C6, as the code has it. The mapping parsed from any text, written
    back as [key: value] lines between [---] lines and parsed again, is
    the same mapping, entry for entry and in the same order, provided no
    key after the first begins with [---]. *)
Theorem frontmatter_roundtrip (text : str) (fm : dict str) (body : str) :
  extract_frontmatter text = Return (fm, body) ->
  Forall (fun e => startswith (fst e) (py "---") = false) (tl fm) ->
  exists body', extract_frontmatter (serialize fm) = Return (fm, body').
Proof.
  intros Hparse Hd.
  destruct (extract_frontmatter_entries text fm body Hparse) as [Hok Hnd].
  now apply extract_serialize.
Qed.

Lemma frontmatter_roundtrip_witness :
  exists body',
    extract_frontmatter
      (serialize [(py "date", py "2025-07-21"); (py "title", py "Call");
                  (py "startTime", py "09:00"); (py "endTime", py "10:00");
                  (py "timezone", py "Europe/Budapest");
                  (py "completed", py "true")])
    = Return ([(py "date", py "2025-07-21"); (py "title", py "Call");
               (py "startTime", py "09:00"); (py "endTime", py "10:00");
               (py "timezone", py "Europe/Budapest");
               (py "completed", py "true")], body').
Proof.
  apply (frontmatter_roundtrip call_note _ (py "Followed up.")).
  - reflexivity.
  - repeat constructor.
Defined.

(** C6, as the claim has it, fails: a block whose second key begins with
    [---] parses to two entries; written back, the line of that key is
    taken for the closing delimiter and only the first entry is read. *)
Lemma roundtrip_loses_dashed_key :
  extract_frontmatter dashed_note = Return (dashed_mapping, [])
  /\ Forall (fun line => line = [] \/ contains ":" line = true)
            (splitlines (py "a: b" ++ [LF] ++ py " ---c: d"))
  /\ extract_frontmatter (serialize dashed_mapping)
     = Return ([(py "a", py "b")], py "c: d" ++ [LF] ++ py "---")
  /\ dict_get dashed_mapping (py "---c") = Some (py "d")
  /\ dict_get [(py "a", py "b")] (py "---c") = None.
Proof.
  vm_compute. repeat split; auto.
Qed.

(** ** Notes that are skipped, files that are missing *)

(** What [process_markdown_file] can do: fail on a file that is missing
    or does not read as text, leave everything as it is, or append to
    the aggregate. *)
Lemma process_markdown_file_cases (file_path : str) (w : world) :
  (dict_get (files w) file_path = None
   /\ process_markdown_file file_path w
      = (Raise match dict_get (faults w) file_path with
               | Some NoRead => OSError file_path
               | Some NotText => UnicodeDecodeError file_path
               | _ => FileNotFoundError file_path
               end, w))
  \/ (dict_get (files w) file_path <> None
      /\ (process_markdown_file file_path w = (Return tt, w)
          \/ (exists date fm,
                 process_markdown_file file_path w
                 = (Return tt,
                    set_events_by_date
                      (append_event date (event_line fm)) w))
          \/ (exists date fm body,
                 process_markdown_file file_path w
                 = (Return tt,
                    set_events_by_date (append_diary date body)
                      (set_events_by_date
                         (append_event date (event_line fm)) w))))).
Proof.
  unfold process_markdown_file, bind, read_text, try_except.
  destruct (dict_get (files w) file_path) as [content |] eqn:Efile;
    [right; split; [discriminate |]
    | left; split; [reflexivity |];
      destruct (dict_get (faults w) file_path) as [[| | | room] |];
      reflexivity].
  destruct (negb (startswith content (py "---"))); [left; reflexivity |].
  destruct (extract_frontmatter_returns content) as (fm & body & ->).
  destruct (dict_get fm (py "date")) as [date |]; [| left; reflexivity].
  destruct (negb (truthy date)); [left; reflexivity |].
  unfold modify, ret. destruct (truthy body).
  - right. right. exists date, fm, body. reflexivity.
  - right. left. exists date, fm. reflexivity.
Qed.

Lemma process_no_date (w : world) (file_path content : str)
      (fm : dict str) (body : str) :
  dict_get (files w) file_path = Some content ->
  extract_frontmatter content = Return (fm, body) ->
  dict_get fm (py "date") = None \/ dict_get fm (py "date") = Some [] ->
  process_markdown_file file_path w = (Return tt, w).
Proof.
  intros Hfile Hfm Hdate.
  unfold process_markdown_file, bind, read_text, try_except.
  rewrite Hfile.
  destruct (negb (startswith content (py "---"))); [reflexivity |].
  rewrite Hfm. destruct Hdate as [-> | ->]; reflexivity.
Qed.

(** X1. A file that does not begin with [---] is skipped, and so is a
    note whose frontmatter has no [date] or an empty one: the call
    returns and nothing has changed. *)
Theorem process_skips (w : world) (file_path content : str) :
  dict_get (files w) file_path = Some content ->
  (startswith content (py "---") = false
   \/ exists fm body,
        extract_frontmatter content = Return (fm, body)
        /\ (dict_get fm (py "date") = None
            \/ dict_get fm (py "date") = Some [])) ->
  process_markdown_file file_path w = (Return tt, w).
Proof.
  intros Hfile [Hstart | (fm & body & Hfm & Hdate)].
  - unfold process_markdown_file, bind, read_text, try_except.
    now rewrite Hfile, Hstart.
  - now apply (process_no_date w file_path content fm body).
Qed.

Lemma process_skips_witness :
  process_markdown_file (py "README.md") day_world = (Return tt, day_world)
  /\ process_markdown_file (py "Standup.md")
       (World [(py "Standup.md",
                frontmatter_note [(py "title", py "Standup");
                                  (py "type", py "recurring")] [LF])]
              [] [] [])
     = (Return tt,
        World [(py "Standup.md",
                frontmatter_note [(py "title", py "Standup");
                                  (py "type", py "recurring")] [LF])]
              [] [] []).
Proof.
  split.
  - apply (process_skips day_world (py "README.md") (py "# Vault"));
      [reflexivity | left; reflexivity].
  - eapply process_skips; [reflexivity |].
    right. exists [(py "title", py "Standup"); (py "type", py "recurring")], [].
    split; [reflexivity | left; reflexivity].
Defined.

(** X2. For a file that reads as text [process_markdown_file] returns:
    the handler of the [try] is never entered, nothing is printed, and
    no file is touched. For any other path the error of [open] or of
    [read], which stand before the [try], reaches the caller and nothing
    has changed: [FileNotFoundError] for no file, [OSError] for a file
    that does not open, [UnicodeDecodeError] for a file that is not
    UTF-8 text. *)
Theorem process_returns_quietly (w : world) (file_path : str) :
  (dict_get (files w) file_path <> None ->
   exists w', process_markdown_file file_path w = (Return tt, w')
              /\ files w' = files w /\ faults w' = faults w
              /\ stdout w' = stdout w)
  /\ (dict_get (files w) file_path = None ->
      process_markdown_file file_path w
      = (Raise match dict_get (faults w) file_path with
               | Some NoRead => OSError file_path
               | Some NotText => UnicodeDecodeError file_path
               | _ => FileNotFoundError file_path
               end, w)).
Proof.
  destruct (process_markdown_file_cases file_path w)
    as [[Hnone Hrun] | [Hsome Hrun]]; split; try congruence.
  - intros _.
    destruct Hrun as [-> | [(d & l & ->) | (d & l & b & ->)]];
      eexists; repeat split.
Qed.

Lemma process_returns_quietly_witness :
  (exists w', process_markdown_file (py "a.md") day_world = (Return tt, w')
              /\ files w' = files day_world
              /\ faults w' = faults day_world
              /\ stdout w' = stdout day_world)
  /\ process_markdown_file (py "gone.md") day_world
     = (Raise (FileNotFoundError (py "gone.md")), day_world)
  /\ process_markdown_file (py "photo.md") binary_world
     = (Raise (UnicodeDecodeError (py "photo.md")), binary_world).
Proof.
  split; [| split].
  - apply (proj1 (process_returns_quietly day_world (py "a.md"))).
    discriminate.
  - apply (proj2 (process_returns_quietly day_world (py "gone.md"))).
    reflexivity.
  - apply (proj2 (process_returns_quietly binary_world (py "photo.md"))).
    reflexivity.
Defined.

(** ** The aggregate only grows *)

Lemma day_of_set_other {agg : dict day} (date d' : str) (x : day) :
  date <> d' -> day_of (dict_set agg date x) d' = day_of agg d'.
Proof.
  intros Hne. unfold day_of, dict_get_default.
  now rewrite dict_get_set_other.
Qed.

Lemma diary_on_append_event (w : world) (date line : str) :
  diary_on (set_events_by_date (append_event date line) w) date
  = diary_on w date.
Proof.
  unfold diary_on, append_event, day_of, dict_get_default; simpl.
  now rewrite dict_get_set_same.
Qed.

Lemma diary_on_append_diary (w : world) (date body : str) :
  diary_on (set_events_by_date (append_diary date body) w) date
  = diary_on w date ++ [body].
Proof.
  unfold diary_on, append_diary, day_of, dict_get_default; simpl.
  now rewrite dict_get_set_same.
Qed.

Lemma process_note_adds_body (w : world) (file_path content : str)
      (fm : dict str) (body date : str) :
  dict_get (files w) file_path = Some content ->
  startswith content (py "---") = true ->
  extract_frontmatter content = Return (fm, body) ->
  dict_get fm (py "date") = Some date ->
  date <> [] ->
  diary_on (snd (process_markdown_file file_path w)) date
  = diary_on w date ++ (if truthy body then [body] else []).
Proof.
  intros Hfile Hstart Hfm Hdate Hne.
  unfold process_markdown_file, bind, read_text, try_except.
  rewrite Hfile, Hstart, Hfm, Hdate. simpl.
  destruct date as [| c date]; [congruence |]. simpl.
  unfold modify, ret. destruct body as [| b body]; simpl.
  - rewrite diary_on_append_event. now rewrite app_nil_r.
  - now rewrite diary_on_append_diary, diary_on_append_event.
Qed.

(** X3. A note with a date and a non-empty body adds the body at the end
    of that date's diary (an empty body adds nothing), and the lines and
    bodies of every other date stay as they were. *)
Theorem process_note_diary (w : world) (file_path content : str)
        (fm : dict str) (body date : str) :
  dict_get (files w) file_path = Some content ->
  startswith content (py "---") = true ->
  extract_frontmatter content = Return (fm, body) ->
  dict_get fm (py "date") = Some date ->
  date <> [] ->
  let w' := snd (process_markdown_file file_path w) in
  diary_on w' date
  = diary_on w date ++ (if truthy body then [body] else [])
  /\ (forall d', d' <> date ->
                 day_of (events_by_date w') d' = day_of (events_by_date w) d').
Proof.
  intros Hfile Hstart Hfm Hdate Hne w'. unfold w'.
  split; [now apply (process_note_adds_body w file_path content fm) |].
  unfold process_markdown_file, bind, read_text, try_except.
  rewrite Hfile, Hstart, Hfm, Hdate. simpl.
  destruct date as [| c date]; [congruence |]. simpl.
  unfold modify, ret. destruct body as [| b body]; simpl.
  - intros d' Hd'. unfold append_event. apply day_of_set_other. congruence.
  - intros d' Hd'. unfold append_diary, append_event.
    rewrite !day_of_set_other by congruence. reflexivity.
Qed.

Lemma process_note_diary_witness :
  diary_on (snd (process_markdown_file (py "b.md")
                   (snd (process_markdown_file (py "a.md") day_world))))
           (py "2025-07-21")
  = [py "Five km."; py "Followed up."].
Proof.
  refine (proj1 (process_note_diary
                   (snd (process_markdown_file (py "a.md") day_world))
                   (py "b.md") evening_note
                   [(py "date", py "2025-07-21"); (py "title", py "Call");
                    (py "endDate", py "2025-07-22")]
                   (py "Followed up.") (py "2025-07-21") _ _ _ _ _));
    try reflexivity. discriminate.
Defined.

(** ** A flush that meets no failure *)

Lemma events_by_date_flushed (agg : dict day) :
  forall w, events_by_date (flushed agg w) = events_by_date w.
Proof.
  induction agg as [| [d x] agg IH]; intros w; [reflexivity |].
  unfold flushed in *. simpl. now rewrite IH.
Qed.



Lemma write_aggregated_files_ok (w : world) :
  (forall d, In d (dict_keys (events_by_date w)) ->
             writable w (output_path d) = true) ->
  write_aggregated_files w = (Return tt, flushed (events_by_date w) w).
Proof.
  intros Hall. unfold write_aggregated_files, bind, get.
  now apply flush_all.
Qed.



Lemma dict_set_same_value {V} (d : dict V) (k : str) (v : V) :
  dict_get d k = Some v -> dict_set d k v = d.
Proof.
  induction d as [| [k0 v0] d IH]; simpl; [discriminate |].
  destruct (str_eqb k k0) eqn:E.
  - intros H. inversion H. reflexivity.
  - intros H. now rewrite IH.
Qed.

Lemma flushed_again (agg : dict day) :
  forall w,
    (forall d x, In (d, x) agg ->
                 dict_get (files w) (output_path d) = Some (render x)) ->
    flushed agg w = w.
Proof.
  induction agg as [| [d x] agg IH]; intros w Hin; [reflexivity |].
  unfold flushed in *. simpl.
  assert (Hput : put (output_path d) (render x) w = w).
  { unfold put. rewrite dict_set_same_value by (apply Hin; simpl; auto).
    now destruct w. }
  rewrite Hput. apply IH. intros d' x' H'. apply Hin. simpl. auto.
Qed.

(** X5. Flushing twice is flushing once: the aggregate is not emptied by
    a flush, and a second flush rewrites every file with the text it
    already holds. *)
Theorem flush_twice (w : world) :
  NoDup (dict_keys (events_by_date w)) ->
  (forall d, In d (dict_keys (events_by_date w)) ->
             writable w (output_path d) = true) ->
  exists w',
    write_aggregated_files w = (Return tt, w')
    /\ write_aggregated_files w' = (Return tt, w').
Proof.
  intros Hnd Hall. exists (flushed (events_by_date w) w).
  split; [now apply write_aggregated_files_ok |].
  rewrite write_aggregated_files_ok.
  - rewrite events_by_date_flushed. f_equal. apply flushed_again.
    intros d x Hin. now apply files_flushed_in.
  - rewrite events_by_date_flushed. intros d Hd.
    rewrite writable_flushed. now apply Hall.
Qed.

Lemma flush_twice_witness :
  exists w',
    write_aggregated_files (World [] [] two_days []) = (Return tt, w')
    /\ write_aggregated_files w' = (Return tt, w').
Proof.
  apply (flush_twice (World [] [] two_days [])).
  - repeat constructor; simpl; intuition discriminate.
  - reflexivity.
Defined.

(** ** A whole run *)







(** ** Notes with a well-formed block *)

Lemma star_space_rest (s : str) :
  star_space (fun s6 : str => Some s6) s = Some (lstrip s).
Proof.
  induction s as [| c s IH]; simpl; [reflexivity |].
  destruct (is_space c); [now rewrite IH | reflexivity].
Qed.

Lemma closing_dashes (tail : str) :
  closing (LF :: py "---" ++ tail) = Some (lstrip tail).
Proof.
  unfold closing.
  change (LF :: py "---" ++ tail) with ((LF :: py "---") ++ tail).
  rewrite strip_prefix_same. apply star_space_rest.
Qed.

Lemma lazy_any_entry_lines (rest : list (str * str)) (tail : str) :
  Forall entry_ok rest -> undashed rest ->
  lazy_any closing (List.concat (map (cons LF) (map entry_line rest))
                    ++ LF :: py "---" ++ tail)
  = Some (List.concat (map (cons LF) (map entry_line rest)), lstrip tail).
Proof.
  induction 1 as [| e rest He Hrest IH]; intros Hd.
  - cbn [map List.concat app].
    change (lazy_any closing (LF :: py "---" ++ tail))
      with (match closing (LF :: py "---" ++ tail) with
            | Some r => Some ([], r)
            | None =>
                match lazy_any closing (py "---" ++ tail) with
                | Some (g, r) => Some (LF :: g, r)
                | None => None
                end
            end).
    now rewrite closing_dashes.
  - inversion Hd as [| ? ? Hde Hdrest]; subst.
    cbn [map List.concat].
    rewrite <- !app_assoc, <- app_comm_cons.
    rewrite lazy_any_cons_none
      by (apply closing_undashed, entry_line_undashed, Hde).
    rewrite lazy_any_skip by (apply entry_line_no_linebreak, He).
    now rewrite (IH Hdrest).
Qed.

Lemma frontmatter_note_cons (e : str * str) (rest : dict str) (tail : str) :
  frontmatter_note (e :: rest) tail
  = py "---" ++ LF :: entry_line e
    ++ List.concat (map (cons LF) (map entry_line rest))
    ++ LF :: py "---" ++ tail.
Proof.
  unfold frontmatter_note. cbn [map List.concat].
  rewrite <- (lines_with_feeds (map entry_line rest) (py "---" ++ tail)).
  rewrite map_map. now rewrite <- !app_assoc.
Qed.

Lemma re_match_note (e : str * str) (rest : list (str * str)) (tail : str) :
  Forall entry_ok (e :: rest) -> undashed rest ->
  re_match_frontmatter (frontmatter_note (e :: rest) tail)
  = Some (entry_line e ++ List.concat (map (cons LF) (map entry_line rest)),
          lstrip tail).
Proof.
  intros Hok Hd. inversion Hok as [| ? ? He Hrest]; subst.
  rewrite frontmatter_note_cons. unfold re_match_frontmatter.
  rewrite strip_prefix_same.
  destruct (entry_line_head e He) as (c & tl & Hline & Hc).
  assert (Hblock : block (LF :: entry_line e
                          ++ List.concat (map (cons LF) (map entry_line rest))
                          ++ LF :: py "---" ++ tail)
                   = Some (entry_line e
                           ++ List.concat (map (cons LF)
                                             (map entry_line rest)),
                           lstrip tail)).
  { unfold block. change (chr_eqb LF LF) with true. cbv iota.
    rewrite lazy_any_skip by (apply entry_line_no_linebreak, He).
    now rewrite (lazy_any_entry_lines rest tail Hrest Hd). }
  cbn [star_space]. change (is_space LF) with true. cbv iota.
  rewrite Hline in *. rewrite <- app_comm_cons.
  cbn [star_space]. rewrite Hc.
  replace (block (c :: tl ++ _)) with (@None (str * str)).
  - rewrite <- app_comm_cons in Hblock. exact Hblock.
  - unfold block. destruct (chr_eqb c LF) eqn:E; [| reflexivity].
    apply chr_eqb_eq in E. subst c. discriminate Hc.
Qed.

Lemma parse_entry_line_set (e : str * str) (rest : list str)
      (acc : dict str) :
  entry_ok e ->
  parse_lines (entry_line e :: rest) acc
  = parse_lines rest (dict_set acc (fst e) (snd e)).
Proof.
  destruct e as [k v]. intros (Hk & Hv & Hc & _).
  unfold entry_line. cbn [parse_lines fst snd].
  assert (Hin : contains ":" (k ++ py ": " ++ v) = true).
  { unfold contains. rewrite existsb_app. simpl. apply orb_true_r. }
  rewrite Hin.
  change (k ++ py ": " ++ v) with (k ++ ":"%char :: (" "%char :: v)).
  rewrite (split1_app _ _ _ Hc), Hk.
  change (strip (" "%char :: v)) with (strip v). now rewrite Hv.
Qed.

Lemma parse_entry_lines_fold (m : list (str * str)) :
  Forall entry_ok m ->
  forall acc,
    parse_lines (map entry_line m) acc
    = Return (fold_left (fun d entry => dict_set d (fst entry) (snd entry))
                        m acc).
Proof.
  induction 1 as [| e m He Hm IH]; intros acc; [reflexivity |].
  cbn [map fold_left]. rewrite parse_entry_line_set by exact He. apply IH.
Qed.

Lemma strip_lstrip (s : str) : strip (lstrip s) = strip s.
Proof.
  unfold strip. now rewrite (lstrip_id _ (lstrip_no_leading_space s)).
Qed.

Lemma fold_set_fresh (m : list (str * str)) :
  forall acc : dict str,
    NoDup (dict_keys (acc ++ m)) ->
    fold_left (fun d entry => dict_set d (fst entry) (snd entry)) m acc
    = acc ++ m.
Proof.
  induction m as [| [k v] m IH]; intros acc Hnd; cbn [fold_left fst snd].
  - now rewrite app_nil_r.
  - rewrite dict_set_fresh.
    + rewrite IH; rewrite <- app_assoc; [reflexivity | exact Hnd].
    + unfold dict_keys in Hnd. rewrite map_app in Hnd. simpl in Hnd.
      apply NoDup_remove_2 in Hnd. intros Hin. apply Hnd.
      apply in_or_app. now left.
Qed.

Lemma extract_note_dict (e : str * str) (rest : list (str * str))
      (tail : str) :
  Forall entry_ok (e :: rest) ->
  undashed rest ->
  extract_frontmatter (frontmatter_note (e :: rest) tail)
  = Return (dict_of (e :: rest), strip tail).
Proof.
  intros Hok Hd.
  unfold extract_frontmatter. rewrite (re_match_note e rest tail Hok Hd).
  inversion Hok as [| ? ? He Hrest]; subst.
  rewrite splitlines_lines.
  - change (entry_line e :: map entry_line rest)
      with (map entry_line (e :: rest)).
    rewrite (parse_entry_lines_fold (e :: rest) Hok []).
    now rewrite strip_lstrip.
  - apply Forall_map. eapply Forall_impl; [| exact Hrest].
    intros e' He'. split;
      [apply entry_line_nonempty | now apply entry_line_no_linebreak].
  - apply entry_line_nonempty.
  - now apply entry_line_no_linebreak.
Qed.

Lemma dict_of_fresh (m : list (str * str)) :
  NoDup (dict_keys m) -> dict_of m = m.
Proof.
  intros Hnd. unfold dict_of. now rewrite fold_set_fresh.
Qed.

(** X7. A note whose block is a sequence of well-formed [key: value]
    lines, none after the first beginning with [---], parses to the
    dictionary those assignments build, in that order, together with the
    stripped text after the closing dashes; when no key is repeated the
    dictionary is the sequence of entries itself. *)
Theorem extract_frontmatter_note (e : str * str) (rest : list (str * str))
        (tail : str) :
  Forall entry_ok (e :: rest) ->
  undashed rest ->
  extract_frontmatter (frontmatter_note (e :: rest) tail)
  = Return (dict_of (e :: rest), strip tail)
  /\ (NoDup (dict_keys (e :: rest)) -> dict_of (e :: rest) = e :: rest).
Proof.
  intros Hok Hd. split.
  - now apply extract_note_dict.
  - apply dict_of_fresh.
Qed.

Lemma extract_frontmatter_note_witness :
  extract_frontmatter evening_note
  = Return ([(py "date", py "2025-07-21"); (py "title", py "Call");
             (py "endDate", py "2025-07-22")], py "Followed up.").
Proof.
  refine (proj1 (extract_frontmatter_note
                   (py "date", py "2025-07-21")
                   [(py "title", py "Call"); (py "endDate", py "2025-07-22")]
                   ([LF] ++ py "Followed up.") _ _)).
  - repeat constructor.
  - repeat constructor.
Defined.

Lemma dict_get_fold_other (m : list (str * str)) (k : str) :
  ~ In k (dict_keys m) ->
  forall acc : dict str,
    dict_get (fold_left (fun d entry => dict_set d (fst entry) (snd entry))
                        m acc) k
    = dict_get acc k.
Proof.
  induction m as [| [k' v'] m IH]; intros Hk acc; cbn [fold_left fst snd];
    [reflexivity |].
  rewrite IH by (intros Hin; apply Hk; simpl; auto).
  apply dict_get_set_other. intros ->. apply Hk. simpl. auto.
Qed.

Lemma dict_get_fold_last (before after : list (str * str)) (k v : str) :
  ~ In k (dict_keys after) ->
  forall acc : dict str,
    dict_get (fold_left (fun d entry => dict_set d (fst entry) (snd entry))
                        (before ++ (k, v) :: after) acc) k
    = Some v.
Proof.
  intros Hk acc. rewrite fold_left_app. cbn [fold_left fst snd].
  rewrite dict_get_fold_other by exact Hk.
  apply dict_get_set_same.
Qed.

(** X8. When a key occurs on several lines of a block, the value of its
    last line is the one the parsed mapping holds: for every line
    [k: v] of the block that no later line of the same key follows, the
    mapping has [v] at [k]. *)
Theorem duplicate_key_last_wins (e : str * str) (rest : list (str * str))
        (tail : str) (before after : list (str * str)) (k v : str) :
  Forall entry_ok (e :: rest) ->
  undashed rest ->
  e :: rest = before ++ (k, v) :: after ->
  ~ In k (dict_keys after) ->
  exists fm body,
    extract_frontmatter (frontmatter_note (e :: rest) tail)
    = Return (fm, body)
    /\ dict_get fm k = Some v.
Proof.
  intros Hok Hd Hsplit Hlast.
  pose proof (extract_note_dict e rest tail Hok Hd) as Hparse.
  eexists _, _. split; [exact Hparse |].
  unfold dict_of. rewrite Hsplit. now apply dict_get_fold_last.
Qed.

Lemma duplicate_key_last_wins_witness :
  exists fm body,
    extract_frontmatter
      (frontmatter_note [(py "title", py "Draft"); (py "title", py "Final");
                         (py "date", py "2025-07-21")] [LF])
    = Return (fm, body)
    /\ dict_get fm (py "title") = Some (py "Final").
Proof.
  apply (duplicate_key_last_wins (py "title", py "Draft")
           [(py "title", py "Final"); (py "date", py "2025-07-21")] [LF]
           [(py "title", py "Draft")] [(py "date", py "2025-07-21")]).
  - repeat constructor.
  - repeat constructor.
  - reflexivity.
  - simpl. intros [H | []]. discriminate H.
Defined.

(** X9. Whatever the text, the mapping [extract_frontmatter] returns has
    no key twice; its keys and values are stripped and hold no line
    boundary, and no key holds a colon. When the text has a pair of
    delimiters the body returned is stripped as well. *)
Theorem parsed_mapping_well_formed (text : str) :
  exists fm body,
    extract_frontmatter text = Return (fm, body)
    /\ Forall entry_ok fm
    /\ NoDup (dict_keys fm)
    /\ (~ delimited text \/ strip body = body).
Proof.
  destruct (extract_frontmatter_returns text) as (fm & body & Hparse).
  exists fm, body. split; [exact Hparse |].
  destruct (extract_frontmatter_entries text fm body Hparse) as [Hok Hnd].
  split; [exact Hok | split; [exact Hnd |]].
  unfold extract_frontmatter in Hparse.
  destruct (re_match_frontmatter text) as [[g after] |] eqn:E; [right | left].
  - destruct (parse_lines (splitlines g) []); inversion Hparse; subst.
    apply strip_idem.
  - intros Hd. now apply re_match_delimited in Hd.
Qed.

(** ** One note alone, and the lines a note can add *)

Lemma lone_aggregate (w : world) (date : str) (data : day) :
  events_by_date w = [(date, data)] ->
  writable w (output_path date) = true ->
  exists w',
    write_aggregated_files w = (Return tt, w')
    /\ dict_get (files w') (output_path date) = Some (render data).
Proof.
  intros Hagg Hw. rewrite write_aggregated_files_ok.
  - eexists. split; [reflexivity |]. rewrite Hagg.
    unfold flushed. simpl. apply dict_get_set_same.
  - rewrite Hagg. simpl. intros d [<- | []]. exact Hw.
Qed.

Lemma lone_note_file (w : world) (file_path content : str)
      (fm : dict str) (body date : str) :
  events_by_date w = [] ->
  dict_get (files w) file_path = Some content ->
  startswith content (py "---") = true ->
  extract_frontmatter content = Return (fm, body) ->
  dict_get fm (py "date") = Some date ->
  date <> [] ->
  writable w (output_path date) = true ->
  exists w',
    bind (process_markdown_file file_path)
         (fun _ => write_aggregated_files) w = (Return tt, w')
    /\ dict_get (files w') (output_path date)
       = Some (render (Day [event_line fm]
                           (if truthy body then [body] else []))).
Proof.
  intros Hagg Hfile Hstart Hfm Hdate Hne Hw.
  destruct w as [fs fl agg out]. simpl in Hagg, Hfile. subst agg.
  unfold bind at 1.
  unfold process_markdown_file, bind, read_text, try_except. cbn [files].
  rewrite Hfile, Hstart, Hfm, Hdate. cbn [negb].
  destruct date as [| c date]; [congruence |]. cbn [truthy negb].
  unfold modify, ret.
  destruct body as [| b body]; cbn [truthy]; apply lone_aggregate;
    try exact Hw.
  - reflexivity.
  - unfold set_events_by_date, append_diary, append_event, day_of,
      dict_get_default. cbn [events_by_date dict_get events diary app].
    rewrite dict_get_set_same, dict_set_set_same. reflexivity.
Qed.

Lemma in_events_on_append_event (w : world) (date l d line : str) :
  In line (events_on (set_events_by_date (append_event date l) w) d) ->
  In line (events_on w d) \/ line = l.
Proof.
  destruct (list_eq_dec ascii_dec date d) as [<- | Hne].
  - rewrite events_on_append_event. intros Hin.
    apply in_app_or in Hin. destruct Hin as [Hin | [<- | []]]; auto.
  - unfold events_on, append_event; simpl.
    rewrite day_of_set_other by exact Hne. auto.
Qed.

Lemma in_events_on_append_diary (w : world) (date b d line : str) :
  In line (events_on (set_events_by_date (append_diary date b) w) d) ->
  In line (events_on w d).
Proof.
  destruct (list_eq_dec ascii_dec date d) as [<- | Hne].
  - now rewrite events_on_append_diary.
  - unfold events_on, append_diary; simpl.
    now rewrite day_of_set_other by exact Hne.
Qed.

(** Every line [process_markdown_file] adds is the event line of some
    mapping. *)
Lemma process_adds_event_line (file_path : str) (w : world)
      (d line : str) :
  In line (events_on (snd (process_markdown_file file_path w)) d) ->
  In line (events_on w d) \/ exists fm, line = event_line fm.
Proof.
  destruct (process_markdown_file_cases file_path w)
    as [[_ ->] | [_ [-> | [(date & fm & ->) | (date & fm & b & ->)]]]];
    cbn [snd]; auto.
  - intros Hin. apply in_events_on_append_event in Hin.
    destruct Hin as [Hin | ->]; eauto.
  - intros Hin. apply in_events_on_append_diary in Hin.
    apply in_events_on_append_event in Hin.
    destruct Hin as [Hin | ->]; eauto.
Qed.

End ConverterFacts.

Module GeneratorFacts.
Import Generator.
Local Open Scope Z_scope.

Lemma returns_randbelow (n : N) :
  (0 < n)%N -> returns (randbelow n) (fun k => (k < n)%N).
Proof.
  intros Hn [| x t]; simpl.
  - exists 0%N, []. split; [reflexivity | exact Hn].
  - exists (x mod n)%N, t. split; [reflexivity |].
    apply N.mod_lt. lia.
Qed.

Lemma returns_random : returns random (fun _ => True).
Proof.
  unfold random. eapply returns_bind.
  - apply returns_randbelow. reflexivity.
  - intros k _. apply returns_ret. exact I.
Qed.

Lemma returns_randint (a b : Z) :
  a <= b -> returns (randint a b) (fun x => a <= x <= b).
Proof.
  intros Hab. unfold randint.
  destruct (b <? a) eqn:E; [apply Z.ltb_lt in E; lia |].
  eapply returns_bind.
  - apply (returns_randbelow (Z.to_N (b - a + 1))). lia.
  - intros k Hk. cbv beta in Hk. apply returns_ret. lia.
Qed.

Lemma returns_choice {A} (seq : list A) :
  seq <> [] -> returns (choice seq) (fun x => In x seq).
Proof.
  intros Hne. unfold choice. destruct seq as [| x0 seq']; [congruence |].
  set (l := x0 :: seq'). eapply returns_bind.
  - apply (returns_randbelow (N.of_nat (List.length l))).
    unfold l. simpl. lia.
  - intros j Hj. cbv beta in Hj.
    destruct (nth_error l (N.to_nat j)) eqn:E.
    + apply returns_ret. eapply nth_error_In, E.
    + apply nth_error_None in E. lia.
Qed.

Lemma CATEGORIES_subs (cat : str) :
  In cat (dict_keys CATEGORIES) ->
  exists subs, dict_get CATEGORIES cat = Some subs /\ subs <> [].
Proof.
  intros Hin. simpl in Hin.
  repeat (destruct Hin as [<- | Hin];
          [eexists; split; [lazy; reflexivity | discriminate] |]).
  contradiction.
Qed.

Lemma returns_pick_category : returns pick_category (fun _ => True).
Proof.
  unfold pick_category. eapply returns_bind.
  - apply returns_choice. discriminate.
  - intros cat Hin. destruct (CATEGORIES_subs _ Hin) as (subs & -> & Hne).
    eapply returns_bind.
    + apply returns_choice, Hne.
    + intros; apply returns_ret; exact I.
Qed.

Lemma length_list_set {A} (pool : list A) (j : nat) (x : A) :
  List.length (list_set pool j x) = List.length pool.
Proof.
  revert j. induction pool as [| y p IH]; intros [| j]; simpl; auto.
Qed.

Lemma returns_sample_loop {A} (k : nat) :
  forall (pool : list A) (n : nat),
    (k <= n)%nat -> (n <= List.length pool)%nat ->
    returns (sample_loop pool n k) (fun l => List.length l = k).
Proof.
  induction k as [| k IH]; intros pool n Hk Hn; simpl.
  - apply returns_ret. reflexivity.
  - eapply returns_bind.
    + apply (returns_randbelow (N.of_nat n)). lia.
    + intros j Hj. cbv beta in Hj.
      destruct (nth_error pool (N.to_nat j)) as [x |] eqn:Ex;
        [| apply nth_error_None in Ex; lia].
      destruct (nth_error pool (n - 1)) as [y |] eqn:Ey;
        [| apply nth_error_None in Ey; lia].
      eapply returns_bind.
      * apply IH; [lia | rewrite length_list_set; lia].
      * intros rest Hrest. cbv beta in Hrest. apply returns_ret. simpl.
        now rewrite Hrest.
Qed.

Lemma returns_sample {A} (population : list A) (k : Z) :
  0 <= k <= Z.of_nat (List.length population) ->
  returns (sample population k) (fun l => List.length l = Z.to_nat k).
Proof.
  intros Hk. unfold sample.
  replace ((0 <=? k) && (k <=? Z.of_nat (List.length population)))
    with true by (symmetry; apply andb_true_iff; split; apply Z.leb_le; lia).
  simpl. apply returns_sample_loop; lia.
Qed.

Lemma length_weekday_pool : List.length (slice DOW 1 6) = 5%nat.
Proof. reflexivity. Qed.

(** One statement of the script: run it, name its result. *)
Tactic Notation "rstep" ident(x) ident(Hx) :=
  eapply returns_bind;
  [ first [ apply returns_pick_category
          | apply returns_random
          | apply returns_randint; lia
          | apply returns_choice; discriminate
          | apply returns_sample; rewrite length_weekday_pool;
            cbv beta in *; lia ]
  | intros x Hx; cbv beta in Hx ].

Lemma one_dimension_count (ev : RecurringEvent) :
  one_dimension ev -> dimensions ev = 1%nat.
Proof.
  unfold one_dimension, dimensions, weekly_dim, monthly_dim, yearly_dim.
  destruct ev as [[[| d ds] |] [m |] [dom |] st en z c sc t]; simpl;
    intros H; try contradiction; reflexivity.
Qed.

(** C7. Whatever the random draws, [gen_recurring_event] returns an event
    with exactly one recurrence dimension: a non-empty list of days with
    no month and no day of the month, or a day of the month with no month
    and no days, or a month and a day of the month with no days. *)
Theorem gen_recurring_event_one_dimension :
  returns gen_recurring_event
    (fun ev => one_dimension ev /\ dimensions ev = 1%nat).
Proof.
  eapply returns_weaken
    with (P := one_dimension);
    [| intros ev H; split; [exact H | apply one_dimension_count, H]].
  unfold gen_recurring_event.
  rstep tz Htz. rstep cs Hcs. destruct cs as [category sub].
  rstep tail Htail. rstep r Hr.
  destruct (Qltb r float_0_6); [| destruct (Qltb r float_0_85)].
  - rstep k Hk. rstep days Hdays. rstep st Hst. rstep dur Hdur.
    apply returns_ret. unfold one_dimension; simpl.
    destruct days as [| d ds]; [simpl in Hdays; lia | exact I].
  - rstep dom Hdom. rstep st Hst. rstep dur Hdur.
    apply returns_ret. exact I.
  - rstep mo Hmo. rstep dom Hdom. rstep st Hst. rstep dur Hdur.
    apply returns_ret. exact I.
Qed.

Lemma offsets_bound (off : Z) :
  In off [0; 15; 30; 45; 60; 90; 120] -> 0 <= off <= 120.
Proof. simpl. intuition lia. Qed.

Lemma durations_bound (dur : Z) :
  In dur [30; 45; 60; 75; 90; 120; 150] -> 30 <= dur <= 150.
Proof. simpl. intuition lia. Qed.

(** C10. Whatever the date and the random draws, [gen_single_event]
    returns an event of that date which, when not all-day, has a start
    and an end with end > start, both minutes of one day (0 <= m < 1440),
    and when all-day has neither start nor end. *)
Theorem gen_single_event_times (d : date) :
  returns (gen_single_event d)
    (fun ev => date_ ev = d /\ single_times_ok ev).
Proof.
  unfold gen_single_event.
  rstep tz Htz. rstep cs Hcs. destruct cs as [category sub].
  rstep tail Htail. rstep r Hr.
  destruct (Qltb r float_0_2).
  - apply returns_ret. unfold single_times_ok; simpl. auto.
  - rstep sod Hsod. rstep off Hoff. rstep dur Hdur. apply returns_ret.
    apply offsets_bound in Hoff. apply durations_bound in Hdur.
    unfold single_times_ok; simpl. split; [reflexivity |].
    eexists _, _. split; [reflexivity |]. split; [reflexivity |]. lia.
Qed.

(** Both branches of [gen_single_event] are taken by some draws. *)
Example gen_single_event_all_day :
  match gen_single_event (Date 2025 7 21) [0; 0; 0; 0; 0]%N with
  | (Return ev, _) => all_day ev = true
  | _ => False
  end.
Proof. vm_compute. reflexivity. Qed.

Example gen_single_event_timed :
  match gen_single_event (Date 2025 7 21)
          [0; 0; 0; 0; 2 ^ 52; 180; 6; 6]%N with
  | (Return ev, _) =>
      all_day ev = false /\ start ev = Some 720 /\ end_ ev = Some 870
  | _ => False
  end.
Proof. vm_compute. repeat split; reflexivity. Qed.

(** [write_recurring] writes one file, named as [recurring_filename]
    says, under [out_dir]. *)
Lemma write_recurring_path (out_dir : str) (ev : RecurringEvent)
      (files : fs) (filename : str) :
  recurring_filename ev = Return filename ->
  exists content,
    write_recurring out_dir ev files
    = (Return tt, dict_set files (os_path_join out_dir filename) content).
Proof.
  unfold recurring_filename, write_recurring.
  destruct (recurring_base ev _) as [base | e]; intros H; inversion H.
  eexists. reflexivity.
Qed.

(** C8. A weekly recurring event is written to the file
    [(Every W1,W2,...) ConstructedTitle.md], the weekday codes joined by
    commas in the order the event lists them; for the days M, W, F and
    the constructed title [Work - Team - Standup] that is exactly
    [(Every M,W,F) Work - Team - Standup.md]. *)
Theorem weekly_filename :
  (forall d ds mo dom st en z cat sub t out_dir files,
      let ev := mkRecurringEvent (Some (d :: ds)) mo dom st en z cat sub t in
      let filename := py "(Every " ++ join (py ",") (d :: ds) ++ py ") "
                      ++ build_constructed_title cat sub t ++ py ".md" in
      recurring_filename ev = Return filename
      /\ exists content,
          write_recurring out_dir ev files
          = (Return tt,
             dict_set files (os_path_join out_dir filename) content))
  /\ constructed_title_of standup_weekly = py "Work - Team - Standup"
  /\ recurring_filename standup_weekly
     = Return (py "(Every M,W,F) Work - Team - Standup.md").
Proof.
  split; [| split; reflexivity].
  intros d ds mo dom st en z cat sub t out_dir files ev filename.
  assert (E : recurring_filename ev = Return filename).
  { unfold recurring_filename, recurring_base, ev, filename.
    str_norm. reflexivity. }
  split; [exact E | apply write_recurring_path, E].
Qed.

Lemma month_abbr_1_12 (m : Z) :
  1 <= m <= 12 ->
  exists mon, month_abbr m = Return mon
              /\ nth_error MONTHS_1_12 (Z.to_nat (m - 1)) = Some mon.
Proof.
  intros Hm.
  assert (H : m = 1 \/ m = 2 \/ m = 3 \/ m = 4 \/ m = 5 \/ m = 6 \/ m = 7
              \/ m = 8 \/ m = 9 \/ m = 10 \/ m = 11 \/ m = 12) by lia.
  repeat (destruct H as [-> | H]; [eexists; split; reflexivity |]).
  subst m. eexists; split; reflexivity.
Qed.

(** C9. A recurring event with a day of the month, no month and no days
    of the week is written to [(Every month on the DD) ConstructedTitle.md];
    one with a month (1 to 12) and a day of the month to
    [(Every year on Mon DD) ConstructedTitle.md], [Mon] being the entry
    of the twelve-entry abbreviation table for that month:
    [write_recurring] writes the file of that name under [out_dir], and
    no other. *)
Theorem monthly_yearly_filename :
  (forall ev d out_dir files,
      truthy_list (days_of_week ev) = false ->
      month ev = None -> day_of_month ev = Some d -> d <> 0 ->
      let filename := py "(Every month on the " ++ str_of_int d ++ py ") "
                      ++ constructed_title_of ev ++ py ".md" in
      recurring_filename ev = Return filename
      /\ exists content,
          write_recurring out_dir ev files
          = (Return tt,
             dict_set files (os_path_join out_dir filename) content))
  /\ (forall ev m d out_dir files,
      truthy_list (days_of_week ev) = false ->
      month ev = Some m -> 1 <= m <= 12 ->
      day_of_month ev = Some d -> d <> 0 ->
      exists mon,
        nth_error MONTHS_1_12 (Z.to_nat (m - 1)) = Some mon
        /\ let filename := py "(Every year on " ++ mon ++ py " "
                           ++ str_of_int d ++ py ") "
                           ++ constructed_title_of ev ++ py ".md" in
           recurring_filename ev = Return filename
           /\ exists content,
               write_recurring out_dir ev files
               = (Return tt,
                  dict_set files (os_path_join out_dir filename) content))
  /\ List.length MONTHS_1_12 = 12%nat.
Proof.
  split; [| split; [| reflexivity]].
  - intros ev d out_dir files Hw Hm Hd Hd0 filename.
    assert (E : recurring_filename ev = Return filename).
    { unfold filename, recurring_filename, recurring_base,
        constructed_title_of.
      rewrite Hw, Hm, Hd. simpl.
      destruct (d =? 0) eqn:E; [apply Z.eqb_eq in E; contradiction |].
      str_norm. reflexivity. }
    split; [exact E | apply write_recurring_path, E].
  - intros ev m d out_dir files Hw Hm Hm12 Hd Hd0.
    destruct (month_abbr_1_12 m Hm12) as (mon & Hab & Hnth).
    exists mon. split; [exact Hnth |]. intros filename.
    assert (E : recurring_filename ev = Return filename).
    { unfold filename, recurring_filename, recurring_base,
        constructed_title_of.
      rewrite Hw, Hm, Hd. simpl.
      destruct (m =? 0) eqn:Em; [apply Z.eqb_eq in Em; lia |].
      destruct (d =? 0) eqn:E; [apply Z.eqb_eq in E; contradiction |].
      simpl. rewrite Hab. str_norm. reflexivity. }
    split; [exact E | apply write_recurring_path, E].
Qed.

Lemma monthly_yearly_filename_witness :
  (exists content,
      write_recurring (py "out") standup_monthly []
      = (Return tt,
         [(py "out/(Every month on the 5) Work - Team - Standup.md",
           content)]))
  /\ (exists content,
        write_recurring (py "out") standup_yearly []
        = (Return tt,
           [(py "out/(Every year on May 7) Work - Team - Standup.md",
             content)])).
Proof.
  destruct monthly_yearly_filename as (Hmonthly & Hyearly & _).
  split.
  - apply (Hmonthly standup_monthly 5 (py "out") []);
      [reflexivity .. | lia].
  - destruct (Hyearly standup_yearly 5 7 (py "out") [])
      as (mon & Hmon & _ & Hwrite);
      [reflexivity | reflexivity | lia | reflexivity | lia |].
    injection Hmon as <-. exact Hwrite.
Defined.

(** ** [fmt_hhmm] *)

Lemma fmt_hhmm_decodes_upto :
  forallb (fun n => match minutes_of_hhmm (fmt_hhmm (Z.of_nat n)) with
                    | Some t => t =? Z.of_nat n
                    | None => false
                    end) (seq 0 (100 * 60)) = true.
Proof. vm_compute. reflexivity. Qed.

(** X10. [fmt_hhmm] writes a time below 100 hours as two digits, a colon
    and two digits below 60 that read back as the same number of
    minutes; a negative number of minutes is written [00:00]. *)
Theorem fmt_hhmm_reads_back (total_minutes : Z) :
  (0 <= total_minutes < 6000 ->
   minutes_of_hhmm (fmt_hhmm total_minutes) = Some total_minutes)
  /\ (total_minutes < 0 -> fmt_hhmm total_minutes = py "00:00").
Proof.
  split.
  - intros Ht.
    pose proof (proj1 (forallb_forall _ _) fmt_hhmm_decodes_upto
                  (Z.to_nat total_minutes)) as H.
    cbv beta in H. rewrite Z2Nat.id in H by lia.
    destruct (minutes_of_hhmm (fmt_hhmm total_minutes)) as [t |].
    + f_equal. apply Z.eqb_eq. apply H. apply in_seq. lia.
    + discriminate H. apply in_seq. lia.
  - intros Ht. unfold fmt_hhmm. now rewrite Z.max_l by lia.
Qed.

Lemma fmt_hhmm_reads_back_witness :
  minutes_of_hhmm (fmt_hhmm 615) = Some 615
  /\ fmt_hhmm 615 = py "10:15"
  /\ fmt_hhmm (-30) = py "00:00".
Proof.
  split; [| split].
  - apply (proj1 (fmt_hhmm_reads_back 615)). lia.
  - reflexivity.
  - apply (proj2 (fmt_hhmm_reads_back (-30))). lia.
Defined.

(** ** What the generators draw *)

Lemma returns_pick_category_pair :
  returns pick_category (fun cs => category_pair (fst cs) (snd cs)).
Proof.
  unfold pick_category. eapply returns_bind.
  - apply returns_choice. discriminate.
  - intros cat Hin. destruct (CATEGORIES_subs cat Hin) as (subs & E & Hne).
    rewrite E. eapply returns_bind.
    + apply returns_choice, Hne.
    + intros sub Hsub. apply returns_ret. exists subs. auto.
Qed.

(** X11. [pick_category] returns, whatever the draws, a category of
    [CATEGORIES] with one of that category's own subcategories: the
    lookup of the chosen key never fails. *)
Theorem pick_category_pairs :
  returns pick_category (fun cs => category_pair (fst cs) (snd cs)).
Proof. exact returns_pick_category_pair. Qed.

Tactic Notation "rstep'" ident(x) ident(Hx) :=
  eapply returns_bind;
  [ first [ apply returns_pick_category_pair
          | apply returns_random
          | apply returns_randint; lia
          | apply returns_choice; discriminate ]
  | intros x Hx; cbv beta in Hx ].

Lemma firstn_succ_nth {A} (p : list A) :
  forall (m : nat) (x : A),
    nth_error p m = Some x -> firstn (S m) p = firstn m p ++ [x].
Proof.
  induction p as [| y p IH]; intros [| m] x H; simpl in *; try discriminate.
  - now inversion H.
  - f_equal. now apply IH.
Qed.

(** One step of the selection loop: the candidates left are the former
    candidates without the one selected. *)
Lemma sample_step_perm {A} (pool : list A) :
  forall (j n : nat) (x last : A),
    (j < n)%nat ->
    nth_error pool j = Some x ->
    nth_error pool (n - 1) = Some last ->
    Permutation (firstn n pool) (x :: firstn (n - 1) (list_set pool j last)).
Proof.
  induction pool as [| y p IH]; intros j n x last Hj Hx Hlast.
  - destruct j; discriminate.
  - destruct n as [| n']; [lia |].
    replace (S n' - 1)%nat with n' in * by lia.
    destruct j as [| j']; simpl in Hx.
    + inversion Hx; subst y. cbn [firstn list_set].
      apply perm_skip. destruct n' as [| n'']; [constructor |].
      simpl in Hlast.
      change (firstn (S n'') (last :: p)) with (last :: firstn n'' p).
      rewrite (firstn_succ_nth p n'' last Hlast).
      apply Permutation_sym, Permutation_cons_append.
    + destruct n' as [| n'']; [lia |]. simpl in Hlast.
      cbn [firstn list_set].
      eapply perm_trans; [| apply perm_swap]. apply perm_skip.
      specialize (IH j' (S n'') x last).
      replace (S n'' - 1)%nat with n'' in IH by lia.
      apply IH; [lia | exact Hx | exact Hlast].
Qed.

Lemma returns_sample_loop_distinct {A} (k : nat) :
  forall (pool : list A) (n : nat),
    (k <= n)%nat -> (n <= List.length pool)%nat ->
    NoDup (firstn n pool) ->
    returns (sample_loop pool n k)
            (fun l => List.length l = k /\ NoDup l
                      /\ incl l (firstn n pool)).
Proof.
  induction k as [| k IH]; intros pool n Hk Hn Hnd; simpl.
  - apply returns_ret. split; [reflexivity |].
    split; [constructor | intros x []].
  - eapply returns_bind.
    + apply (returns_randbelow (N.of_nat n)). lia.
    + intros j Hj. cbv beta in Hj.
      destruct (nth_error pool (N.to_nat j)) as [x |] eqn:Ex;
        [| apply nth_error_None in Ex; lia].
      destruct (nth_error pool (n - 1)) as [y |] eqn:Ey;
        [| apply nth_error_None in Ey; lia].
      pose proof (sample_step_perm pool (N.to_nat j) n x y
                    ltac:(lia) Ex Ey) as Hperm.
      pose proof (Permutation_NoDup Hperm Hnd) as Hnd'.
      inversion Hnd' as [| ? ? Hx Hrest]; subst.
      eapply returns_bind.
      * apply IH; [lia | rewrite length_list_set; lia | exact Hrest].
      * intros rest (Hlen & Hndr & Hincl). apply returns_ret.
        split; [simpl; now rewrite Hlen |].
        split.
        -- constructor; [| exact Hndr]. intros Hin. apply Hx, Hincl, Hin.
        -- intros z [<- | Hz].
           ++ eapply Permutation_in;
                [apply Permutation_sym, Hperm | now left].
           ++ eapply Permutation_in;
                [apply Permutation_sym, Hperm | right; apply Hincl, Hz].
Qed.

(** [random.sample] on a population without repetition: as many
    elements as asked for, all different, all of the population. *)
Lemma returns_sample_distinct {A} (population : list A) (k : Z) :
  NoDup population ->
  0 <= k <= Z.of_nat (List.length population) ->
  returns (sample population k)
          (fun l => List.length l = Z.to_nat k /\ NoDup l
                    /\ incl l population).
Proof.
  intros Hnd Hk. unfold sample.
  replace ((0 <=? k) && (k <=? Z.of_nat (List.length population)))
    with true by (symmetry; apply andb_true_iff; split; apply Z.leb_le; lia).
  simpl. eapply returns_weaken.
  - apply returns_sample_loop_distinct; [lia | lia |].
    now rewrite firstn_all.
  - intros l (Hlen & Hndl & Hincl). rewrite firstn_all in Hincl. auto.
Qed.

Lemma weekday_pool_NoDup : NoDup (slice DOW 1 6).
Proof. repeat constructor; simpl; intuition discriminate. Qed.

(** X12. Whatever the draws, [gen_single_event] returns an event whose
    time zone and title come from the script's lists and whose
    subcategory belongs to its category; when it is not all-day it
    starts between 07:00 and 12:00 and ends 30 to 150 minutes later, so
    the cap at 22:00 never applies. *)
Theorem gen_single_event_draws (d : date) :
  returns (gen_single_event d) single_event_drawn.
Proof.
  unfold gen_single_event.
  rstep' tz Htz. rstep' cs Hcs. destruct cs as [category sub].
  rstep' tail Htail. rstep' r Hr.
  destruct (Qltb r float_0_2).
  - apply returns_ret. unfold single_event_drawn; simpl.
    repeat split; eauto.
  - rstep' sod Hsod. rstep' off Hoff. rstep' dur Hdur. apply returns_ret.
    apply offsets_bound in Hoff. apply durations_bound in Hdur.
    unfold single_event_drawn; simpl.
    split; [exact Htz |]. split; [exact Htail |].
    split; [eauto |].
    exists (sod + off), dur.
    split; [reflexivity |].
    split; [f_equal; apply Z.min_l; lia | lia].
Qed.

Lemma short_durations_bound (dur : Z) :
  In dur [30; 45; 60; 90] -> 30 <= dur <= 90.
Proof. simpl. intuition lia. Qed.

Lemma long_durations_bound (dur : Z) :
  In dur [60; 90; 120] -> 60 <= dur <= 120.
Proof. simpl. intuition lia. Qed.

(** X13. Whatever the draws, [gen_recurring_event] returns an event
    with a start and a later end within one day, drawn time zone, title
    and category pair, and either one to three different weekday codes
    among M, T, W, R, F, or a day of the month from 1 to 28, or a month
    from 1 to 12 with such a day. *)
Theorem gen_recurring_event_draws :
  returns gen_recurring_event recurring_event_drawn.
Proof.
  unfold gen_recurring_event.
  rstep' tz Htz. rstep' cs Hcs. destruct cs as [category sub].
  rstep' tail Htail. rstep' r Hr.
  destruct (Qltb r float_0_6); [| destruct (Qltb r float_0_85)].
  - rstep' k Hk.
    eapply returns_bind;
      [apply returns_sample_distinct;
       [apply weekday_pool_NoDup | rewrite length_weekday_pool; lia] |].
    intros days (Hlen & Hnd & Hincl).
    rstep' st Hst. rstep' dur Hdur. apply returns_ret.
    apply short_durations_bound in Hdur.
    unfold recurring_event_drawn; simpl.
    split; [exact Htz |]. split; [exact Htail |]. split; [eauto |].
    split; [exists st, (st + dur); repeat split; lia |].
    split; [lia | split; [exact Hnd | exact Hincl]].
  - rstep' dom Hdom. rstep' st Hst. rstep' dur Hdur. apply returns_ret.
    apply long_durations_bound in Hdur.
    unfold recurring_event_drawn; simpl.
    split; [exact Htz |]. split; [exact Htail |]. split; [eauto |].
    split; [exists st, (st + dur); repeat split; lia | lia].
  - rstep' mo Hmo. rstep' dom Hdom. rstep' st Hst. rstep' dur Hdur.
    apply returns_ret. apply long_durations_bound in Hdur.
    unfold recurring_event_drawn; simpl.
    split; [exact Htz |]. split; [exact Htail |]. split; [eauto |].
    split; [exists st, (st + dur); repeat split; lia | lia].
Qed.

(** ** Names that fall through, months that do not exist *)

(** X14. An event whose list of days is empty or absent and whose day of
    the month is absent or zero is written by [write_recurring] to the
    file [(Recurring) title.md] under [out_dir]; an event with a day of
    the month and a month above 12 or below -13 is not written at all:
    the lookup of the month's name raises [IndexError] before any file
    is opened. *)
Theorem recurring_edge_names (ev : RecurringEvent) (out_dir : str)
        (files : fs) :
  truthy_list (days_of_week ev) = false ->
  (truthy_int (day_of_month ev) = false ->
   exists content,
     write_recurring out_dir ev files
     = (Return tt,
        dict_set files
          (os_path_join out_dir
             (py "(Recurring) " ++ constructed_title_of ev ++ py ".md"))
          content))
  /\ (forall m, month ev = Some m -> (12 < m \/ m < -13) ->
                truthy_int (day_of_month ev) = true ->
                write_recurring out_dir ev files = (Raise IndexError, files)).
Proof.
  intros Hw. split.
  - intros Hd. apply write_recurring_path.
    unfold recurring_filename, recurring_base, constructed_title_of.
    rewrite Hw, Hd, andb_false_r. str_norm. reflexivity.
  - intros m Hm Hrange Hd.
    unfold write_recurring, recurring_base. rewrite Hw, Hm, Hd.
    assert (Hm0 : truthy_int (Some m) = true).
    { simpl. apply negb_true_iff, Z.eqb_neq. lia. }
    rewrite Hm0. cbn [andb int_of].
    assert (Hab : month_abbr m = Raise IndexError).
    { unfold month_abbr. change (Z.of_nat (List.length MONTH_ABBR)) with 13.
      destruct (m <? 0) eqn:E.
      - apply Z.ltb_lt in E.
        replace ((m + 13 <? 0) || (13 <=? m + 13)) with true; [reflexivity |].
        symmetry. apply orb_true_iff. left. apply Z.ltb_lt. lia.
      - apply Z.ltb_ge in E.
        replace ((m <? 0) || (13 <=? m)) with true; [reflexivity |].
        symmetry. apply orb_true_iff. right. apply Z.leb_le. lia. }
    now rewrite Hab.
Qed.

Lemma recurring_edge_names_witness :
  (exists content,
      write_recurring (py "out") bare_recurring []
      = (Return tt, [(py "out/(Recurring) Review.md", content)]))
  /\ write_recurring (py "out") month_13 [] = (Raise IndexError, []).
Proof.
  split.
  - apply (proj1 (recurring_edge_names bare_recurring (py "out") [] eq_refl)).
    reflexivity.
  - apply (proj2 (recurring_edge_names month_13 (py "out") [] eq_refl) 13);
      [reflexivity | lia | reflexivity].
Defined.

End GeneratorFacts.

(* ================================================================== *)
(** * The generator of daily notes *)
(* ================================================================== *)

Module DailyGeneratorFacts.
Import Py.
Import Generator.
Import GeneratorFacts.
Import DailyGenerator.
Local Open Scope Z_scope.

Lemma returns_build_title :
  returns build_title
    (fun t => exists cat sub tail,
                category_pair cat sub /\ In tail TITLE_TAILS
                /\ t = cat ++ py " - " ++ sub ++ py " - " ++ tail).
Proof.
  unfold build_title. eapply returns_bind.
  - apply returns_pick_category_pair.
  - intros [cat sub] Hcs. cbv beta in Hcs. simpl in Hcs.
    eapply returns_bind.
    + apply returns_choice. discriminate.
    + intros tail Htail. apply returns_ret. exists cat, sub, tail. auto.
Qed.

(** ** The sort *)

Lemma insert_by_start_last (x : GeneratedEvent) (l : list GeneratedEvent) :
  Forall (fun y => start y <= start x) l ->
  insert_by_start x l = l ++ [x].
Proof.
  induction 1 as [| y l Hy _ IH]; simpl; [reflexivity |].
  destruct (start x <? start y) eqn:E; [apply Z.ltb_lt in E; lia |].
  now rewrite IH.
Qed.

Lemma sort_by_start_sorted (l : list GeneratedEvent) :
  StronglySorted (fun a b => start a < start b) l ->
  sort_by_start l = l.
Proof.
  intros Hs. unfold sort_by_start.
  enough (H : forall acc,
             Forall (fun a => Forall (fun b => start a <= start b) l) acc ->
             fold_left (fun sorted x => insert_by_start x sorted) l acc
             = acc ++ l) by (apply (H []); constructor).
  induction Hs as [| x l Hs IH Hx]; intros acc Hacc; simpl.
  - now rewrite app_nil_r.
  - rewrite insert_by_start_last.
    + rewrite IH; [now rewrite <- app_assoc |].
      apply Forall_app. split.
      * eapply Forall_impl; [| exact Hacc].
        intros a Ha. now inversion Ha.
      * constructor; [| constructor].
        eapply Forall_impl; [| exact Hx]. intros b Hb. cbv beta in Hb. lia.
    + eapply Forall_impl; [| exact Hacc].
      intros a Ha. now inversion Ha.
Qed.

Lemma insert_by_start_perm (x : GeneratedEvent) (l : list GeneratedEvent) :
  Permutation (x :: l) (insert_by_start x l).
Proof.
  induction l as [| y l IH]; simpl; [reflexivity |].
  destruct (start x <? start y); [reflexivity |].
  rewrite perm_swap. now constructor.
Qed.

Lemma sort_by_start_perm (l : list GeneratedEvent) :
  Permutation l (sort_by_start l).
Proof.
  unfold sort_by_start.
  enough (H : forall acc,
             Permutation (acc ++ l)
               (fold_left (fun sorted x => insert_by_start x sorted) l acc))
    by apply (H []).
  induction l as [| x l IH]; intros acc; simpl.
  - now rewrite app_nil_r.
  - rewrite <- IH. rewrite <- Permutation_middle.
    change (x :: acc ++ l) with ((x :: acc) ++ l).
    apply Permutation_app_tail, insert_by_start_perm.
Qed.

(** ** The loop *)

Lemma event_durations (ev : GeneratedEvent) :
  event_drawn ev -> 30 <= end_ ev - start ev <= 120.
Proof.
  intros (Hdur & _). simpl in Hdur.
  repeat (destruct Hdur as [<- | Hdur]; [lia |]). contradiction.
Qed.

Lemma last_end_cons (ev : GeneratedEvent) (evs : list GeneratedEvent) :
  evs <> [] -> last_end (ev :: evs) = last_end evs.
Proof.
  unfold last_end. destruct evs as [| e evs]; [congruence | reflexivity].
Qed.

Lemma returns_day_loop (n : nat) :
  forall (t : Z) (events : list GeneratedEvent),
    returns (day_loop n t events)
      (fun evs => exists new,
           evs = events ++ new
           /\ day_from new t
           /\ (List.length new <= n)%nat
           /\ (List.length new = n \/ 21 * 60 < last_end new)).
Proof.
  induction n as [| n IH]; intros t events.
  - apply returns_ret. exists []. rewrite app_nil_r. simpl. auto.
  - cbn [day_loop].
    eapply returns_bind; [apply returns_choice; discriminate |].
    intros dur Hdur. cbv beta in Hdur.
    eapply returns_bind; [apply returns_choice; discriminate |].
    intros z Hz. cbv beta in Hz.
    eapply returns_bind; [apply returns_build_title |].
    intros ttl Httl. cbv beta in Httl.
    eapply returns_bind; [apply returns_random |].
    intros r _.
    eapply returns_bind; [apply returns_randint; lia |].
    intros gap Hgap. cbv beta in Hgap.
    set (ev := mkGeneratedEvent ttl t (t + dur) z (Qltb r float_0_25)).
    assert (Hev : event_drawn ev).
    { unfold event_drawn, ev; cbn [start end_ tz title].
      replace (t + dur - t) with dur by lia. auto. }
    destruct (22 * 60 <? t + dur + gap) eqn:E.
    + apply Z.ltb_lt in E. apply returns_ret. exists [ev].
      split; [reflexivity |]. split; [| split].
      * cbn [day_from]. split; [reflexivity |]. split; [exact Hev |].
        exists (t + dur + gap). unfold ev; cbn [end_]. split; [lia | exact I].
      * simpl. lia.
      * right. unfold last_end, ev. simpl. lia.
    + apply Z.ltb_ge in E.
      eapply returns_weaken; [apply (IH (t + dur + gap) (events ++ [ev])) |].
      intros evs (new & -> & Hfrom & Hlen & Hstop). cbv beta.
      exists (ev :: new). rewrite <- app_assoc. split; [reflexivity |].
      split; [| split].
      * cbn [day_from]. split; [reflexivity |]. split; [exact Hev |].
        exists (t + dur + gap). unfold ev at 1 2; cbn [end_].
        split; [lia |]. destruct new; [exact I | split; [lia | exact Hfrom]].
      * simpl. lia.
      * destruct Hstop as [Hfull | Hlate]; [left; simpl; lia | right].
        rewrite last_end_cons; [exact Hlate |].
        intros ->. unfold last_end in Hlate. simpl in Hlate. lia.
Qed.

Lemma day_from_starts (evs : list GeneratedEvent) :
  forall t, day_from evs t ->
            Forall (fun e => t <= start e) evs
            /\ StronglySorted (fun a b => start a < start b) evs.
Proof.
  induction evs as [| ev rest IH]; intros t Hfrom.
  - split; constructor.
  - cbn [day_from] in Hfrom.
    destruct Hfrom as (Hstart & Hev & t' & Ht' & Hrest).
    pose proof (event_durations ev Hev) as Hdur.
    destruct rest as [| next rest'].
    + split; repeat constructor. lia.
    + destruct Hrest as [_ Hrest].
      destruct (IH t' Hrest) as [Hge Hsorted].
      split.
      * constructor; [lia |].
        eapply Forall_impl; [| exact Hge]. intros e He. cbv beta in He. lia.
      * constructor; [exact Hsorted |].
        eapply Forall_impl; [| exact Hge]. intros e He. cbv beta in He. lia.
Qed.

Lemma day_from_chained (evs : list GeneratedEvent) :
  forall t, day_from evs t -> Forall event_drawn evs /\ chained evs.
Proof.
  induction evs as [| ev rest IH]; intros t Hfrom.
  - split; constructor.
  - cbn [day_from] in Hfrom.
    destruct Hfrom as (Hstart & Hev & t' & Ht' & Hrest).
    destruct rest as [| next rest'].
    + split; [constructor; [exact Hev | constructor] | simpl; auto].
    + destruct Hrest as [Hlate Hrest].
      destruct (IH t' Hrest) as [Hall Hch].
      split; [constructor; assumption |].
      cbn [chained]. split; [| exact Hch].
      cbn [day_from] in Hrest. destruct Hrest as (-> & _). lia.
Qed.

Lemma day_from_drawn (evs : list GeneratedEvent) (t : Z) :
  6 * 60 <= t <= 9 * 60 -> day_from evs t -> day_drawn evs.
Proof.
  intros Ht Hfrom. destruct (day_from_chained evs t Hfrom) as [Hall Hch].
  split; [| split; assumption].
  destruct evs as [| ev rest]; [exact I |].
  cbn [day_from] in Hfrom. destruct Hfrom as (-> & _). exact Ht.
Qed.

Lemma chained_bounds (evs : list GeneratedEvent) :
  Forall event_drawn evs -> chained evs ->
  forall lo, match evs with [] => True | ev :: _ => lo <= start ev <= 22 * 60 end ->
  StronglySorted (fun a b => start a < start b) evs
  /\ Forall (fun e => lo <= start e <= 22 * 60) evs.
Proof.
  induction evs as [| ev rest IH]; intros Hall Hch lo Hfirst.
  - split; constructor.
  - inversion Hall as [| ? ? Hev Hrest]; subst.
    pose proof (event_durations ev Hev) as Hdur.
    cbn [chained] in Hch. destruct Hch as [Hnext Hch].
    destruct rest as [| next rest'].
    + split; repeat constructor; lia.
    + destruct (IH Hrest Hch (start ev + 15)) as [Hsorted Hb]; [lia |].
      split.
      * constructor; [exact Hsorted |].
        eapply Forall_impl; [| exact Hb]. intros e He. cbv beta in He. lia.
      * constructor; [exact Hfirst |].
        eapply Forall_impl; [| exact Hb]. intros e He. cbv beta in He. lia.
Qed.

Lemma returns_day (min_events max_events : Z) :
  min_events <= max_events ->
  returns (gen_events_for_day min_events max_events)
    (fun evs =>
       day_drawn evs
       /\ Z.of_nat (List.length evs) <= Z.max 0 max_events
       /\ (min_events <= Z.of_nat (List.length evs)
           \/ 21 * 60 < last_end evs)).
Proof.
  intros Hmm. unfold gen_events_for_day.
  eapply returns_bind; [apply returns_randint; exact Hmm |].
  intros count Hcount. cbv beta in Hcount.
  eapply returns_bind; [apply returns_randint; lia |].
  intros t Ht. cbv beta in Ht.
  eapply returns_bind; [apply returns_day_loop |].
  intros evs (new & -> & Hfrom & Hlen & Hstop). cbv beta.
  apply returns_ret. simpl.
  rewrite sort_by_start_sorted by apply (day_from_starts new t Hfrom).
  split; [exact (day_from_drawn new t Ht Hfrom) |].
  split; [lia |].
  destruct Hstop as [Hfull | Hlate]; [left; lia | right; exact Hlate].
Qed.

(** X17. With [min_events <= max_events], [gen_events_for_day] returns,
    whatever the draws, at most [max_events] events: the first begins
    between 06:00 and 09:00, each lasts one of the six durations and has
    a time zone of the list and a title [Category - Subcategory - Tail],
    and each begins from 15 minutes before to 60 minutes after the end
    of the one before and no later than 22:00. There are fewer than
    [min_events] only when the last one ends after 21:00. With
    [min_events > max_events] the call raises [ValueError] and draws
    nothing. *)
Theorem gen_events_for_day_drawn (min_events max_events : Z) :
  (min_events <= max_events ->
   returns (gen_events_for_day min_events max_events)
     (fun evs =>
        day_drawn evs
        /\ Z.of_nat (List.length evs) <= Z.max 0 max_events
        /\ (min_events <= Z.of_nat (List.length evs)
            \/ 21 * 60 < last_end evs)))
  /\ (max_events < min_events ->
      forall draws,
        gen_events_for_day min_events max_events draws
        = (Raise ValueError, draws)).
Proof.
  split; [apply returns_day |].
  intros Hlt draws. unfold gen_events_for_day, bind, randint.
  apply Z.ltb_lt in Hlt. now rewrite Hlt.
Qed.

Lemma gen_events_for_day_drawn_witness :
  returns (gen_events_for_day 4 8)
    (fun evs => day_drawn evs
                /\ Z.of_nat (List.length evs) <= 8
                /\ (4 <= Z.of_nat (List.length evs)
                    \/ 21 * 60 < last_end evs))
  /\ gen_events_for_day 8 4 late_draws = (Raise ValueError, late_draws).
Proof.
  split.
  - apply (proj1 (gen_events_for_day_drawn 4 8)). lia.
  - apply (proj2 (gen_events_for_day_drawn 8 4)). lia.
Defined.

(** X18. Whatever the draws and the bounds, the events
    [gen_events_for_day] returns are in strictly increasing order of
    their start; every event begins between 06:00 and 22:00, lasts 30
    to 120 minutes and ends by 24:00. *)
Theorem gen_events_for_day_ordered (min_events max_events : Z) :
  min_events <= max_events ->
  returns (gen_events_for_day min_events max_events)
    (fun evs =>
       StronglySorted (fun a b => start a < start b) evs
       /\ Forall (fun e => 6 * 60 <= start e <= 22 * 60
                           /\ 30 <= end_ e - start e <= 120
                           /\ end_ e <= 24 * 60) evs).
Proof.
  intros Hmm. eapply returns_weaken; [apply (returns_day _ _ Hmm) |].
  intros evs ((Hfirst & Hall & Hch) & _). cbv beta.
  destruct (chained_bounds evs Hall Hch (6 * 60)) as [Hsorted Hb].
  { destruct evs; [exact I | lia]. }
  split; [exact Hsorted |].
  apply Forall_forall. intros e He.
  rewrite Forall_forall in Hall, Hb.
  pose proof (event_durations e (Hall e He)). pose proof (Hb e He). lia.
Qed.

Lemma gen_events_for_day_ordered_witness :
  returns (gen_events_for_day 4 8)
    (fun evs =>
       StronglySorted (fun a b => start a < start b) evs
       /\ Forall (fun e => 6 * 60 <= start e <= 22 * 60
                           /\ 30 <= end_ e - start e <= 120
                           /\ end_ e <= 24 * 60) evs).
Proof.
  apply (gen_events_for_day_ordered 4 8). lia.
Defined.

(** X19. The bound of 24:00 is reached: there are draws for which a day
    of the default size has its last event from 22:00 to 24:00, and
    [write_day_file] writes that end as [24:00]. *)
Theorem end_at_midnight_drawn :
  exists draws evs rest ev,
    gen_events_for_day 4 8 draws = (Return evs, rest)
    /\ List.last evs ev = ev
    /\ In ev evs
    /\ start ev = 22 * 60 /\ end_ ev = 24 * 60
    /\ fmt_hhmm (end_ ev) = py "24:00".
Proof.
  exists late_draws.
  destruct (gen_events_for_day 4 8 late_draws) as [[evs | e] rest] eqn:E;
    [| vm_compute in E; discriminate].
  exists evs, rest,
    (mkGeneratedEvent (py "Work - Project Alpha - Sprint Planning")
       (22 * 60) (24 * 60) (py "Europe/Budapest") true).
  split; [reflexivity |].
  assert (Hevs : evs = fst (match gen_events_for_day 4 8 late_draws with
                            | (Return l, _) => (l, tt)
                            | (Raise _, _) => ([], tt)
                            end)) by (now rewrite E).
  rewrite Hevs. vm_compute. repeat split. do 5 right. left. reflexivity.
Qed.

(** ** The lines of the two formats *)

Lemma day_line_completed (ev : GeneratedEvent) (fm : dict str) :
  completed ev = true ->
  dict_get fm (py "title") = Some (title ev) ->
  dict_get fm (py "startTime") = Some (fmt_hhmm (start ev)) ->
  dict_get fm (py "endTime") = Some (fmt_hhmm (end_ ev)) ->
  dict_get fm (py "timezone") = Some (tz ev) ->
  dict_get_default fm (py "endDate") [] = [] ->
  dict_get_default fm (py "completed") [] <> [] ->
  Converter.event_line fm ++ [LF] = day_line ev.
Proof.
  intros Hc Htitle Hstart Hend Htz Hdate Hdone.
  unfold Converter.event_line, day_line, dict_get_default in *.
  rewrite Htitle, Hstart, Hend, Htz, Hdate, Hc.
  rewrite (ConverterFacts.checkbox_of_nonempty _ Hdone).
  cbn [str_eqb negb]. now str_norm.
Qed.

Lemma day_line_not_completed (ev : GeneratedEvent) (fm : dict str) :
  completed ev = false -> Converter.event_line fm ++ [LF] <> day_line ev.
Proof.
  intros Hc. rewrite ConverterFacts.event_line_parts.
  unfold day_line. rewrite Hc.
  destruct (ConverterFacts.checkbox_of_cases
              (dict_get_default fm (py "completed") [])) as [[-> | ->] _];
    simpl; discriminate.
Qed.

(** X20. [write_day_file] writes, between its heading and the [Diary]
    heading, one list item for the event. For a completed event this is
    the very line the converter writes between [## Events] and
    [## Diary] for a note, processed alone and flushed, with the same
    title, times and time zone, a non-empty [completed] and no
    [endDate] (its date a name of one path segment). The item of an
    event that is not completed, with its empty box, is no line
    [process_markdown_file] ever gathers. *)
Theorem day_line_and_converter (ev : GeneratedEvent) (path heading : str)
        (fs0 : fs) :
  exists item,
    write_day_file path heading [ev] fs0
    = (Return tt,
       dict_set fs0 path
         (py "## " ++ heading ++ [LF; LF] ++ item
          ++ [LF; LF] ++ py "## Diary" ++ [LF; LF]))
    /\ (completed ev = true ->
        forall (w : Converter.world) (file_path content : str)
               (fm : dict str) (body date : str),
          Converter.events_by_date w = [] ->
          dict_get (Converter.files w) file_path = Some content ->
          startswith content (py "---") = true ->
          Converter.extract_frontmatter content = Return (fm, body) ->
          dict_get fm (py "date") = Some date ->
          date <> [] ->
          Converter.one_segment date ->
          Converter.writable w (Converter.output_path date) = true ->
          dict_get fm (py "title") = Some (title ev) ->
          dict_get fm (py "startTime") = Some (fmt_hhmm (start ev)) ->
          dict_get fm (py "endTime") = Some (fmt_hhmm (end_ ev)) ->
          dict_get fm (py "timezone") = Some (tz ev) ->
          dict_get_default fm (py "endDate") [] = [] ->
          dict_get_default fm (py "completed") [] <> [] ->
          exists w',
            bind (Converter.process_markdown_file file_path)
                 (fun _ => Converter.write_aggregated_files) w
            = (Return tt, w')
            /\ dict_get (Converter.files w') (Converter.output_path date)
               = Some (py "## Events" ++ [LF] ++ item
                       ++ py "## Diary" ++ [LF]
                       ++ (if truthy body then body ++ [LF] else [])))
    /\ (completed ev = false ->
        forall (w : Converter.world) (file_path d line : str),
          In line (Converter.events_on
                     (snd (Converter.process_markdown_file file_path w)) d) ->
          ~ In line (Converter.events_on w d) ->
          line ++ [LF] <> item).
Proof.
  exists (day_line ev). split; [| split].
  - unfold write_day_file, write_file, modify. cbn [map app List.concat].
    rewrite app_nil_r. now rewrite <- !app_assoc.
  - intros Hc w file_path content fm body date Hagg Hfile Hstart Hfm Hdate
           Hne _ Hw Htitle Hst Hen Htz Hed Hdone.
    destruct (ConverterFacts.lone_note_file w file_path content fm body date
                Hagg Hfile Hstart Hfm Hdate Hne Hw) as (w' & Hrun & Hout).
    exists w'. split; [exact Hrun |]. rewrite Hout. f_equal.
    rewrite <- (day_line_completed ev fm Hc Htitle Hst Hen Htz Hed Hdone).
    unfold Converter.render. cbn [Converter.events Converter.diary map].
    destruct body; cbn [truthy map List.concat];
      rewrite ?app_nil_r; now rewrite <- ?app_assoc.
  - intros Hc w file_path d line Hin Hnew.
    destruct (ConverterFacts.process_adds_event_line file_path w d line Hin)
      as [Hold | [fm ->]]; [contradiction |].
    now apply day_line_not_completed.
Qed.

Lemma day_line_and_converter_witness :
  write_day_file (py "2025-07-21.md") (py "Events")
    [mkGeneratedEvent (py "Call") 540 600 (py "Europe/Budapest") true] []
  = (Return tt,
     [(py "2025-07-21.md",
       py "## Events" ++ [LF; LF] ++ Converter.call_line ++ [LF]
       ++ [LF; LF] ++ py "## Diary" ++ [LF; LF])])
  /\ dict_get
       (Converter.files
          (snd (bind (Converter.process_markdown_file (py "Call.md"))
                     (fun _ => Converter.write_aggregated_files)
                     Converter.call_world)))
       (Converter.output_path (py "2025-07-21"))
     = Some (py "## Events" ++ [LF] ++ Converter.call_line ++ [LF]
             ++ py "## Diary" ++ [LF] ++ py "Followed up." ++ [LF]).
Proof.
  destruct (day_line_and_converter
              (mkGeneratedEvent (py "Call") 540 600 (py "Europe/Budapest")
                 true)
              (py "2025-07-21.md") (py "Events") [])
    as (item & Hwrite & Hdone & _).
  assert (Hitem : item = Converter.call_line ++ [LF]).
  { assert (E : write_day_file (py "2025-07-21.md") (py "Events")
                  [mkGeneratedEvent (py "Call") 540 600
                     (py "Europe/Budapest") true] []
                = (Return tt,
                   dict_set [] (py "2025-07-21.md")
                     (py "## " ++ py "Events" ++ [LF; LF]
                      ++ (Converter.call_line ++ [LF])
                      ++ [LF; LF] ++ py "## Diary" ++ [LF; LF])))
      by reflexivity.
    rewrite E in Hwrite. cbn [dict_set] in Hwrite.
    injection Hwrite as Hwrite.
    match type of Hwrite with
    | _ = item ++ ?behind =>
        change ((Converter.call_line ++ [LF]) ++ behind = item ++ behind)
          in Hwrite
    end.
    apply app_inv_tail in Hwrite. now symmetry. }
  split; [rewrite Hwrite, Hitem; reflexivity |].
  destruct (Hdone eq_refl Converter.call_world (py "Call.md")
              Converter.call_note
              [(py "date", py "2025-07-21"); (py "title", py "Call");
               (py "startTime", py "09:00"); (py "endTime", py "10:00");
               (py "timezone", py "Europe/Budapest");
               (py "completed", py "true")]
              (py "Followed up.") (py "2025-07-21"))
    as (w' & Hrun & Hfile);
    [reflexivity | reflexivity | reflexivity | reflexivity | reflexivity
    | discriminate | reflexivity | reflexivity | reflexivity | reflexivity
    | reflexivity | reflexivity | reflexivity | discriminate |].
  rewrite Hrun. cbn [snd]. rewrite Hfile, Hitem. reflexivity.
Defined.

End DailyGeneratorFacts.

(* ================================================================== *)
(** * Generated notes under the converter *)
(* ================================================================== *)

Module PipelineFacts.
Import PyFacts Converter Generator Pipeline ConverterFacts GeneratorFacts.
Local Open Scope Z_scope.

(** ** The strings of the generator are plain *)

Lemma TZ_CHOICES_plain (z : str) : In z TZ_CHOICES -> plain z.
Proof.
  intros H. apply plainb_plain.
  assert (Hall : forallb plainb TZ_CHOICES = true) by reflexivity.
  rewrite forallb_forall in Hall. auto.
Qed.

Lemma TITLE_TAILS_plain (t : str) : In t TITLE_TAILS -> plain t.
Proof.
  intros H. apply plainb_plain.
  assert (Hall : forallb plainb TITLE_TAILS = true) by reflexivity.
  rewrite forallb_forall in Hall. auto.
Qed.

Lemma category_pair_plain (cat sub : str) :
  category_pair cat sub -> plain cat /\ plain sub.
Proof.
  intros (subs & Hget & Hin). apply dict_get_In in Hget.
  assert (Hall : forallb (fun entry => plainb (fst entry)
                                       && forallb plainb (snd entry))
                         CATEGORIES = true) by reflexivity.
  rewrite forallb_forall in Hall. specialize (Hall _ Hget).
  apply andb_true_iff in Hall. destruct Hall as [Hc Hs].
  rewrite forallb_forall in Hs. split; apply plainb_plain; auto.
Qed.

Lemma fmt_hhmm_plain_upto :
  forallb (fun n => plainb (fmt_hhmm (Z.of_nat n))) (seq 0 (100 * 60)) = true.
Proof. vm_compute. reflexivity. Qed.

Lemma fmt_hhmm_plain (t : Z) : 0 <= t < 6000 -> plain (fmt_hhmm t).
Proof.
  intros Ht. apply plainb_plain.
  pose proof (proj1 (forallb_forall _ _) fmt_hhmm_plain_upto (Z.to_nat t)) as H.
  cbv beta in H. rewrite Z2Nat.id in H by lia. apply H, in_seq. lia.
Qed.

Lemma fmt_04d_plain_upto :
  forallb (fun n => plainb (fmt_04d (Z.of_nat n))) (seq 1 (100 * 100)) = true.
Proof. vm_compute. reflexivity. Qed.

Lemma fmt_04d_plain (y : Z) : 1 <= y <= 9999 -> plain (fmt_04d y).
Proof.
  intros Hy. apply plainb_plain.
  pose proof (proj1 (forallb_forall _ _) fmt_04d_plain_upto (Z.to_nat y)) as H.
  cbv beta in H. rewrite Z2Nat.id in H by lia. apply H, in_seq. lia.
Qed.

Lemma fmt_02d_plain_upto :
  forallb (fun n => plainb (fmt_02d (Z.of_nat n))) (seq 1 31) = true.
Proof. vm_compute. reflexivity. Qed.

Lemma fmt_02d_plain (n : Z) : 1 <= n <= 31 -> plain (fmt_02d n).
Proof.
  intros Hn. apply plainb_plain.
  pose proof (proj1 (forallb_forall _ _) fmt_02d_plain_upto (Z.to_nat n)) as H.
  cbv beta in H. rewrite Z2Nat.id in H by lia. apply H, in_seq. lia.
Qed.

Lemma plain_no_linebreak (s : str) : plain s -> no_linebreak s.
Proof. now intros (_ & _ & H). Qed.

Lemma isoformat_plain (d : date) : valid_date d -> plain (isoformat d).
Proof.
  intros (Hy & Hm & Hd). unfold isoformat.
  replace (fmt_04d (year d) ++ py "-" ++ fmt_02d (month_of d) ++ py "-"
           ++ fmt_02d (day_of d))
    with (fmt_04d (year d) ++ (py "-" ++ fmt_02d (month_of d) ++ py "-")
          ++ fmt_02d (day_of d))
    by (now rewrite <- !app_assoc).
  apply plain_between.
  - now apply fmt_04d_plain.
  - repeat apply no_linebreak_app; try (repeat constructor).
    apply plain_no_linebreak, fmt_02d_plain. lia.
  - now apply fmt_02d_plain.
Qed.

Lemma constructed_title_plain (cat sub t : str) :
  plain cat -> plain sub -> plain t ->
  build_constructed_title (Some cat) (Some sub) t
  = cat ++ py " - " ++ sub ++ py " - " ++ t
  /\ plain (build_constructed_title (Some cat) (Some sub) t).
Proof.
  intros Hc Hs Ht.
  assert (E : build_constructed_title (Some cat) (Some sub) t
              = cat ++ py " - " ++ sub ++ py " - " ++ t).
  { destruct Hc as (Hc & _), Hs as (Hs & _).
    destruct cat; [congruence |]. destruct sub; [congruence |]. reflexivity. }
  split; [exact E |]. rewrite E.
  replace (cat ++ py " - " ++ sub ++ py " - " ++ t)
    with (cat ++ (py " - " ++ sub ++ py " - ") ++ t)
    by (now rewrite <- !app_assoc).
  apply plain_between; [exact Hc | | exact Ht].
  repeat apply no_linebreak_app; try (repeat constructor).
  now apply plain_no_linebreak.
Qed.

(** An entry with a literal key and a plain or empty value. *)
Lemma entry_ok_plain (k v : str) :
  plainb k = true -> contains ":" k = false -> plain v -> entry_ok (k, v).
Proof.
  intros Hk Hc (_ & Hv & Hlb). apply plainb_plain in Hk.
  destruct Hk as (_ & Hks & Hklb). repeat split; assumption.
Qed.

(** ** Single events *)

(** What [write_single] does, in one equation: one file, holding the
    block of the event and the heading with the placeholder. *)
Lemma write_single_note (out_dir : str) (ev : SingleEvent) (files : fs) :
  write_single out_dir ev files
  = (Return tt,
     dict_set files (single_path out_dir ev)
       (frontmatter_note (single_frontmatter ev) (single_tail ev))).
Proof.
  unfold write_single, write_file, modify, single_path, single_frontmatter,
    single_tail, frontmatter_note, single_title, entry_line.
  f_equal. f_equal.
  destruct (all_day ev); cbn [map List.concat app fst snd];
    repeat rewrite <- app_assoc; cbn [app];
    repeat rewrite <- app_assoc; reflexivity.
Qed.

Lemma or_int_zero (x : Z) : or_int (Some x) 0 = x.
Proof. unfold or_int. destruct (x =? 0) eqn:E; [| reflexivity].
  apply Z.eqb_eq in E. now subst. Qed.

Lemma or_int_nonzero (x y : Z) : x <> 0 -> or_int (Some x) y = x.
Proof. intros H. unfold or_int. destruct (x =? 0) eqn:E; [| reflexivity].
  apply Z.eqb_eq in E. contradiction. Qed.

Lemma single_frontmatter_ok (ev : SingleEvent) :
  valid_date (date_ ev) -> single_event_drawn ev ->
  Forall entry_ok (single_frontmatter ev)
  /\ plain (single_title ev) /\ plain (isoformat (date_ ev)).
Proof.
  intros Hd (Htz & Htitle & (cat & sub & Hc & Hs & Hpair) & Htimes).
  apply TZ_CHOICES_plain in Htz. apply TITLE_TAILS_plain in Htitle.
  apply category_pair_plain in Hpair. destruct Hpair as [Hcat Hsub].
  assert (Hct : plain (single_title ev)).
  { unfold single_title. rewrite Hc, Hs.
    now apply constructed_title_plain. }
  pose proof (isoformat_plain _ Hd) as Hiso.
  split; [| split; assumption].
  unfold single_frontmatter. destruct (all_day ev).
  - repeat (constructor;
            [apply entry_ok_plain;
             [reflexivity | reflexivity
              | first [assumption | apply plainb_plain; reflexivity]] |]).
    constructor.
  - destruct Htimes as (s & dur & Hst & Hen & Hs' & Hdur).
    rewrite Hst, Hen, or_int_zero, or_int_nonzero by lia.
    repeat (constructor;
            [apply entry_ok_plain;
             [reflexivity | reflexivity
              | first [assumption | apply plainb_plain; reflexivity
                       | apply fmt_hhmm_plain; lia]] |]).
    constructor.
Qed.

Lemma single_frontmatter_keys (ev : SingleEvent) :
  NoDup (dict_keys (single_frontmatter ev))
  /\ undashed (tl (single_frontmatter ev))
  /\ dict_get (single_frontmatter ev) (py "date")
     = Some (isoformat (date_ ev))
  /\ event_line (single_frontmatter ev) = single_line ev.
Proof.
  unfold single_frontmatter, single_line, undashed.
  destruct (all_day ev); cbn [app tl dict_keys map fst].
  - split; [repeat constructor; simpl; intuition discriminate |].
    split; [repeat constructor |]. split; [reflexivity |].
    unfold event_line. cbn. rewrite <- ?app_assoc. reflexivity.
  - split; [repeat constructor; simpl; intuition discriminate |].
    split; [repeat constructor |]. split; [reflexivity |].
    unfold event_line. cbn. rewrite <- ?app_assoc. reflexivity.
Qed.

Lemma single_tail_strip (ev : SingleEvent) :
  strip (single_tail ev) = single_body ev.
Proof.
  unfold single_tail, single_body, strip.
  change (lstrip ([LF; LF] ++ py "# " ++ single_title ev ++ [LF; LF]
                   ++ py "Notes..." ++ [LF]))
    with (py "# " ++ single_title ev ++ [LF; LF] ++ py "Notes..." ++ [LF]).
  replace (py "# " ++ single_title ev ++ [LF; LF] ++ py "Notes..." ++ [LF])
    with ((py "# " ++ single_title ev ++ [LF; LF]) ++ py "Notes..." ++ [LF])
    by (now rewrite <- !app_assoc).
  rewrite rstrip_app by discriminate.
  change (rstrip (py "Notes..." ++ [LF])) with (py "Notes...").
  now rewrite <- !app_assoc.
Qed.

(** X15. The note [write_single] writes for an event of the generator,
    read back by the converter, has the event's title, date, times and
    time zone as its mapping and the heading with the placeholder as its
    body; the converter then files, under the event's date, the line
    [-  title  [startTime:: HH:MM]  [endTime:: HH:MM]  [timezone:: tz]]
    (with no checkbox, and with empty times for an all-day event) and
    that body. *)
Theorem single_note_converts (out_dir : str) (ev : SingleEvent)
        (files : fs) :
  valid_date (date_ ev) ->
  single_event_drawn ev ->
  exists content,
    write_single out_dir ev files
    = (Return tt, dict_set files (single_path out_dir ev) content)
    /\ extract_frontmatter content
       = Return (single_frontmatter ev, single_body ev)
    /\ (let w' := snd (process_markdown_file (single_path out_dir ev)
                         (vault (dict_set files (single_path out_dir ev)
                                          content))) in
        events_on w' (isoformat (date_ ev)) = [single_line ev]
        /\ diary_on w' (isoformat (date_ ev)) = [single_body ev]).
Proof.
  intros Hd Hdrawn.
  destruct (single_frontmatter_ok ev Hd Hdrawn) as (Hok & Hct & Hiso).
  destruct (single_frontmatter_keys ev) as (Hnd & Hund & Hdate & Hline).
  exists (frontmatter_note (single_frontmatter ev) (single_tail ev)).
  assert (Hparse : extract_frontmatter
                     (frontmatter_note (single_frontmatter ev)
                        (single_tail ev))
                   = Return (single_frontmatter ev, single_body ev)).
  { remember (single_frontmatter ev) as fm eqn:Efm.
    destruct fm as [| e rest];
      [unfold single_frontmatter in Efm; discriminate |].
    rewrite (extract_note_dict e rest (single_tail ev) Hok Hund).
    now rewrite (dict_of_fresh _ Hnd), single_tail_strip. }
  split; [apply write_single_note |]. split; [exact Hparse |].
  assert (Hfile : dict_get (Converter.files
                              (vault (dict_set files (single_path out_dir ev)
                                        (frontmatter_note
                                           (single_frontmatter ev)
                                           (single_tail ev)))))
                           (single_path out_dir ev)
                  = Some (frontmatter_note (single_frontmatter ev)
                            (single_tail ev)))
    by apply dict_get_set_same.
  assert (Hstart : startswith (frontmatter_note (single_frontmatter ev)
                                 (single_tail ev)) (py "---") = true).
  { unfold startswith, frontmatter_note. now rewrite strip_prefix_same. }
  assert (Hne : isoformat (date_ ev) <> []) by apply Hiso.
  cbv zeta. split.
  - rewrite (proj2 (process_note_events _ _ _ _ _ _
                      Hfile Hstart Hparse Hdate Hne)).
    now rewrite Hline.
  - rewrite (process_note_adds_body _ _ _ _ _ _
                      Hfile Hstart Hparse Hdate Hne).
    reflexivity.
Qed.

Lemma single_note_converts_witness :
  exists content,
    write_single (py "events_fullnote") review_event []
    = (Return tt,
       [(py "events_fullnote/2025-07-21 Work - Team - Code Review.md",
         content)])
    /\ events_on
         (snd (process_markdown_file
                 (py "events_fullnote/2025-07-21 Work - Team - Code Review.md")
                 (vault [(py "events_fullnote/2025-07-21 Work - Team - Code Review.md",
                          content)])))
         (py "2025-07-21")
       = [py "-  Work - Team - Code Review  [startTime:: 09:05]  [endTime:: 09:35]  [timezone:: Europe/London]"].
Proof.
  destruct (single_note_converts (py "events_fullnote") review_event [])
    as (content & Hwrite & _ & Hev & _).
  - unfold valid_date. simpl. lia.
  - split; [simpl; intuition |]. split; [simpl; intuition |].
    split.
    + exists (py "Work"), (py "Team"). split; [reflexivity |].
      split; [reflexivity |].
      exists [py "Project Alpha"; py "Project Beta"; py "Team"; py "Clients"].
      split; [reflexivity | simpl; intuition].
    + exists 545, 30. simpl. repeat split; lia.
  - exists content. split; [exact Hwrite | exact Hev].
Defined.

(** ** Recurring events *)

Lemma write_recurring_note (out_dir : str) (ev : RecurringEvent)
      (files : fs) (filename : str) :
  recurring_filename ev = Return filename ->
  write_recurring out_dir ev files
  = (Return tt,
     dict_set files (os_path_join out_dir filename)
       (frontmatter_note (recurring_frontmatter ev) (recurring_tail ev))).
Proof.
  unfold recurring_filename, write_recurring, constructed_title_of.
  destruct (recurring_base ev _) as [base | e]; intros H; inversion H; subst.
  unfold write_file, modify, recurring_frontmatter, recurring_tail,
    frontmatter_note, constructed_title_of, entry_line.
  f_equal. f_equal.
  destruct (truthy_list (days_of_week ev)), (month ev), (day_of_month ev),
    (start_time ev);
    cbn [map List.concat app fst snd];
    repeat rewrite <- app_assoc; cbn [app];
    repeat rewrite <- app_assoc; reflexivity.
Qed.

Lemma str_of_int_plain_upto :
  forallb (fun n => plainb (str_of_int (Z.of_nat n))) (seq 1 28) = true.
Proof. vm_compute. reflexivity. Qed.

Lemma str_of_int_plain (n : Z) : 1 <= n <= 28 -> plain (str_of_int n).
Proof.
  intros Hn. apply plainb_plain.
  pose proof (proj1 (forallb_forall _ _) str_of_int_plain_upto (Z.to_nat n))
    as H.
  cbv beta in H. rewrite Z2Nat.id in H by lia. apply H, in_seq. lia.
Qed.

Lemma join_no_linebreak (sep : str) (parts : list str) :
  no_linebreak sep -> Forall no_linebreak parts ->
  no_linebreak (join sep parts).
Proof.
  intros Hsep. induction 1 as [| p parts Hp Hparts IH]; [constructor |].
  destruct parts as [| q parts]; [exact Hp |].
  change (join sep (p :: q :: parts)) with (p ++ sep ++ join sep (q :: parts)).
  repeat apply no_linebreak_app; assumption.
Qed.

Lemma weekday_codes_no_linebreak (days : list str) :
  incl days [py "M"; py "T"; py "W"; py "R"; py "F"] ->
  Forall no_linebreak days.
Proof.
  intros Hincl. apply Forall_forall. intros d Hd. apply Hincl in Hd.
  simpl in Hd.
  repeat (destruct Hd as [<- | Hd]; [repeat constructor |]). contradiction.
Qed.

Lemma recurring_frontmatter_ok (ev : RecurringEvent) :
  recurring_event_drawn ev ->
  Forall entry_ok (recurring_frontmatter ev)
  /\ NoDup (dict_keys (recurring_frontmatter ev))
  /\ undashed (tl (recurring_frontmatter ev))
  /\ dict_get (recurring_frontmatter ev) (py "date") = None
  /\ exists filename, recurring_filename ev = Return filename.
Proof.
  intros (Htz & Htitle & (cat & sub & Hc & Hs & Hpair)
          & (s & e & Hst & Hen & Hs0 & Hse & He) & Hshape).
  apply TZ_CHOICES_plain in Htz. apply TITLE_TAILS_plain in Htitle.
  apply category_pair_plain in Hpair. destruct Hpair as [Hcat Hsub].
  assert (Hct : plain (constructed_title_of ev)).
  { unfold constructed_title_of. rewrite Hc, Hs.
    now apply constructed_title_plain. }
  assert (Hps : plain (fmt_hhmm s)) by (apply fmt_hhmm_plain; lia).
  assert (Hpe : plain (fmt_hhmm e)) by (apply fmt_hhmm_plain; lia).
  unfold recurring_frontmatter, recurring_filename, recurring_base, undashed.
  rewrite Hst, Hen, (or_int_nonzero e (s + 60)) by lia.
  destruct (days_of_week ev) as [days |] eqn:Edays;
    destruct (month ev) as [m |] eqn:Em;
    destruct (day_of_month ev) as [dom |] eqn:Edom;
    try contradiction.
  - destruct Hshape as (Hlen & Hndd & Hincl).
    destruct days as [| d0 days]; [simpl in Hlen; lia |].
    cbn [truthy_list list_of app tl dict_keys map fst].
    assert (Hdays : plain (py "[" ++ join (py ",") (d0 :: days) ++ py "]")).
    { apply plain_between; try (apply plainb_plain; reflexivity).
      apply join_no_linebreak; [repeat constructor |].
      now apply weekday_codes_no_linebreak. }
    split.
    { repeat (constructor;
              [apply entry_ok_plain;
               [reflexivity | reflexivity
                | first [assumption | apply plainb_plain; reflexivity]] |]).
      constructor. }
    split; [repeat constructor; simpl; intuition discriminate |].
    split; [repeat constructor |]. split; [reflexivity | eauto].
  - destruct Hshape as [Hm Hd].
    pose proof (str_of_int_plain dom ltac:(lia)) as Hdom.
    pose proof (str_of_int_plain m ltac:(lia)) as Hmo.
    assert (Ed0 : (dom =? 0) = false) by (apply Z.eqb_neq; lia).
    assert (Em0 : (m =? 0) = false) by (apply Z.eqb_neq; lia).
    destruct (month_abbr_1_12 m Hm) as (mon & Hab & _).
    cbn [truthy_list truthy_int int_of andb app tl dict_keys map fst].
    rewrite Ed0, Em0, Hab. cbn [negb andb].
    split.
    { repeat (constructor;
              [apply entry_ok_plain;
               [reflexivity | reflexivity
                | first [assumption | apply plainb_plain; reflexivity]] |]).
      constructor. }
    split; [repeat constructor; simpl; intuition discriminate |].
    split; [repeat constructor |]. split; [reflexivity | eauto].
  - pose proof (str_of_int_plain dom ltac:(lia)) as Hdom.
    assert (Ed0 : (dom =? 0) = false) by (apply Z.eqb_neq; lia).
    cbn [truthy_list truthy_int int_of andb app tl dict_keys map fst].
    rewrite Ed0. cbn [negb].
    split.
    { repeat (constructor;
              [apply entry_ok_plain;
               [reflexivity | reflexivity
                | first [assumption | apply plainb_plain; reflexivity]] |]).
      constructor. }
    split; [repeat constructor; simpl; intuition discriminate |].
    split; [repeat constructor |]. split; [reflexivity | eauto].
Qed.

(** X16. The note [write_recurring] writes for an event of the generator
    parses to the event's fields, none of which is a [date]; the
    converter therefore skips it: nothing is gathered, nothing printed. *)
Theorem recurring_note_skipped (out_dir : str) (ev : RecurringEvent)
        (files : fs) :
  recurring_event_drawn ev ->
  exists path content body,
    write_recurring out_dir ev files
    = (Return tt, dict_set files path content)
    /\ extract_frontmatter content = Return (recurring_frontmatter ev, body)
    /\ process_markdown_file path (vault (dict_set files path content))
       = (Return tt, vault (dict_set files path content)).
Proof.
  intros Hdrawn.
  destruct (recurring_frontmatter_ok ev Hdrawn)
    as (Hok & Hnd & Hund & Hdate & filename & Hname).
  exists (os_path_join out_dir filename),
    (frontmatter_note (recurring_frontmatter ev) (recurring_tail ev)),
    (strip (recurring_tail ev)).
  assert (Hparse : extract_frontmatter
                     (frontmatter_note (recurring_frontmatter ev)
                        (recurring_tail ev))
                   = Return (recurring_frontmatter ev,
                             strip (recurring_tail ev))).
  { remember (recurring_frontmatter ev) as fm eqn:Efm.
    destruct fm as [| e rest];
      [unfold recurring_frontmatter in Efm; discriminate |].
    rewrite (extract_note_dict e rest (recurring_tail ev) Hok Hund).
    now rewrite (dict_of_fresh _ Hnd). }
  split; [now apply write_recurring_note |]. split; [exact Hparse |].
  apply process_no_date
    with (content := frontmatter_note (recurring_frontmatter ev)
                       (recurring_tail ev))
         (fm := recurring_frontmatter ev)
         (body := strip (recurring_tail ev)).
  - apply dict_get_set_same.
  - exact Hparse.
  - now left.
Qed.

Lemma recurring_note_skipped_witness :
  exists path content body,
    write_recurring (py "events_fullnote") daily_standup []
    = (Return tt, dict_set [] path content)
    /\ extract_frontmatter content
       = Return (recurring_frontmatter daily_standup, body)
    /\ process_markdown_file path (vault (dict_set [] path content))
       = (Return tt, vault (dict_set [] path content)).
Proof.
  apply (recurring_note_skipped (py "events_fullnote") daily_standup []).
  split; [simpl; intuition |]. split; [simpl; intuition |].
  split.
  - exists (py "Work"), (py "Team"). split; [reflexivity |].
    split; [reflexivity |].
    exists [py "Project Alpha"; py "Project Beta"; py "Team"; py "Clients"].
    split; [reflexivity | simpl; intuition].
  - split; [exists 540, 555; simpl; repeat split; lia |].
    simpl. split; [lia |]. split.
    + repeat constructor; simpl; intuition discriminate.
    + intros d Hd. simpl in Hd |- *. intuition.
Defined.

End PipelineFacts.
